(** * pyte PDF backend: the COS object model, the file writer and the canvas

  A shallow embedding of [pyte/backend/pdf/cos.py] and
  [pyte/backend/pdf/__init__.py], and the properties of the object
  registry, the value encoders, the cross-reference table and the font
  caches that hold of it.

  Conventions.
  - A Python [str] is a [string] holding one character per code point
    (code points up to U+00FF); a Python [bytes] is a [string] holding one
    character per byte.  [encode_utf_8] goes from the first to the second.
  - A Python [int] is a [Z].
  - A Python exception is the [Raise] case of [result].
  - Objects registered with a [Document] live in its [objects] list; a
    handle on such an object (Python's object reference) is its index in
    that list. *)

From Stdlib Require Import ZArith NArith Lia Ascii.
From stdpp Require Import base list gmap strings.

Local Open Scope Z_scope.

(** ** Python primitives *)

Module Py.

Inductive exn : Set :=
| AttributeError
| KeyError
| TypeError
| AssertionError
| OutOfModel. (* not a Python exception: a handle that points outside the
                 registry, which no run produces, or float arithmetic *)

Inductive result (A : Type) : Type :=
| Ok (a : A)
| Raise (e : exn).
Arguments Ok {A} a.
Arguments Raise {A} e.

Definition bind {A B} (r : result A) (k : A -> result B) : result B :=
  match r with
  | Ok a => k a
  | Raise e => Raise e
  end.

Abbreviation str := string.
Abbreviation bytes := string.

Definition LF : ascii := "010"%char.
Definition CR : ascii := "013"%char.
Definition TAB : ascii := "009"%char.
Definition BS : ascii := "008"%char.
Definition FF : ascii := "012"%char.
Definition backslash : ascii := "\"%char.

Definition char (c : ascii) : str := String c EmptyString.

(** [bytes.join] and [str.join]. *)
Definition join (sep : string) (parts : list string) : string :=
  String.concat sep parts.

(** [s.replace(old, new)] for a one-character [old]. *)
Fixpoint replace (old : ascii) (new : str) (s : str) : str :=
  match s with
  | EmptyString => EmptyString
  | String c s' =>
      if Ascii.eqb c old then new +:+ replace old new s'
      else String c (replace old new s')
  end.

(** [chr(code)] for [0 <= code < 256]. *)
Definition chr (code : Z) : ascii := ascii_of_N (Z.to_N code).
Definition ord (c : ascii) : Z := Z.of_N (N_of_ascii c).

(** The decimal digits of a natural number, most significant first. *)
Definition digit_char (d : N) : ascii := ascii_of_N (48 + d).

Fixpoint dec_digits (fuel : nat) (n : N) (acc : str) : str :=
  match fuel with
  | O => acc
  | S fuel' =>
      let acc' := String (digit_char (n mod 10)) acc in
      if (n <? 10)%N then acc' else dec_digits fuel' (n / 10) acc'
  end.

Definition str_N (n : N) : str :=
  dec_digits (S (N.to_nat (N.log2 n))) n EmptyString.

(** [str(i)], which is also ['{}'.format(i)], for an [int]. *)
Definition str_int (i : Z) : str :=
  (if i <? 0 then "-" else "") +:+ str_N (Z.abs_N i).

Fixpoint zeros (n : nat) : str :=
  match n with
  | O => EmptyString
  | S n' => String "0"%char (zeros n')
  end.

(** ['{:0Wd}'.format(i)]: sign first, then zeros up to [width]
    characters in all, then the digits. *)
Definition format_0d (width : nat) (i : Z) : str :=
  let sign := if i <? 0 then "-" else "" in
  let digits := str_N (Z.abs_N i) in
  sign +:+ zeros (width - String.length sign - String.length digits)
       +:+ digits.

(** [s.encode('utf_8')] on code points below 256. *)
Fixpoint encode_utf_8 (s : str) : bytes :=
  match s with
  | EmptyString => EmptyString
  | String c s' =>
      let n := N_of_ascii c in
      if (n <? 128)%N then String c (encode_utf_8 s')
      else String (ascii_of_N (192 + n / 64))
             (String (ascii_of_N (128 + n mod 64)) (encode_utf_8 s'))
  end.

(** [len(b)] and [file.tell()] count bytes. *)
Definition len (b : string) : Z := Z.of_nat (String.length b).

End Py.
Export Py.

Notation "x <- r ;; k" := (Py.bind r (fun x => k))
(at level 100, r at next level, right associativity).

(** ** cos.py: the object model and the file writer *)

Module cos.
Section Cos.

(** Python's [float] is taken as given, with the text of a float:
    [float.__repr__], which is also its [str]. *)
Variable float : Type.
Variable float_str : float -> str.

Definition PDF_VERSION : str := "1.4".

(** What [Object.__init__] leaves on the instance.  The [reference]
    attribute exists exactly when [identifier] is not [None], and is
    [Reference(document, identifier, generation)]. *)
Record ObjectAttrs : Type := {
  generation : Z;
  identifier : option Z
}.

(** The classes of cos.py.  Catalog, Pages, Page and Font are
    [Dictionary] instances.  [Null.__init__] does not run
    [Object.__init__], so a [Null] carries no [ObjectAttrs]; a [Reference]
    is not an [Object] but answers [bytes()] as well. *)
#[warnings="-register-all"] Inductive Value : Type :=
| Boolean (self : ObjectAttrs) (value : bool)
| Integer (self : ObjectAttrs) (value : Z)
| Real (self : ObjectAttrs) (value : float)
| String (self : ObjectAttrs) (value : str)
| Name (self : ObjectAttrs) (name : str)
| Array (self : ObjectAttrs) (items : list Value)
| Dictionary (self : ObjectAttrs) (items : list (str * Value))
| Stream (self : ObjectAttrs) (data : bytes)
| Null
| Reference (identifier generation : Z).

(** [Object.__init__(self)] with [document=None]. *)
Definition direct : ObjectAttrs :=
  {| generation := 0; identifier := None |}.

(** The instance attributes set by [Object.__init__], when it ran. *)
Definition attrs (v : Value) : result ObjectAttrs :=
  match v with
  | Boolean o _ | Integer o _ | Real o _ | String o _ | Name o _
  | Array o _ | Dictionary o _ | Stream o _ => Ok o
  | Null => Raise AttributeError
  | Reference _ _ => Raise AttributeError
  end.

(** [Object.is_direct]. *)
Definition is_direct (v : Value) : result bool :=
  o <- attrs v ;;
  Ok (match identifier o with None => true | Some _ => false end).

(** [Reference.bytes]. *)
Definition Reference_bytes (identifier generation : Z) : bytes :=
  encode_utf_8 (str_int identifier +:+ " " +:+ str_int generation +:+ " R").

(** [obj.reference]: set by [Object.__init__] only under [if document]. *)
Definition reference (v : Value) : result Value :=
  o <- attrs v ;;
  match identifier o with
  | Some i => Ok (Reference i (generation o))
  | None => Raise AttributeError
  end.

(** [elem.bytes()]: [Object.bytes] on an object, [Reference.bytes] on a
    reference.  [_bytes] is the class's own encoder. *)
Definition bytes_with (_bytes : Value -> result bytes) (v : Value)
  : result bytes :=
  match v with
  | Reference i g => Ok (Reference_bytes i g)
  | _ =>
      d <- is_direct v ;;
      if d then _bytes v
      else r <- reference v ;;
           match r with
           | Reference i g => Ok (Reference_bytes i g)
           | _ => Raise AttributeError
           end
  end.

Definition mapM {A B} (f : A -> result B) : list A -> result (list B) :=
  fix go l :=
    match l with
    | [] => Ok []
    | x :: l' => y <- f x ;; ys <- go l' ;; Ok (y :: ys)
    end.

(** [String._bytes] before the parentheses are put around it. *)
Definition String_escaped (value : str) : str :=
  let escaped := replace LF "\n" value in
  let escaped := replace CR "\r" escaped in
  let escaped := replace TAB "\t" escaped in
  let escaped := replace BS "\b" escaped in
  let escaped := replace FF "\f" escaped in
  fold_left (fun escaped c => replace c ("\" +:+ char c) escaped)
    ["\"%char; "("%char; ")"%char] escaped.

(** [Name(key).bytes()] of a direct name. *)
Definition Name_bytes (name : str) : bytes := encode_utf_8 ("/" +:+ name).

Definition Array_join (parts : list bytes) : bytes :=
  "[" +:+ join " " parts +:+ "]".

Definition Dictionary_join (parts : list bytes) : bytes :=
  "<< " +:+ join " " parts +:+ " >>".

(** [Stream.size]: the length of the whole buffer. *)
Definition size (data : bytes) : Z := len data.

(** [Integer.__repr__] and [Real.__repr__]:
    ['{}({})'.format(self.__class__.__name__, int.__repr__(self))]. *)
Definition Integer_repr (value : Z) : str :=
  "Integer(" +:+ str_int value +:+ ")".

Definition Real_repr (value : float) : str :=
  "Real(" +:+ float_str value +:+ ")".

(** [self._bytes()], class by class.  [int.__str__(self)] and
    [float.__str__(self)] are [object.__str__]: [int] and [float] have no
    [__str__] of their own (Python 3.8 and later), and [object.__str__]
    gives the [__repr__] of the class of [self], here [Integer.__repr__]
    and [Real.__repr__]. *)
Fixpoint _bytes (v : Value) : result bytes :=
  match v with
  | Boolean _ value => Ok (if value then "true" else "false")
  | Integer _ value => Ok (encode_utf_8 (Integer_repr value))
  | Real _ value => Ok (encode_utf_8 (Real_repr value))
  | String _ value =>
      Ok (encode_utf_8 ("(" +:+ String_escaped value +:+ ")"))
  | Name _ name => Ok (Name_bytes name)
  | Array _ items =>
      parts <- mapM (bytes_with _bytes) items ;;
      Ok (Array_join parts)
  | Dictionary _ items =>
      parts <- mapM (fun kv : str * Value =>
                       let (key, value) := kv in
                       b <- bytes_with _bytes value ;;
                       Ok (Name_bytes key +:+ " " +:+ b)) items ;;
      Ok (Dictionary_join parts)
  | Stream _ data =>
      Ok (Dictionary_join
            [Name_bytes "Length" +:+ " "
             +:+ encode_utf_8 (Integer_repr (size data))]
          +:+ String.String LF "stream" +:+ char LF
          +:+ data
          +:+ String.String LF "endstream")
  | Null => Ok "null"
  | Reference _ _ => Raise AttributeError
  end.

(** [Object.bytes] (and [Reference.bytes] on a reference). *)
Definition Object_bytes (v : Value) : result bytes := bytes_with _bytes v.

(** ['{}'.format(self.identifier)]. *)
Definition format_identifier (i : option Z) : str :=
  match i with
  | None => "None"
  | Some i => str_int i
  end.

(** [Object.indirect_bytes]. *)
Definition indirect_bytes (v : Value) : result bytes :=
  o <- attrs v ;;
  let out := encode_utf_8 (format_identifier (identifier o) +:+ " "
                           +:+ str_int (generation o) +:+ " obj"
                           +:+ char LF) in
  b <- _bytes v ;;
  Ok (out +:+ b +:+ String.String LF "endobj").

(** *** Dictionaries and arrays in place *)

(** An [OrderedDict] keeps its keys in insertion order; assigning to a
    key that is present keeps the key where it is. *)
Fixpoint dict_get (items : list (str * Value)) (key : str) : option Value :=
  match items with
  | [] => None
  | (k, v) :: items' =>
      if String.eqb k key then Some v else dict_get items' key
  end.

Fixpoint dict_set (items : list (str * Value)) (key : str) (v : Value)
  : list (str * Value) :=
  match items with
  | [] => [(key, v)]
  | (k, v') :: items' =>
      if String.eqb k key then (k, v) :: items'
      else (k, v') :: dict_set items' key v
  end.

(** [self[key]] for a [str] key. *)
Definition getitem (self : Value) (key : str) : result Value :=
  match self with
  | Dictionary _ items =>
      match dict_get items key with
      | Some v => Ok v
      | None => Raise KeyError
      end
  | _ => Raise TypeError
  end.

(** [self[key] = v] for a [str] key. *)
Definition setitem (self : Value) (key : str) (v : Value) : result Value :=
  match self with
  | Dictionary o items => Ok (Dictionary o (dict_set items key v))
  | _ => Raise TypeError
  end.

(** [self.append(x)]: only an [Array] is a list. *)
Definition Array_append (self : Value) (x : Value) : result Value :=
  match self with
  | Array o items => Ok (Array o (items ++ [x]))
  | _ => Raise AttributeError
  end.

(** [self + 1].  Only [Integer] and [Real] are numbers; the float sum of a
    [Real], which no path of this module builds as a page count, is left
    out of the model. *)
Definition add_1 (self : Value) : result Z :=
  match self with
  | Integer _ value => Ok (value + 1)
  | Real _ _ => Raise OutOfModel
  | _ => Raise TypeError
  end.

(** *** The document and its registry *)

Record XRefTable : Type := {
  XRefTable_objects : list Value;
  XRefTable_addresses : list Z
}.

(** [XRefTable.__init__]. *)
Definition XRefTable_init : XRefTable :=
  {| XRefTable_objects := []; XRefTable_addresses := [] |}.

(** [XRefTable.append]. *)
Definition XRefTable_append (self : XRefTable) (obj : Value) (address : Z)
  : XRefTable :=
  {| XRefTable_objects := XRefTable_objects self ++ [obj];
     XRefTable_addresses := XRefTable_addresses self ++ [address] |}.

(** [XRefTable.__len__]. *)
Definition XRefTable_len (self : XRefTable) : Z :=
  Z.of_nat (length (XRefTable_objects self)) + 1.

(** Python's [zip]: stops at the shorter list. *)
Fixpoint zip {A B} (l : list A) (k : list B) : list (A * B) :=
  match l, k with
  | a :: l', b :: k' => (a, b) :: zip l' k'
  | _, _ => []
  end.

(** [obj.generation]: an attribute of objects and of references. *)
Definition generation_of (obj : Value) : result Z :=
  match obj with
  | Reference _ g => Ok g
  | _ => o <- attrs obj ;; Ok (generation o)
  end.

(** One line of the table:
    ['\n{:010d} {:05d} n '.format(address, obj.generation)]. *)
Definition XRefTable_entry (obj : Value) (address : Z) : result str :=
  g <- generation_of obj ;;
  Ok (char LF +:+ format_0d 10 address +:+ " "
      +:+ format_0d 5 g +:+ " n ").

(** [XRefTable.__str__]. *)
Definition XRefTable_str (self : XRefTable) : result str :=
  let out := "xref" in
  let out := out +:+ char LF +:+ "0 "
             +:+ str_int (Z.of_nat (length (XRefTable_objects self)) + 1) in
  let out := out +:+ char LF +:+ "0000000000 65535 f " in
  fold_left (fun out (oa : Value * Z) =>
               out <- out ;;
               e <- XRefTable_entry (fst oa) (snd oa) ;;
               Ok (out +:+ e))
    (zip (XRefTable_objects self) (XRefTable_addresses self)) (Ok out).

(** [XRefTable.bytes]. *)
Definition XRefTable_bytes (self : XRefTable) : result bytes :=
  s <- XRefTable_str self ;; Ok (encode_utf_8 s).

(** [pages] and [catalog] are handles: indices into [objects]. *)
Record Document : Type := {
  _identifier : Z;
  objects : list Value;
  xref_table : XRefTable;
  pages : nat;
  catalog : nat
}.

(** A method that reads and updates the document.  An exception ends the
    run; the state it leaves behind is not modelled. *)
Definition M (A : Type) : Type := Document -> result (A * Document).

Definition ret {A} (a : A) : M A := fun d => Ok (a, d).

Definition mbind {A B} (m : M A) (k : A -> M B) : M B :=
  fun d => match m d with
           | Ok (a, d') => k a d'
           | Raise e => Raise e
           end.

Definition lift {A} (r : result A) : M A :=
  fun d => match r with Ok a => Ok (a, d) | Raise e => Raise e end.

(** [Document.next_identifier]. *)
Definition next_identifier : M Z := fun d =>
  let i := _identifier d + 1 in
  Ok (i, {| _identifier := i; objects := objects d;
             xref_table := xref_table d;
             pages := pages d; catalog := catalog d |}).

(** [Document.append]; the handle of the appended object is returned. *)
Definition append (obj : Value) : M nat := fun d =>
  Ok (length (objects d),
      {| _identifier := _identifier d; objects := objects d ++ [obj];
         xref_table := xref_table d;
         pages := pages d; catalog := catalog d |}).

(** The object behind a handle. *)
Definition deref (self : nat) : M Value := fun d =>
  match objects d !! self with
  | Some v => Ok (v, d)
  | None => Raise OutOfModel
  end.

(** An in-place update of the object behind a handle. *)
Definition update (self : nat) (f : Value -> result Value) : M unit :=
  fun d =>
    match objects d !! self with
    | Some v =>
        match f v with
        | Ok v' =>
            Ok (tt, {| _identifier := _identifier d;
                       objects := <[self := v']> (objects d);
                       xref_table := xref_table d;
                       pages := pages d; catalog := catalog d |})
        | Raise e => Raise e
        end
    | None => Raise OutOfModel
    end.

Notation "x <~ m ;; k" := (mbind m (fun x => k))
  (at level 100, m at next level, right associativity).

(** [Object.__init__(self, document)] with a document: take the next
    identifier, append [self] to the registry.  [body] is the instance as
    its class's [__init__] fills it in; the handle of the new object is
    returned. *)
Definition Object_init (body : ObjectAttrs -> Value) : M nat :=
  i <~ next_identifier ;;
  append (body {| generation := 0; identifier := Some i |}).

(** [self[key] = v] on the registered dictionary behind [self]. *)
Definition store (self : nat) (key : str) (v : Value) : M unit :=
  update self (fun obj => setitem obj key v).

(** [Catalog.__init__]. *)
Definition Catalog_init : M nat :=
  self <~ Object_init (fun o => Dictionary o []) ;;
  _ <~ store self "Type" (Name direct "Catalog") ;;
  ret self.

(** [Pages.__init__]. *)
Definition Pages_init : M nat :=
  self <~ Object_init (fun o => Dictionary o []) ;;
  _ <~ store self "Type" (Name direct "Pages") ;;
  _ <~ store self "Count" (Integer direct 0) ;;
  _ <~ store self "Kids" (Array direct []) ;;
  ret self.

(** [Page.__init__]. *)
Definition Page_init (parent : nat) (width height : float) : M nat :=
  self <~ Object_init (fun o => Dictionary o []) ;;
  _ <~ store self "Type" (Name direct "Page") ;;
  parent_obj <~ deref parent ;;
  parent_reference <~ lift (reference parent_obj) ;;
  _ <~ store self "Parent" parent_reference ;;
  _ <~ store self "Resources" (Dictionary direct []) ;;
  _ <~ store self "MediaBox"
         (Array direct [Integer direct 0; Integer direct 0;
                        Real direct width; Real direct height]) ;;
  ret self.

(** [Font.__init__]. *)
Definition Font_init : M nat :=
  self <~ Object_init (fun o => Dictionary o []) ;;
  _ <~ store self "Type" (Name direct "Font") ;;
  ret self.

(** [Stream.__init__], followed by the [write] calls that fill it. *)
Definition Stream_init (data : bytes) : M nat :=
  Object_init (fun o => Stream o data).

(** [Pages.new_page]. *)
Definition new_page (self : nat) (width height : float) : M nat :=
  page <~ Page_init self width height ;;
  page_obj <~ deref page ;;
  page_reference <~ lift (reference page_obj) ;;
  _ <~ update self (fun obj =>
         kids <- getitem obj "Kids" ;;
         kids' <- Array_append kids page_reference ;;
         setitem obj "Kids" kids') ;;
  _ <~ update self (fun obj =>
         count <- getitem obj "Count" ;;
         n <- add_1 count ;;
         setitem obj "Count" (Integer direct n)) ;;
  ret page.

(** [Document.__init__].  The [pages] and [catalog] attributes do not
    exist until they are assigned; nothing reads them before. *)
Definition Document_init : result Document :=
  let self := {| _identifier := 0; objects := [];
                 xref_table := XRefTable_init;
                 pages := 0; catalog := 0 |} in
  match (p <~ Pages_init ;;
         c <~ Catalog_init ;;
         pages_obj <~ deref p ;;
         r <~ lift (reference pages_obj) ;;
         _ <~ store c "Pages" r ;;
         ret (p, c)) self with
  | Ok ((p, c), d) =>
      Ok {| _identifier := _identifier d; objects := objects d;
            xref_table := xref_table d; pages := p; catalog := c |}
  | Raise e => Raise e
  end.

(** The loop of [Document.write] over [self.objects]: [file] is what has
    been written so far, so [file.tell()] is its length. *)
Fixpoint write_objects (objs : list Value) (table : XRefTable)
    (file : bytes) : result (XRefTable * bytes) :=
  match objs with
  | [] => Ok (table, file)
  | obj :: objs' =>
      let table := XRefTable_append table obj (len file) in
      b <- indirect_bytes obj ;;
      write_objects objs' table (file +:+ b +:+ char LF)
  end.

Definition binary_marker : bytes :=
  String.String "%"
    (String.String "220" (String.String "225"
       (String.String "216" (String.String "183" (char LF))))).

(** [Document.write] on a file that is empty when it is handed over:
    the bytes written, and the document afterwards. *)
Definition write : M bytes := fun self =>
  let file := encode_utf_8 ("%PDF-" +:+ PDF_VERSION) +:+ char LF in
  let file := file +:+ binary_marker in
  tf <- write_objects (objects self) (xref_table self) file ;;
  let (table, file) := tf : XRefTable * bytes in
  let xref_table_address := len file in
  t <- XRefTable_bytes table ;;
  let file := file +:+ t +:+ char LF in
  let file := file +:+ "trailer" +:+ char LF in
  match objects self !! catalog self with
  | None => Raise OutOfModel
  | Some catalog_obj =>
      root <- reference catalog_obj ;;
      let trailer_dict :=
        Dictionary direct [("Size", Integer direct (XRefTable_len table));
                           ("Root", root)] in
      t <- Object_bytes trailer_dict ;;
      let file := file +:+ t +:+ char LF in
      let file := file +:+ "startxref" +:+ char LF in
      let file := file +:+ encode_utf_8 (str_int xref_table_address)
                  +:+ char LF in
      let file := file +:+ "%%EOF" +:+ char LF in
      Ok (file, {| _identifier := _identifier self;
                   objects := objects self;
                   xref_table := table;
                   pages := pages self; catalog := catalog self |})
  end.

(** *** References *)

(** [Reference.target], over whatever [get_indirect_object] the document
    offers: [try: return ... except Exception: pass]. *)
Definition target_with
    (get_indirect_object : Document -> Z -> Z -> result Value)
    (document : Document) (identifier generation : Z)
  : result (option Value) :=
  match get_indirect_object document identifier generation with
  | Ok v => Ok (Some v)
  | Raise _ => Ok None
  end.

(** [self.document.get_indirect_object]: the class [Document] defines
    [append], [next_identifier] and [write] and nothing else, so the
    attribute lookup raises. *)
Definition get_indirect_object (document : Document)
    (identifier generation : Z) : result Value :=
  Raise AttributeError.

Definition target : Document -> Z -> Z -> result (option Value) :=
  target_with get_indirect_object.

(** [Reference.__getitem__]: [self.target[name]]; [None] is not
    subscriptable. *)
Definition Reference_getitem (document : Document)
    (identifier generation : Z) (name : str) : result Value :=
  t <- target document identifier generation ;;
  match t with
  | Some v => getitem v name
  | None => Raise TypeError
  end.

(** *** The runs of a document *)

(** What the methods of this module do to a document, one step at a time:
    an object of some class registers itself ([Object.__init__], the class
    keeping the attributes it is given), a registered object is changed in
    place (its attributes stay), the document is written. *)
Inductive step : Document -> Document -> Prop :=
| step_register body d self d' :
    (forall o, attrs (body o) = Ok o) ->
    Object_init body d = Ok (self, d') ->
    step d d'
| step_update self f d d' :
    (forall v v', f v = Ok v' -> attrs v' = attrs v) ->
    update self f d = Ok (tt, d') ->
    step d d'
| step_write d out d' :
    write d = Ok (out, d') ->
    step d d'.

(** The documents a run can reach from [Document()]. *)
Inductive reachable : Document -> Prop :=
| reachable_init d : Document_init = Ok d -> reachable d
| reachable_step d d' : reachable d -> step d d' -> reachable d'.

(** A method that keeps a run inside the reachable documents. *)
Definition closed_under {A} (m : M A) : Prop :=
  forall d a d', reachable d -> m d = Ok (a, d') -> reachable d'.

(** The identifiers held by the registered objects, in registry order. *)
Definition identifiers (d : Document) : list (result (option Z)) :=
  (fun v => o <- attrs v ;; Ok (identifier o)) <$> objects d.

(** The registry is numbered: the counter stands at the number of
    registered objects, and the object at index [i] holds generation 0 and
    identifier [i + 1]. *)
Definition numbered (d : Document) : Prop :=
  _identifier d = Z.of_nat (length (objects d))
  /\ forall i v, objects d !! i = Some v ->
       attrs v = Ok {| generation := 0;
                       identifier := Some (Z.of_nat i + 1) |}.

(** *** The page tree *)

(** The [Count] and [Kids] entries of the Pages node behind [self]. *)
Definition Count (d : Document) (self : nat) : option Z :=
  match objects d !! self with
  | Some (Dictionary _ items) =>
      match dict_get items "Count" with
      | Some (Integer _ n) => Some n
      | _ => None
      end
  | _ => None
  end.

Definition Kids (d : Document) (self : nat) : option (list Value) :=
  match objects d !! self with
  | Some (Dictionary _ items) =>
      match dict_get items "Kids" with
      | Some (Array _ kids) => Some kids
      | _ => None
      end
  | _ => None
  end.

(** [kid] is the reference of a registered Page, another object than the
    node behind [self], whose [Parent] entry is [parent_reference]. *)
Definition is_page_of (d : Document) (self : nat) (parent_reference : Value)
    (kid : Value) : Prop :=
  exists page page_obj,
    page <> self
    /\ objects d !! page = Some page_obj
    /\ reference page_obj = Ok kid
    /\ getitem page_obj "Type" = Ok (Name direct "Page")
    /\ getitem page_obj "Parent" = Ok parent_reference.

(** The node behind [self] is a registered Pages node in order: its
    [Count] is the number of its [Kids], and each kid is the reference of a
    Page whose parent it is. *)
Definition Pages_inv (d : Document) (self : nat) : Prop :=
  exists node r kids,
    objects d !! self = Some node
    /\ reference node = Ok r
    /\ Kids d self = Some kids
    /\ Count d self = Some (Z.of_nat (length kids))
    /\ Forall (is_page_of d self r) kids.

(** *** Values that can be encoded *)

(** Whether [elem.bytes()] and [self._bytes()] return: a [Null] used in
    place has no [identifier] to look at, and a [Reference] has no
    [_bytes]; a registered object is not looked into where it is used. *)
Definition use_okb_with (body_okb : Value -> bool) (v : Value) : bool :=
  match v with
  | Reference _ _ => true
  | Null => false
  | Boolean o _ | Integer o _ | Real o _ | String o _ | Name o _
  | Array o _ | Dictionary o _ | Stream o _ =>
      match identifier o with
      | Some _ => true
      | None => body_okb v
      end
  end.

Fixpoint body_okb (v : Value) : bool :=
  match v with
  | Array _ items => forallb (use_okb_with body_okb) items
  | Dictionary _ items =>
      forallb (fun kv : str * Value => use_okb_with body_okb (snd kv)) items
  | Reference _ _ => false
  | _ => true
  end.

Definition use_okb (v : Value) : bool := use_okb_with body_okb v.

(** What an encoder answers, against the prediction [ok]: it returns when
    [ok] holds and raises [AttributeError] when not. *)
Definition answers {A} (r : result A) (ok : bool) : Prop :=
  match r with
  | Ok _ => ok = true
  | Raise e => ok = false /\ e = AttributeError
  end.

End Cos.
End cos.

(** ** __init__.py: the backend document, its pages and the canvas *)

Module pdf.
Section Backend.

Variable float : Type.
Variable float_str : float -> str.

(** The fonts, and what the metrics collaborator tells about them:
    [font.is_core()], [font.psFont.ps_name], and the character code and
    the width of a glyph name ([by_glyph_name[glyph]['C']] and
    [['W0X']]). *)
Context {font : Type} `{Countable font}.
Variable is_core : font -> bool.
Variable ps_name : font -> str.

(** The numbers handed over by the layout engine and the metrics: their
    ['{}'.format], the displacement in glyph space [(1000 * displ) / size],
    and [int(width - displ)]. *)
Variable number : Type.
Variable number_str : number -> str.
Variable by_glyph_name : font -> str -> option (Z * number).
Variable glyph_space : number -> number -> result number.
Variable adjustment : number -> number -> result Z.

(** A canvas is its text buffer. *)
Definition Canvas : Type := str.

(** [print(text, file=self)]. *)
Definition print (self : Canvas) (text : str) : Canvas :=
  self +:+ text +:+ Py.char LF.

(** [Canvas.translate] and [PageCanvas.__init__], which translates by
    the integers [0, 0]. *)
Definition translate (self : Canvas) (x y : str) : Canvas :=
  print self ("1 0 0 1 " +:+ x +:+ " " +:+ y +:+ " cm").

Definition PageCanvas_init : Canvas :=
  translate EmptyString (str_int 0) (str_int 0).

(** [Canvas.move_to], [line_to] and [close_path]; [new_path] is [pass]. *)
Definition move_to (self : Canvas) (x y : number) : Canvas :=
  print self (number_str x +:+ " " +:+ number_str y +:+ " m").

Definition line_to (self : Canvas) (x y : number) : Canvas :=
  print self (number_str x +:+ " " +:+ number_str y +:+ " l").

Definition new_path (self : Canvas) : Canvas := self.

Definition close_path (self : Canvas) : Canvas := print self "h".

(** What [Canvas.line_path] leaves: the canvas, or the [IndexError] of
    [points[0]] on an empty list, raised before anything is printed. *)
Inductive drawn : Type :=
| Drawn (self : Canvas)
| IndexError.

(** [Canvas.line_path] on a list of points, each a pair. *)
Definition line_path (self : Canvas) (points : list (number * number))
  : drawn :=
  let self := new_path self in
  match points with
  | [] => IndexError
  | (x, y) :: rest =>
      let self := move_to self x y in
      let self :=
        fold_left (fun self (point : number * number) =>
                     line_to self (fst point) (snd point)) rest self in
      Drawn (close_path self)
  end.

(** [pdf_page] is a handle into the registry of the cos document. *)
Record Page : Type := {
  pdf_page : nat;
  width : float;
  height : float;
  canvas : Canvas;
  font_number : Z;
  font_names : gmap font str
}.

(** [fonts] maps a font to the handle of its Font dictionary. *)
Record Document : Type := {
  pdf_document : cos.Document float;
  pages : list Page;
  fonts : gmap font nat
}.

Definition M (A : Type) : Type := Document -> result (A * Document).

Definition ret {A} (a : A) : M A := fun d => Ok (a, d).

Definition mbind {A B} (m : M A) (k : A -> M B) : M B :=
  fun d => match m d with
           | Ok (a, d') => k a d'
           | Raise e => Raise e
           end.

Notation "x <~ m ;; k" := (mbind m (fun x => k))
  (at level 100, m at next level, right associativity).

(** A method of the cos document, run on [self.pdf_document]. *)
Definition on_pdf_document {A} (m : cos.M float A) : M A := fun d =>
  match m (pdf_document d) with
  | Ok (a, doc) =>
      Ok (a, {| pdf_document := doc; pages := pages d; fonts := fonts d |})
  | Raise e => Raise e
  end.

(** The page object behind a handle: an index into [pages]. *)
Definition get_page (page : nat) : M Page := fun d =>
  match pages d !! page with
  | Some p => Ok (p, d)
  | None => Raise OutOfModel
  end.

Definition set_page (page : nat) (p : Page) : M unit := fun d =>
  Ok (tt, {| pdf_document := pdf_document d;
             pages := <[page := p]> (pages d);
             fonts := fonts d |}).

(** [Document.__init__]. *)
Definition Document_init : result Document :=
  doc <- cos.Document_init float ;;
  Ok {| pdf_document := doc; pages := []; fonts := ∅ |}.

(** [Document.register_font]: the handle of the font's Font
    dictionary. *)
Definition Document_register_font (f : font) : M nat := fun d =>
  match fonts d !! f with
  | Some font_rsc => Ok (font_rsc, d)
  | None =>
      if is_core f then
        (font_rsc <~ on_pdf_document (cos.Font_init float) ;;
         _ <~ on_pdf_document
                (cos.store float font_rsc "Subtype"
                   (cos.Name float (cos.direct) "Type1")) ;;
         _ <~ on_pdf_document
                (cos.store float font_rsc "BaseFont"
                   (cos.Name float (cos.direct) (ps_name f))) ;;
         fun d => Ok (font_rsc,
                      {| pdf_document := pdf_document d;
                         pages := pages d;
                         fonts := <[f := font_rsc]> (fonts d) |})) d
      else Raise AssertionError
  end.

(** [Page.__init__]: the handle of the new page.  [width] and [height]
    are the caller's, after [float(...)]. *)
Definition Page_init (width height : float) : M nat :=
  pdf_page <~ on_pdf_document
                (fun doc => cos.new_page float (cos.pages float doc)
                              width height doc) ;;
  fun d =>
    Ok (length (pages d),
        {| pdf_document := pdf_document d;
           pages := pages d ++
                    [{| pdf_page := pdf_page; width := width;
                        height := height; canvas := PageCanvas_init;
                        font_number := 1; font_names := ∅ |}];
           fonts := fonts d |}).

(** [page_rsc = self.pdf_page['Resources']], then
    [fonts_dict = page_rsc.setdefault('Font', cos.Dictionary())], then
    [fonts_dict[name] = font_rsc.reference], on the page dictionary
    [obj]. *)
Definition add_font_resource (name : str) (font_rsc : cos.Value float)
    (obj : cos.Value float) : result (cos.Value float) :=
  page_rsc <- cos.getitem float obj "Resources" ;;
  match page_rsc with
  | cos.Dictionary _ o items =>
      let fonts_dict :=
        match cos.dict_get float items "Font" with
        | Some v => v
        | None => cos.Dictionary float cos.direct []
        end in
      font_reference <- cos.reference float font_rsc ;;
      fonts_dict' <- cos.setitem float fonts_dict name font_reference ;;
      cos.setitem float obj "Resources"
        (cos.Dictionary float o (cos.dict_set float items "Font" fonts_dict'))
  | _ => Raise AttributeError
  end.

(** [Page.register_font], on the page behind the handle [self]; the
    page's [document.backend_document] is the document it was made
    for. *)
Definition Page_register_font (self : nat) (f : font) : M str :=
  p <~ get_page self ;;
  match font_names p !! f with
  | Some name => ret name
  | None =>
      font_rsc <~ Document_register_font f ;;
      let name := "F" +:+ str_int (font_number p) in
      font_rsc_obj <~ on_pdf_document (cos.deref float font_rsc) ;;
      _ <~ on_pdf_document
             (cos.update float (pdf_page p)
                (add_font_resource name font_rsc_obj)) ;;
      _ <~ set_page self
             {| pdf_page := pdf_page p; width := width p;
                height := height p; canvas := canvas p;
                font_number := font_number p + 1;
                font_names := <[f := name]> (font_names p) |} ;;
      ret name
  end.

(** The character that [show_glyphs] writes for a character code. *)
Definition glyph_char (code : Z) : str :=
  if code <? 0 then "?"
  else if code >? 127 then "\" +:+ format_0d 3 code
  else
    let c := Py.char (chr code) in
    if String.eqb c "\" || String.eqb c "(" || String.eqb c ")"
    then "\" +:+ c
    else c.

(** The loop of [show_glyphs] over [zip(glyphs, x_displacements)]. *)
Fixpoint glyphs_string (f : font) (size : number)
    (pairs : list (str * number)) (string : str) : result str :=
  match pairs with
  | [] => Ok string
  | (glyph, displ) :: pairs' =>
      displ <- glyph_space displ size ;;
      match by_glyph_name f glyph with
      | None => Raise KeyError
      | Some (code, width) =>
          a <- adjustment width displ ;;
          glyphs_string f size pairs'
            (string +:+ "(" +:+ glyph_char code +:+ ") "
                    +:+ str_int a +:+ " ")
      end
  end.

(** [Canvas.show_glyphs] on a canvas of the page behind [page]: the
    canvas afterwards. *)
Definition show_glyphs (self : Canvas) (page : nat) (x y : number)
    (f : font) (size : number) (glyphs : list str)
    (x_displacements : list number) : M Canvas :=
  string <~ (fun d => match glyphs_string f size
                              (cos.zip glyphs x_displacements)
                              EmptyString with
                      | Ok s => Ok (s, d)
                      | Raise e => Raise e
                      end) ;;
  font_name <~ Page_register_font page f ;;
  let self := print self "BT" in
  let self := print self ("/" +:+ font_name +:+ " " +:+ number_str size
                          +:+ " Tf") in
  let self := print self (number_str x +:+ " " +:+ number_str y +:+ " Td") in
  let self := print self ("[ " +:+ string +:+ "] TJ") in
  let self := print self "ET" in
  ret self.

(** The loop of [Document.write] over [self.pages]. *)
Fixpoint attach_contents (ps : list Page) : cos.M float unit :=
  match ps with
  | [] => cos.ret float tt
  | page :: ps' =>
      cos.mbind float
        (cos.Stream_init float (encode_utf_8 (canvas page)))
        (fun contents =>
      cos.mbind float (cos.deref float contents) (fun contents_obj =>
      cos.mbind float (cos.lift float (cos.reference float contents_obj))
        (fun r =>
      cos.mbind float (cos.store float (pdf_page page) "Contents" r)
        (fun _ => attach_contents ps'))))
  end.

(** [Document.write]: the bytes of the file. *)
Definition write : M bytes := fun d =>
  (_ <~ on_pdf_document (attach_contents (pages d)) ;;
   on_pdf_document (cos.write float float_str)) d.

(** *** The calls of the backend *)

(** One call of a method of the backend that returns, from the document
    before to the document after: a page made, a font registered with the
    document or with a page, glyphs shown, the document written. *)
Inductive call : Document -> Document -> Prop :=
| call_Page_init w h p D D' :
    Page_init w h D = Ok (p, D') -> call D D'
| call_Document_register_font f h D D' :
    Document_register_font f D = Ok (h, D') -> call D D'
| call_Page_register_font self f name D D' :
    Page_register_font self f D = Ok (name, D') -> call D D'
| call_show_glyphs self page x y f size glyphs x_displacements out D D' :
    show_glyphs self page x y f size glyphs x_displacements D
      = Ok (out, D') ->
    call D D'
| call_write out D D' : write D = Ok (out, D') -> call D D'.

(** *** The documents the backend builds *)

(** What a program does with the backend, one call at a time: it makes
    the document, makes pages, registers fonts, prints on the canvas of a
    page (the canvas is a buffer that the drawing methods write to), shows
    glyphs, writes the document. *)
Inductive built : Document -> Prop :=
| built_init D : Document_init = Ok D -> built D
| built_page D w h p D' :
    built D -> Page_init w h D = Ok (p, D') -> built D'
| built_document_font D f h D' :
    built D -> Document_register_font f D = Ok (h, D') -> built D'
| built_page_font D self f name D' :
    built D -> Page_register_font self f D = Ok (name, D') -> built D'
| built_print D page p text :
    built D -> pages D !! page = Some p ->
    built {| pdf_document := pdf_document D;
             pages := <[page := {| pdf_page := pdf_page p;
                                   width := width p; height := height p;
                                   canvas := text;
                                   font_number := font_number p;
                                   font_names := font_names p |}]>
                        (pages D);
             fonts := fonts D |}
| built_glyphs D self page x y f size glyphs x_displacements out D' :
    built D ->
    show_glyphs self page x y f size glyphs x_displacements D
      = Ok (out, D') ->
    built D'
| built_write D out D' : built D -> write D = Ok (out, D') -> built D'.

(** *** What a page knows of its fonts *)





(** The aliases of a page as [Page.register_font] hands them out: each
    is [F] and a number from 1 up to, not including, [font_number], and
    no two fonts share one. *)
Definition aliases_in_order (p : Page) : Prop :=
  1 <= font_number p
  /\ (forall f name, font_names p !! f = Some name ->
         exists i, 1 <= i < font_number p /\ name = "F" +:+ str_int i)
  /\ forall f g name, font_names p !! f = Some name ->
        font_names p !! g = Some name -> f = g.


End Backend.
End pdf.

(** ** The reading side

  What a reader of the file does with the text the writer produced:
  these definitions follow the file format, not the source. *)

Module Reader.

(** Modelled from the spec: the conformant reader's unescape of the body
    of a literal string.  A backslash followed by [n], [r], [t], [b] or
    [f] is the control character, a backslash followed by any other
    character is that character.  (Octal escapes and line continuations,
    which the writer never produces, are not told apart from the
    latter.) *)
Definition unescape_char (c : ascii) : ascii :=
  if Ascii.eqb c "n" then LF
  else if Ascii.eqb c "r" then CR
  else if Ascii.eqb c "t" then TAB
  else if Ascii.eqb c "b" then BS
  else if Ascii.eqb c "f" then FF
  else c.

Fixpoint unescape (s : str) : str :=
  match s with
  | EmptyString => EmptyString
  | String c s' =>
      if Ascii.eqb c backslash then
        match s' with
        | EmptyString => EmptyString
        | String e s'' => String (unescape_char e) (unescape s'')
        end
      else String c (unescape s')
  end.

(** The body of a literal string as a reader of the format takes it, for
    the part of the format without octal escapes and line continuations.
    A backslash and [n], [r], [t], [b] or [f] is the control character; a
    backslash and any other character that is no octal digit and no end
    of line is that character.  An end of line that is not behind a
    backslash, be it a carriage return, a line feed or the two together,
    is one line feed.  [None]: a parenthesis outside an escape, a
    backslash at the end, an octal escape or a line continuation. *)
Definition is_octal_digit (c : ascii) : bool :=
  let n := N_of_ascii c in ((48 <=? n) && (n <=? 55))%N.

Fixpoint read_literal (s : str) : option str :=
  match s with
  | EmptyString => Some EmptyString
  | String c s' =>
      if Ascii.eqb c backslash then
        match s' with
        | EmptyString => None
        | String e s'' =>
            if is_octal_digit e || Ascii.eqb e LF || Ascii.eqb e CR
            then None
            else option_map (String (unescape_char e)) (read_literal s'')
        end
      else if Ascii.eqb c "(" || Ascii.eqb c ")" then None
      else if Ascii.eqb c CR then
        match s' with
        | EmptyString => Some (String LF EmptyString)
        | String e s'' =>
            if Ascii.eqb e LF
            then option_map (String LF) (read_literal s'')
            else option_map (String LF) (read_literal s')
        end
      else option_map (String c) (read_literal s')
  end.

(** The lines of a text: its pieces between line feeds. *)
Fixpoint lines_from (line : str) (s : str) : list str :=
  match s with
  | EmptyString => [line]
  | String c s' =>
      if Ascii.eqb c LF then line :: lines_from EmptyString s'
      else lines_from (line +:+ Py.char c) s'
  end.

Definition lines (s : str) : list str := lines_from EmptyString s.

(** The number a run of decimal digits stands for; [None] when a
    character is not a digit or there is none. *)
Definition digit_value (c : ascii) : option N :=
  let n := N_of_ascii c in
  if ((48 <=? n) && (n <=? 57))%N then Some (n - 48)%N else None.

Fixpoint decimal_from (acc : N) (s : str) : option N :=
  match s with
  | EmptyString => Some acc
  | String c s' =>
      match digit_value c with
      | Some d => decimal_from (acc * 10 + d) s'
      | None => None
      end
  end.

Definition decimal (s : str) : option N :=
  match s with
  | EmptyString => None
  | _ => decimal_from 0 s
  end.

(** A field of exactly [width] decimal digits that reads as [value]. *)
Definition fixed_width_decimal (width : nat) (value : Z) (field : str)
  : Prop :=
  String.length field = width /\ decimal field = Some (Z.to_N value)
  /\ 0 <= value.

(** Every character of a text has a property. *)
Fixpoint all_chars (P : ascii -> Prop) (s : str) : Prop :=
  match s with
  | EmptyString => True
  | String c s' => P c /\ all_chars P s'
  end.

Definition is_digit (c : ascii) : Prop :=
  (48 <= N_of_ascii c <= 57)%N.

Definition not_LF (c : ascii) : Prop := c <> LF.

(** A character other than the five control characters that have a
    two-character escape. *)
Definition plain (c : ascii) : Prop :=
  c <> LF /\ c <> CR /\ c <> TAB /\ c <> BS /\ c <> FF.

(** Whether the body of a literal string holds no parenthesis outside an
    escape and no backslash left over at its end: what stands between the
    outer parentheses is then read as one string, up to the closing one. *)
Fixpoint no_bare_parenthesis (s : str) : bool :=
  match s with
  | EmptyString => true
  | String c s' =>
      if Ascii.eqb c backslash then
        match s' with
        | EmptyString => false
        | String _ s'' => no_bare_parenthesis s''
        end
      else if Ascii.eqb c "(" || Ascii.eqb c ")" then false
      else no_bare_parenthesis s'
  end.

(** The texts of a list, one after the other. *)
Fixpoint flatten (parts : list str) : str :=
  match parts with
  | [] => EmptyString
  | part :: parts' => part +:+ flatten parts'
  end.

(** A line of the cross-reference table for the object [obj] written at
    [address]: ten digits of offset, a space, five digits of generation, a
    space, [n], a space. *)
Definition xref_entry {float : Type} (oa : cos.Value float * Z)
    (line : str) : Prop :=
  exists g offset gen,
    cos.generation_of float (fst oa) = Ok g
    /\ line = offset +:+ " " +:+ gen +:+ " n "
    /\ fixed_width_decimal 10 (snd oa) offset
    /\ fixed_width_decimal 5 g gen.


End Reader.
Export Reader.

(** ** A document to try things on *)

Module Example.

(** Floats with whole values stand in for Python's: [200.0]. *)
Definition float_str (x : Z) : str := str_int x +:+ ".0".

(** [Document()]. *)
Definition new_document : cos.Document Z :=
  Eval vm_compute in
    match cos.Document_init Z with
    | Ok d => d
    | Raise _ =>
        {| cos._identifier := 0; cos.objects := [];
           cos.xref_table := cos.XRefTable_init Z;
           cos.pages := 0; cos.catalog := 0 |}
    end.

(** Then [pages.new_page(200.0, 200.0)]. *)
Definition one_page : result (nat * cos.Document Z) :=
  cos.new_page Z (cos.pages Z new_document) 200 200 new_document.

Definition one_page_document : cos.Document Z :=
  Eval vm_compute in
    match one_page with
    | Ok (_, d) => d
    | Raise _ => new_document
    end.

(** The backend document of [Document(pyte_document, title)]. *)
Definition backend_document : pdf.Document Z (font := nat) :=
  Eval vm_compute in
    match pdf.Document_init Z with
    | Ok d => d
    | Raise _ =>
        {| pdf.pdf_document :=
             {| cos._identifier := 0; cos.objects := [];
                cos.xref_table := cos.XRefTable_init Z;
                cos.pages := 0; cos.catalog := 0 |};
           pdf.pages := []; pdf.fonts := ∅ |}
    end.

(** [one_page_document.write(file)]: the bytes of the file, and the
    document afterwards. *)
Definition written : result (bytes * cos.Document Z) :=
  cos.write Z float_str one_page_document.

Definition written_bytes : bytes :=
  Eval vm_compute in
    match written with
    | Ok (out, _) => out
    | Raise _ => EmptyString
    end.

Definition written_document : cos.Document Z :=
  Eval vm_compute in
    match written with
    | Ok (_, d) => d
    | Raise _ => one_page_document
    end.

(** The metrics of a font that knows two glyphs, [A] with code 65 and
    [parenleft] with code 40; the numbers of the layout are whole here. *)
Definition by_glyph_name (f : nat) (glyph : str) : option (Z * Z) :=
  if String.eqb glyph "A" then Some (65, 722)
  else if String.eqb glyph "parenleft" then Some (40, 333)
  else None.

Definition glyph_space (displ size : Z) : result Z :=
  if size =? 0 then Raise OutOfModel else Ok (1000 * displ / size).

Definition adjustment (width displ : Z) : result Z := Ok (width - displ).

(** [backend_document] after [Page(pyte_page, document, 200.0, 300.0)]. *)
Definition one_page_backend : pdf.Document Z (font := nat) :=
  Eval vm_compute in
    match pdf.Page_init Z 200 300 backend_document with
    | Ok (_, D) => D
    | Raise _ => backend_document
    end.

(** The page object of that page, as [Page.__init__] leaves it. *)
Definition first_page : pdf.Page Z (font := nat) :=
  {| pdf.pdf_page := 2; pdf.width := 200; pdf.height := 300;
     pdf.canvas := pdf.PageCanvas_init; pdf.font_number := 1;
     pdf.font_names := ∅ |}.

(** [canvas.show_glyphs(10, 20, font, 12, ['A', 'parenleft'], [0, 0])] on
    an empty canvas of that page, for the font [1]. *)
Definition shown : result (pdf.Canvas * pdf.Document Z (font := nat)) :=
  pdf.show_glyphs Z (fun _ => true) (fun _ => "Helvetica") Z str_int
    by_glyph_name glyph_space adjustment
    EmptyString 0 10 20 1%nat 12 ["A"; "parenleft"] [0; 0]
    one_page_backend.

Definition shown_canvas : pdf.Canvas :=
  Eval vm_compute in
    match shown with
    | Ok (c, _) => c
    | Raise _ => EmptyString
    end.

Definition shown_document : pdf.Document Z (font := nat) :=
  Eval vm_compute in
    match shown with
    | Ok (_, D) => D
    | Raise _ => one_page_backend
    end.

(** [Document()] after one [write], and the text of its table after a
    second [write]. *)
Definition written_once : cos.Document Z :=
  Eval vm_compute in
    match cos.write Z float_str new_document with
    | Ok (_, d) => d
    | Raise _ => new_document
    end.

Definition written_twice : cos.Document Z :=
  Eval vm_compute in
    match cos.write Z float_str written_once with
    | Ok (_, d) => d
    | Raise _ => written_once
    end.

(** A table that holds one object, recorded at the offset 10^10. *)
Definition far_table : cos.XRefTable Z :=
  cos.XRefTable_append Z (cos.XRefTable_init Z)
    (cos.Dictionary Z {| cos.generation := 0; cos.identifier := Some 1 |} [])
    10000000000.

End Example.

(** * Properties *)

Section CosProperties.

Variable float : Type.
Variable float_str : float -> str.

Local Abbreviation Value := (cos.Value float).
Local Abbreviation Document := (cos.Document float).
Local Abbreviation Null := (cos.Null float).

(** C8.  The use-site bytes of a [Null] are asked for through
    [Object.bytes], which reads [self.identifier]; [Null.__init__] never
    set it, so the call raises [AttributeError] instead of giving [null].
    Only the class's own [_bytes] gives the literal. *)
Theorem Null_bytes_raises :
  cos.Object_bytes float float_str Null = Raise AttributeError
  /\ cos._bytes float float_str Null = Ok "null"
  /\ cos.Object_bytes float float_str
       (cos.Array float cos.direct [Null]) = Raise AttributeError.
Proof. repeat split. Qed.

(** *** References *)

(** Whatever lookup the document offers, [Reference.target] never lets an
    exception of it through. *)
Lemma target_with_never_raises
    (lookup : Document -> Z -> Z -> result Value) d i g e :
  cos.target_with float lookup d i g <> Raise e.
Proof. unfold cos.target_with. destruct (lookup d i g); discriminate. Qed.

Lemma target_is_None d i g : cos.target float d i g = Ok None.
Proof. reflexivity. Qed.

(** C4.  In a new document the Pages node is registered under identifier 1,
    yet the target of its reference [1 0 R] is [None], not the node, and
    item access through the reference raises [TypeError]; the target of the
    unknown identifier 99 is the same silent [None], not an error. *)
Theorem Reference_target_swallows :
  exists d pages_obj,
    cos.Document_init float = Ok d
    /\ cos.objects float d !! 0%nat = Some pages_obj
    /\ cos.reference float pages_obj = Ok (cos.Reference float 1 0)
    /\ cos.target float d 1 0 = Ok None
    /\ cos.Reference_getitem float d 1 0 "Type" = Raise TypeError
    /\ cos.target float d 99 0 = Ok None.
Proof.
  eexists _, _. split; [vm_compute; reflexivity|].
  split; [reflexivity|]. split; [reflexivity|]. repeat split.
Qed.

(** *** Strings *)

(** C2.  The string made of one line feed is escaped to backslash,
    backslash, [n]: the pass that doubles backslashes runs after the pass
    that wrote [\n].  A reader takes that for a backslash followed by the
    letter [n], so the line feed is not restored. *)
Theorem String_escaped_newline_not_restored :
  cos.String_escaped (Py.char LF) = "\\n"
  /\ Reader.unescape (cos.String_escaped (Py.char LF)) = "\n"
  /\ Reader.unescape (cos.String_escaped (Py.char LF)) <> Py.char LF.
Proof. repeat split. discriminate. Qed.

(** *** Writing twice *)

(** C1.  A new document, written twice without being touched in between:
    both writes succeed, the cross-reference table of the first lists the
    two registered objects, that of the second lists them twice, and the
    bytes of the two files differ. *)
Theorem write_twice_differs :
  exists d out1 d1 out2 d2,
    cos.Document_init float = Ok d
    /\ cos.write float float_str d = Ok (out1, d1)
    /\ cos.write float float_str d1 = Ok (out2, d2)
    /\ cos.objects float d1 = cos.objects float d
    /\ cos.XRefTable_len float (cos.xref_table float d1) = 3
    /\ cos.XRefTable_len float (cos.xref_table float d2) = 5
    /\ out1 <> out2.
Proof.
  eexists _, _, _, _, _.
  split; [vm_compute; reflexivity|]. split; [vm_compute; reflexivity|].
  split; [vm_compute; reflexivity|].
  split; [reflexivity|]. split; [reflexivity|]. split; [reflexivity|].
  vm_compute. discriminate.
Qed.

End CosProperties.

Section BackendProperties.

(** *** The characters of [show_glyphs] *)

Lemma glyph_char_negative code : code < 0 -> pdf.glyph_char code = "?".
Proof. intros Hc. unfold pdf.glyph_char. destruct (Z.ltb_spec code 0); [done | lia]. Qed.

Lemma glyph_char_high code :
  127 < code -> pdf.glyph_char code = "\" +:+ format_0d 3 code.
Proof.
  intros Hc. unfold pdf.glyph_char.
  destruct (Z.ltb_spec code 0); [lia|].
  destruct (Z.gtb_spec code 127); [done | lia].
Qed.

Lemma glyph_char_ascii code :
  0 <= code <= 127 ->
  pdf.glyph_char code =
    if decide (code = 92 \/ code = 40 \/ code = 41)
    then "\" +:+ Py.char (chr code) else Py.char (chr code).
Proof.
  intros Hc.
  assert (Hn : exists n : nat, (n <= 127)%nat /\ code = Z.of_nat n).
  { exists (Z.to_nat code). lia. }
  destruct Hn as (n & Hn & ->).
  do 128 (destruct n as [|n]; [vm_compute; reflexivity|]). lia.
Qed.

(** C3.  A glyph whose character code is 200 is written as a backslash and
    the decimal digits [200], which is not the octal escape [\310]; so is
    the string [show_glyphs] builds for such a glyph. *)
Theorem show_glyphs_code_200_decimal :
  pdf.glyph_char 200 = "\200"
  /\ pdf.glyph_char 200 <> "\310"
  /\ pdf.glyphs_string (font := nat) Z
       (fun _ _ => Some (200, 500)) (fun displ _ => Ok displ)
       (fun width _ => Ok width)
       0%nat 12 [("Egrave", 0)] EmptyString = Ok "(\200) 500 ".
Proof. repeat split. discriminate. Qed.

End BackendProperties.

(** One step of a method on a document given by its fields. *)
Ltac doc_step :=
  cbn [cos.objects cos._identifier cos.xref_table cos.pages cos.catalog
       cos.setitem cos.getitem cos.dict_set cos.dict_get cos.reference
       cos.attrs cos.identifier cos.generation cos.Array_append cos.add_1
       pdf.pdf_document pdf.pages pdf.fonts
       String.eqb Ascii.eqb Bool.eqb Py.bind].

Section Registry.

Variable float : Type.
Variable float_str : float -> str.

Local Abbreviation Value := (cos.Value float).
Local Abbreviation Document := (cos.Document float).

(** *** What each primitive does to the registry *)

Lemma Object_init_eq body (d : Document) :
  cos.Object_init float body d =
  Ok (length (cos.objects float d),
      {| cos._identifier := cos._identifier float d + 1;
         cos.objects := cos.objects float d ++
           [body {| cos.generation := 0;
                    cos.identifier := Some (cos._identifier float d + 1) |}];
         cos.xref_table := cos.xref_table float d;
         cos.pages := cos.pages float d;
         cos.catalog := cos.catalog float d |}).
Proof. reflexivity. Qed.

Lemma update_inv self f (d d' : Document) :
  cos.update float self f d = Ok (tt, d') ->
  exists v v',
    cos.objects float d !! self = Some v /\ f v = Ok v'
    /\ d' = {| cos._identifier := cos._identifier float d;
               cos.objects := <[self := v']> (cos.objects float d);
               cos.xref_table := cos.xref_table float d;
               cos.pages := cos.pages float d;
               cos.catalog := cos.catalog float d |}.
Proof.
  unfold cos.update. intros Hu.
  destruct (cos.objects float d !! self) as [v|] eqn:Hv; [|discriminate].
  destruct (f v) as [v'|] eqn:Hf; [|discriminate].
  exists v, v'. by simplify_eq.
Qed.


Lemma write_objects_inv objs table file table' file' :
  cos.write_objects float float_str objs table file = Ok (table', file') ->
  cos.XRefTable_objects float table' =
    cos.XRefTable_objects float table ++ objs.
Proof.
  revert table file. induction objs as [|obj objs IH]; intros table file; simpl.
  - intros [= <- <-]. by rewrite app_nil_r.
  - destruct (cos.indirect_bytes float float_str obj) as [b|]; [|discriminate].
    simpl. intros Hw. apply IH in Hw. rewrite Hw. simpl.
    by rewrite <- app_assoc.
Qed.

Lemma write_inv (d d' : Document) out :
  cos.write float float_str d = Ok (out, d') ->
  exists table file,
    cos.write_objects float float_str (cos.objects float d)
      (cos.xref_table float d)
      (encode_utf_8 ("%PDF-" +:+ cos.PDF_VERSION) +:+ Py.char LF
       +:+ cos.binary_marker) = Ok (table, file)
    /\ d' = {| cos._identifier := cos._identifier float d;
               cos.objects := cos.objects float d;
               cos.xref_table := table;
               cos.pages := cos.pages float d;
               cos.catalog := cos.catalog float d |}.
Proof.
  unfold cos.write. intros Hw.
  destruct (cos.write_objects _ _ _ _ _) as [[table file]|]; [|discriminate].
  cbn [Py.bind] in Hw.
  destruct (cos.XRefTable_bytes float table); [|discriminate].
  cbn [Py.bind] in Hw.
  destruct (cos.objects float d !! cos.catalog float d); [|discriminate].
  destruct (cos.reference float v); [|discriminate]. cbn [Py.bind] in Hw.
  destruct (cos.Object_bytes _ _ _); [|discriminate]. cbn [Py.bind] in Hw.
  exists table, file. split; [done|]. by simplify_eq.
Qed.

(** *** Identifiers *)

Lemma numbered_step (d d' : Document) :
  cos.numbered float d -> cos.step float float_str d d' ->
  cos.numbered float d'.
Proof.
  intros [Hc Ho] Hs. destruct Hs as [body d self d' Hb Hi|self f d d' Hf Hu|d out d' Hw].
  - rewrite Object_init_eq in Hi. simplify_eq. split; simpl.
    + rewrite length_app. simpl. lia.
    + intros i v Hv. apply lookup_app_Some in Hv as [Hv|[Hi Hv]]; [by apply Ho|].
      apply list_lookup_singleton_Some in Hv as [Hi' <-].
      rewrite Hb. do 2 f_equal. rewrite Hc. f_equal. lia.
  - apply update_inv in Hu as (v & v' & Hv & Hfv & ->). split; simpl.
    + by rewrite length_insert.
    + intros i w Hw. destruct (decide (i = self)) as [->|Hne].
      * rewrite list_lookup_insert_eq in Hw by (by eapply lookup_lt_Some).
        simplify_eq. rewrite (Hf _ _ Hfv). by apply Ho.
      * rewrite list_lookup_insert_ne in Hw by done. by apply Ho.
  - apply write_inv in Hw as (table & file & _ & ->). by split.
Qed.

(** [Document()]: the Pages node, then the Catalog that points at it. *)
Lemma Document_init_eq :
  cos.Document_init float =
  Ok {| cos._identifier := 2;
        cos.objects :=
          [cos.Dictionary float
             {| cos.generation := 0; cos.identifier := Some 1 |}
             [("Type", cos.Name float cos.direct "Pages");
              ("Count", cos.Integer float cos.direct 0);
              ("Kids", cos.Array float cos.direct [])];
           cos.Dictionary float
             {| cos.generation := 0; cos.identifier := Some 2 |}
             [("Type", cos.Name float cos.direct "Catalog");
              ("Pages", cos.Reference float 1 0)]];
        cos.xref_table := cos.XRefTable_init float;
        cos.pages := 0;
        cos.catalog := 1 |}.
Proof. vm_compute. reflexivity. Qed.

Lemma numbered_init (d : Document) :
  cos.Document_init float = Ok d -> cos.numbered float d.
Proof.
  rewrite Document_init_eq. intros [= <-]. split; [reflexivity|].
  intros [|[|i]] v; cbn [cos.objects lookup list_lookup]; intros Hv;
    by simplify_eq.
Qed.

Lemma reachable_numbered (d : Document) :
  cos.reachable float float_str d -> cos.numbered float d.
Proof.
  induction 1 as [d Hd|d d' _ IH Hs]; [by apply numbered_init|].
  by eapply numbered_step.
Qed.

(** C7.  In every document a run reaches, the registered objects hold the
    identifiers 1, 2, ..., N in registry order, N being the number of
    registered objects, and the counter stands at N, so that the next
    registration gets N + 1. *)
Theorem identifiers_are_1_to_N (d : Document) :
  cos.reachable float float_str d ->
  cos.identifiers float d =
    (fun i : nat => Ok (Some (Z.of_nat i)))
      <$> seq 1 (length (cos.objects float d))
  /\ cos._identifier float d = Z.of_nat (length (cos.objects float d)).
Proof.
  intros Hr. apply reachable_numbered in Hr as [Hc Ho]. split; [|done].
  apply list_eq. intros i. unfold cos.identifiers.
  rewrite !list_lookup_fmap.
  destruct (cos.objects float d !! i) as [v|] eqn:Hv; simpl.
  - rewrite lookup_seq_lt by (by eapply lookup_lt_Some). simpl.
    rewrite (Ho _ _ Hv). simpl. do 3 f_equal. lia.
  - rewrite lookup_seq_ge; [done|]. by apply lookup_ge_None.
Qed.

End Registry.

Section PageTree.

Variable float : Type.
Variable float_str : float -> str.

Local Abbreviation Value := (cos.Value float).
Local Abbreviation Document := (cos.Document float).

Lemma insert_last {A} (l : list A) (x y : A) :
  <[length l := y]> (l ++ [x]) = l ++ [y].
Proof.
  replace (length l) with (length l + 0)%nat by lia.
  by rewrite insert_app_r.
Qed.

Lemma lookup_last {A} (l : list A) (x : A) :
  (l ++ [x]) !! length l = Some x.
Proof. by apply list_lookup_middle. Qed.

(** [Page.__init__] appends one dictionary with the four entries. *)
Lemma Page_init_eq (d : Document) parent node r w h :
  cos.objects float d !! parent = Some node ->
  cos.reference float node = Ok r ->
  cos.Page_init float parent w h d =
  Ok (length (cos.objects float d),
      {| cos._identifier := cos._identifier float d + 1;
         cos.objects := cos.objects float d ++
           [cos.Dictionary float
              {| cos.generation := 0;
                 cos.identifier := Some (cos._identifier float d + 1) |}
              [("Type", cos.Name float cos.direct "Page");
               ("Parent", r);
               ("Resources", cos.Dictionary float cos.direct []);
               ("MediaBox",
                cos.Array float cos.direct
                  [cos.Integer float cos.direct 0;
                   cos.Integer float cos.direct 0;
                   cos.Real float cos.direct w;
                   cos.Real float cos.direct h])]];
         cos.xref_table := cos.xref_table float d;
         cos.pages := cos.pages float d;
         cos.catalog := cos.catalog float d |}).
Proof.
  intros Hnode Hr.
  unfold cos.Page_init, cos.mbind, cos.store, cos.ret, cos.lift, cos.deref.
  rewrite Object_init_eq.
  unfold cos.update. doc_step.
  rewrite lookup_last. doc_step. rewrite insert_last.
  rewrite (lookup_app_l_Some _ _ _ _ Hnode), Hr. doc_step.
  rewrite lookup_last. doc_step. rewrite insert_last.
  rewrite lookup_last. doc_step. rewrite insert_last.
  rewrite lookup_last. doc_step. rewrite insert_last.
  reflexivity.
Qed.

Lemma dict_get_set_eq (items : list (str * Value)) key v :
  cos.dict_get float (cos.dict_set float items key v) key = Some v.
Proof.
  induction items as [|[k v'] items IH]; simpl.
  - by rewrite String.eqb_refl.
  - destruct (String.eqb k key) eqn:Hk; simpl; by rewrite Hk.
Qed.

Lemma dict_get_set_ne (items : list (str * Value)) key key' v :
  key <> key' ->
  cos.dict_get float (cos.dict_set float items key v) key' =
  cos.dict_get float items key'.
Proof.
  intros Hne. induction items as [|[k v'] items IH]; simpl.
  - destruct (String.eqb_spec key key'); [done | reflexivity].
  - destruct (String.eqb_spec k key) as [->|Hk]; simpl.
    + destruct (String.eqb_spec key key'); [done | reflexivity].
    + by rewrite IH.
Qed.

(** [Pages.new_page] appends the page and rewrites the node in place. *)
Lemma new_page_eq (d : Document) self o items i ko kids co n w h :
  cos.objects float d !! self = Some (cos.Dictionary float o items) ->
  cos.identifier o = Some i ->
  cos.dict_get float items "Kids" = Some (cos.Array float ko kids) ->
  cos.dict_get float items "Count" = Some (cos.Integer float co n) ->
  cos.new_page float self w h d =
  Ok (length (cos.objects float d),
      {| cos._identifier := cos._identifier float d + 1;
         cos.objects :=
           <[self := cos.Dictionary float o
               (cos.dict_set float
                  (cos.dict_set float items "Kids"
                     (cos.Array float ko
                        (kids ++ [cos.Reference float
                                    (cos._identifier float d + 1) 0])))
                  "Count" (cos.Integer float cos.direct (n + 1)))]>
           (cos.objects float d ++
            [cos.Dictionary float
               {| cos.generation := 0;
                  cos.identifier := Some (cos._identifier float d + 1) |}
               [("Type", cos.Name float cos.direct "Page");
                ("Parent", cos.Reference float i (cos.generation o));
                ("Resources", cos.Dictionary float cos.direct []);
                ("MediaBox",
                 cos.Array float cos.direct
                   [cos.Integer float cos.direct 0;
                    cos.Integer float cos.direct 0;
                    cos.Real float cos.direct w;
                    cos.Real float cos.direct h])]]);
         cos.xref_table := cos.xref_table float d;
         cos.pages := cos.pages float d;
         cos.catalog := cos.catalog float d |}).
Proof.
  intros Hnode Hi Hkids Hcount.
  assert (Hlt : (self < length (cos.objects float d))%nat)
    by (by eapply lookup_lt_Some).
  unfold cos.new_page, cos.mbind.
  erewrite Page_init_eq;
    [|exact Hnode|by unfold cos.reference; simpl; rewrite Hi].
  unfold cos.deref, cos.lift, cos.ret, cos.update. doc_step.
  rewrite lookup_last. doc_step.
  rewrite (lookup_app_l_Some _ _ _ _ Hnode). doc_step.
  rewrite Hkids. doc_step.
  rewrite list_lookup_insert_eq by (rewrite length_app; simpl; lia).
  doc_step. rewrite dict_get_set_ne by done. rewrite Hcount. doc_step.
  by rewrite list_insert_insert_eq.
Qed.

Lemma Kids_Some (d : Document) self kids :
  cos.Kids float d self = Some kids ->
  exists o items ko,
    cos.objects float d !! self = Some (cos.Dictionary float o items)
    /\ cos.dict_get float items "Kids" = Some (cos.Array float ko kids).
Proof.
  unfold cos.Kids. intros Hk.
  destruct (cos.objects float d !! self) as [[]|]; try discriminate.
  destruct (cos.dict_get float items "Kids") as [[]|] eqn:Hd;
    try discriminate.
  injection Hk as ->. eauto.
Qed.

Lemma Count_Some (d : Document) self o items n :
  cos.objects float d !! self = Some (cos.Dictionary float o items) ->
  cos.Count float d self = Some n ->
  exists co, cos.dict_get float items "Count" = Some (cos.Integer float co n).
Proof.
  unfold cos.Count. intros -> Hc.
  destruct (cos.dict_get float items "Count") as [[]|] eqn:Hd;
    try discriminate.
  injection Hc as ->. eauto.
Qed.

(** What [Pages.new_page] does to a Pages node in order and to the rest of
    the registry. *)
Lemma new_page_spec (d : Document) self w h :
  cos.Pages_inv float d self ->
  exists d' kids kid page_obj,
    cos.new_page float self w h d = Ok (length (cos.objects float d), d')
    /\ cos.Kids float d self = Some kids
    /\ cos.Count float d self = Some (Z.of_nat (length kids))
    /\ cos.Kids float d' self = Some (kids ++ [kid])
    /\ cos.Count float d' self = Some (Z.of_nat (length kids) + 1)
    /\ cos.objects float d' !! length (cos.objects float d) = Some page_obj
    /\ cos.reference float page_obj = Ok kid
    /\ cos.Pages_inv float d' self
    /\ length (cos.objects float d') = S (length (cos.objects float d))
    /\ (forall j v, j <> self -> cos.objects float d !! j = Some v ->
          cos.objects float d' !! j = Some v)
    /\ (forall v, cos.objects float d !! self = Some v ->
          exists v', cos.objects float d' !! self = Some v'
                     /\ cos.attrs float v' = cos.attrs float v)
    /\ (exists o items,
          page_obj = cos.Dictionary float o items
          /\ cos.dict_get float items "Resources"
             = Some (cos.Dictionary float cos.direct []))
    /\ cos.pages float d' = cos.pages float d.
Proof.
  intros (node & r & kids & Hnode & Hr & Hkids & Hcount & Hall).
  destruct (Kids_Some _ _ _ Hkids) as (o & items & ko & Hnode' & Hk).
  destruct (Count_Some _ _ _ _ _ Hnode' Hcount) as (co & Hc).
  rewrite Hnode in Hnode'. injection Hnode' as ->.
  unfold cos.reference in Hr. simpl in Hr.
  destruct (cos.identifier o) as [i|] eqn:Hi; [|discriminate].
  injection Hr as <-.
  assert (Hlt : (self < length (cos.objects float d))%nat)
    by (by eapply lookup_lt_Some).
  pose proof (new_page_eq d self o items i ko kids co _ w h Hnode Hi Hk Hc)
    as Heq.
  match type of Heq with
  | context [<[self := ?nd]> (_ ++ [?pg])] =>
      set (node' := nd) in *; set (page_obj := pg) in *
  end.
  match type of Heq with _ = Ok (_, ?x) => set (d' := x) in * end.
  assert (Hself : cos.objects float d' !! self = Some node').
  { apply list_lookup_insert_eq. rewrite length_app. simpl. lia. }
  assert (Hpage : cos.objects float d' !! length (cos.objects float d)
                  = Some page_obj).
  { simpl. rewrite list_lookup_insert_ne by lia. apply lookup_last. }
  assert (Hrest : forall j v, j <> self ->
            cos.objects float d !! j = Some v ->
            cos.objects float d' !! j = Some v).
  { intros j v Hj Hv. simpl. rewrite list_lookup_insert_ne by done.
    by apply lookup_app_l_Some. }
  assert (HK : cos.Kids float d' self
               = Some (kids ++ [cos.Reference float
                                  (cos._identifier float d + 1) 0])).
  { unfold cos.Kids. rewrite Hself. unfold node'.
    rewrite dict_get_set_ne by done. by rewrite dict_get_set_eq. }
  assert (HC : cos.Count float d' self = Some (Z.of_nat (length kids) + 1)).
  { unfold cos.Count. rewrite Hself. unfold node'.
    by rewrite dict_get_set_eq. }
  exists d', kids, (cos.Reference float (cos._identifier float d + 1) 0),
    page_obj.
  split; [exact Heq|]. split; [done|]. split; [done|].
  split; [exact HK|]. split; [exact HC|]. split; [exact Hpage|].
  split; [reflexivity|]. split.
  { exists node', (cos.Reference float i (cos.generation o)),
      (kids ++ [cos.Reference float (cos._identifier float d + 1) 0]).
    split; [exact Hself|].
    split; [by unfold cos.reference; simpl; rewrite Hi|].
    split; [exact HK|].
    split; [rewrite HC; f_equal; rewrite length_app; simpl; lia|].
    apply Forall_app. split.
    - eapply Forall_impl; [exact Hall|].
      intros kid (page & pobj & Hne & Hp & Hrp & Ht & Hpar).
      exists page, pobj. split; [done|]. split; [by apply Hrest|done].
    - apply Forall_singleton.
      exists (length (cos.objects float d)), page_obj.
      split; [lia|]. split; [exact Hpage|]. repeat split. }
  split; [simpl; rewrite length_insert, length_app; simpl; lia|].
  split; [exact Hrest|]. split.
  { intros v Hv. rewrite Hnode in Hv. injection Hv as <-.
    exists node'. split; [exact Hself|reflexivity]. }
  split; [|reflexivity].
  eexists _, _. split; [reflexivity|reflexivity].
Qed.

(** A new document's Pages node is in order, with no kids. *)
Lemma Document_init_Pages_inv (d : Document) :
  cos.Document_init float = Ok d ->
  cos.Pages_inv float d (cos.pages float d)
  /\ cos.Kids float d (cos.pages float d) = Some [].
Proof.
  rewrite Document_init_eq. intros [= <-]. split; [|reflexivity].
  eexists _, _, []. repeat split. constructor.
Qed.

(** [Pages.__init__] registers a node in order, with no kids. *)
Lemma Pages_init_spec (d : Document) :
  exists d',
    cos.Pages_init float d = Ok (length (cos.objects float d), d')
    /\ cos.Pages_inv float d' (length (cos.objects float d))
    /\ cos.Kids float d' (length (cos.objects float d)) = Some []
    /\ cos.Count float d' (length (cos.objects float d)) = Some 0.
Proof.
  eexists. split.
  { unfold cos.Pages_init, cos.mbind, cos.store, cos.ret.
    rewrite Object_init_eq. unfold cos.update. doc_step.
    rewrite lookup_last. doc_step. rewrite insert_last.
    rewrite lookup_last. doc_step. rewrite insert_last.
    rewrite lookup_last. doc_step. rewrite insert_last.
    reflexivity. }
  assert (Hk : forall i (objs : list Value) x t p c,
            cos.Kids float
              {| cos._identifier := i; cos.objects := objs ++ [x];
                 cos.xref_table := t; cos.pages := p; cos.catalog := c |}
              (length objs)
            = match x with
              | cos.Dictionary _ _ items =>
                  match cos.dict_get float items "Kids" with
                  | Some (cos.Array _ _ kids) => Some kids
                  | _ => None
                  end
              | _ => None
              end).
  { intros. unfold cos.Kids. cbn [cos.objects]. by rewrite lookup_last. }
  assert (Hc : forall i (objs : list Value) x t p c,
            cos.Count float
              {| cos._identifier := i; cos.objects := objs ++ [x];
                 cos.xref_table := t; cos.pages := p; cos.catalog := c |}
              (length objs)
            = match x with
              | cos.Dictionary _ _ items =>
                  match cos.dict_get float items "Count" with
                  | Some (cos.Integer _ _ n) => Some n
                  | _ => None
                  end
              | _ => None
              end).
  { intros. unfold cos.Count. cbn [cos.objects]. by rewrite lookup_last. }
  split; [|split; [by rewrite Hk | by rewrite Hc]].
  eexists _, _, []. split; [cbn [cos.objects]; apply lookup_last|].
  split; [reflexivity|]. split; [by rewrite Hk|]. split; [by rewrite Hc|].
  constructor.
Qed.

(** A node in order stays in order when another object registers
    itself... *)
Lemma Pages_inv_register (d d' : Document) self body h :
  cos.Pages_inv float d self ->
  cos.Object_init float body d = Ok (h, d') ->
  cos.Pages_inv float d' self.
Proof.
  intros (node & r & kids & Hnode & Hr & Hkids & Hcount & Hall).
  rewrite Object_init_eq. intros [= _ <-].
  exists node, r, kids.
  split; [cbn [cos.objects]; by apply lookup_app_l_Some|].
  split; [done|].
  split.
  { unfold cos.Kids in *. cbn [cos.objects].
    by rewrite (lookup_app_l_Some _ _ _ _ Hnode), <- Hkids, Hnode. }
  split.
  { unfold cos.Count in *. cbn [cos.objects].
    by rewrite (lookup_app_l_Some _ _ _ _ Hnode), <- Hcount, Hnode. }
  eapply Forall_impl; [exact Hall|].
  intros kid (page & pobj & Hne & Hp & Hrest).
  exists page, pobj. split; [done|]. split; [|done].
  cbn [cos.objects]. by apply lookup_app_l_Some.
Qed.

(** ... and when another object is changed in place, as long as the
    change leaves that object's reference and its [Type] and [Parent]
    entries alone. *)
Lemma Pages_inv_update (d d' : Document) self other f :
  cos.Pages_inv float d self ->
  other <> self ->
  (forall v v', f v = Ok v' ->
     cos.reference float v' = cos.reference float v
     /\ cos.getitem float v' "Type" = cos.getitem float v "Type"
     /\ cos.getitem float v' "Parent" = cos.getitem float v "Parent") ->
  cos.update float other f d = Ok (tt, d') ->
  cos.Pages_inv float d' self.
Proof.
  intros (node & r & kids & Hnode & Hr & Hkids & Hcount & Hall) Hne Hf Hu.
  apply update_inv in Hu as (v & v' & Hv & Hfv & ->).
  destruct (Hf _ _ Hfv) as (Hfr & Hft & Hfp).
  exists node, r, kids.
  split; [cbn [cos.objects]; by rewrite list_lookup_insert_ne|].
  split; [done|].
  split.
  { unfold cos.Kids in *. cbn [cos.objects].
    by rewrite list_lookup_insert_ne. }
  split.
  { unfold cos.Count in *. cbn [cos.objects].
    by rewrite list_lookup_insert_ne. }
  eapply Forall_impl; [exact Hall|].
  intros kid (page & pobj & Hnp & Hp & Hrp & Htp & Hpp).
  destruct (decide (page = other)) as [->|Hpo].
  - exists other, v'. rewrite Hv in Hp. injection Hp as ->.
    split; [done|]. split.
    { cbn [cos.objects]. apply list_lookup_insert_eq.
      by eapply lookup_lt_Some. }
    by rewrite Hfr, Hft, Hfp.
  - exists page, pobj. split; [done|]. split; [|done].
    cbn [cos.objects]. by rewrite list_lookup_insert_ne.
Qed.

(** C10.  On a Pages node in order, [new_page] succeeds; it appends the
    reference of the new page to [Kids], raises [Count] by one, and leaves
    the node in order: [Count] is again the number of [Kids], and every kid
    is the reference of a Page whose [Parent] is the reference of the
    node. *)
Theorem new_page_keeps_Pages_in_order (d : Document) self w h :
  cos.Pages_inv float d self ->
  exists page d' kids kid,
    cos.new_page float self w h d = Ok (page, d')
    /\ cos.Kids float d self = Some kids
    /\ cos.Count float d self = Some (Z.of_nat (length kids))
    /\ cos.Kids float d' self = Some (kids ++ [kid])
    /\ cos.Count float d' self = Some (Z.of_nat (length (kids ++ [kid])))
    /\ (exists page_obj, cos.objects float d' !! page = Some page_obj
                          /\ cos.reference float page_obj = Ok kid)
    /\ cos.Pages_inv float d' self.
Proof.
  intros Hinv.
  destruct (new_page_spec d self w h Hinv)
    as (d' & kids & kid & page_obj & Hnp & Hk & Hc & Hk' & Hc' & Hp & Hr
        & Hinv' & _).
  exists (length (cos.objects float d)), d', kids, kid.
  split; [done|]. split; [done|]. split; [done|]. split; [done|].
  split; [rewrite Hc'; f_equal; rewrite length_app; simpl; lia|].
  split; [eauto|done].
Qed.

End PageTree.



Section Fonts.

Variable float : Type.
Context {font : Type} `{Countable font}.
Variable is_core : font -> bool.
Variable ps_name : font -> str.

Local Abbreviation Value := (cos.Value float).
Local Abbreviation Document := (pdf.Document float (font := font)).
Local Abbreviation Page := (pdf.Page float (font := font)).

(** The Font dictionary that [Document.register_font] makes for [f] when
    the counter of the registry stands at [i]. *)
Local Abbreviation Font_dictionary i f :=
  (cos.Dictionary float
     {| cos.generation := 0; cos.identifier := Some (i + 1) |}
     [("Type", cos.Name float cos.direct "Font");
      ("Subtype", cos.Name float cos.direct "Type1");
      ("BaseFont", cos.Name float cos.direct (ps_name f))]).



Lemma Page_register_font_hit (D : Document) self (P : Page) f name :
  pdf.pages float D !! self = Some P ->
  pdf.font_names float P !! f = Some name ->
  pdf.Page_register_font float is_core ps_name self f D = Ok (name, D).
Proof.
  intros HP Hn. unfold pdf.Page_register_font, pdf.mbind, pdf.get_page.
  rewrite HP. cbv beta iota. by rewrite Hn.
Qed.









End Fonts.

(** * Text *)

#[local] Arguments String.append !_ _ /.

Section Text.

Lemma append_nil_r (s : string) : s +:+ "" = s.
Proof. induction s as [|c s IH]; simpl; [done | by rewrite IH]. Qed.

Lemma append_assoc (a b c : string) : (a +:+ b) +:+ c = a +:+ b +:+ c.
Proof. induction a as [|x a IH]; simpl; [done | by rewrite IH]. Qed.

Lemma length_append (a b : string) :
  String.length (a +:+ b) = (String.length a + String.length b)%nat.
Proof. induction a as [|x a IH]; simpl; [done | by rewrite IH]. Qed.

Lemma len_append (a b : string) : len (a +:+ b) = len a + len b.
Proof. unfold len. rewrite length_append. lia. Qed.

Lemma all_chars_append P a b :
  all_chars P (a +:+ b) <-> all_chars P a /\ all_chars P b.
Proof. induction a as [|x a IH]; simpl; [tauto | rewrite IH; tauto]. Qed.

Lemma all_chars_impl (P Q : ascii -> Prop) s :
  (forall c, P c -> Q c) -> all_chars P s -> all_chars Q s.
Proof.
  intros HPQ. induction s as [|c s IH]; simpl; [done|].
  intros [Hc Hs]. split; [by apply HPQ | by apply IH].
Qed.

(** *** Decimal digits *)

Lemma digit_value_digit_char d :
  (d < 10)%N -> Reader.digit_value (digit_char d) = Some d.
Proof.
  intros Hd. unfold Reader.digit_value, digit_char.
  rewrite N_ascii_embedding by lia.
  destruct (N.leb_spec 48 (48 + d)); [|lia].
  destruct (N.leb_spec (48 + d) 57); [|lia].
  simpl. f_equal. lia.
Qed.

Lemma is_digit_digit_char d : (d < 10)%N -> is_digit (digit_char d).
Proof.
  intros Hd. unfold is_digit, digit_char. rewrite N_ascii_embedding by lia. lia.
Qed.

Lemma decimal_from_append a x y :
  Reader.decimal_from a (x +:+ y) =
  match Reader.decimal_from a x with
  | Some v => Reader.decimal_from v y
  | None => None
  end.
Proof.
  revert a. induction x as [|c x IH]; intros a; simpl; [done|].
  destruct (Reader.digit_value c); [apply IH | done].
Qed.

Lemma div_mod_10 n :
  exists q r, (n / 10 = q /\ n mod 10 = r /\ n = 10 * q + r /\ r < 10)%N.
Proof.
  exists (n / 10)%N, (n mod 10)%N. split; [done|]. split; [done|].
  split; [by apply N.div_mod | by apply N.mod_lt].
Qed.

Lemma log2_div_10 n : (10 <= n)%N -> (N.log2 (n / 10) < N.log2 n)%N.
Proof.
  intros Hn. destruct (div_mod_10 n) as (q & r & -> & _ & Hdiv & Hr).
  assert (H2 : (2 * q <= n)%N) by lia.
  apply N.log2_le_mono in H2. rewrite N.log2_double in H2 by lia. lia.
Qed.

(** The digits written for [n]: they read back as [n], and there are no
    more of them than [n] needs. *)
Lemma dec_digits_spec fuel : forall n acc,
  (N.to_nat (N.log2 n) < fuel)%nat ->
  exists ds,
    dec_digits fuel n acc = ds +:+ acc
    /\ all_chars is_digit ds
    /\ (forall a, Reader.decimal_from a ds
                  = Some (a * 10 ^ N.of_nat (String.length ds) + n)%N)
    /\ (0 < String.length ds)%nat
    /\ (n < 10 ^ N.of_nat (String.length ds))%N
    /\ ((1 < String.length ds)%nat ->
        (10 ^ N.of_nat (String.length ds - 1) <= n)%N).
Proof.
  induction fuel as [|fuel IH]; intros n acc Hfuel; [lia|].
  simpl. destruct (N.ltb_spec n 10) as [Hn|Hn].
  - exists (Py.char (digit_char (n mod 10))).
    rewrite N.mod_small by done.
    split; [done|]. split; [split; [by apply is_digit_digit_char|done]|].
    split.
    { intros a. simpl. rewrite digit_value_digit_char by done.
      f_equal; lia. }
    split; [simpl; lia|]. split; [done|]. simpl. lia.
  - pose proof (log2_div_10 n Hn) as Hlog.
    destruct (div_mod_10 n) as (q & r & Hq & Hr & Hdiv & Hmod).
    rewrite Hq in *. rewrite Hr in *.
    destruct (IH q (String (digit_char r) acc))
      as (ds & Heq & Hdig & Hval & Hpos & Hub & Hlb); [lia|].
    exists (ds +:+ Py.char (digit_char r)).
    rewrite length_append. simpl String.length.
    replace (N.of_nat (String.length ds + 1))
      with (N.succ (N.of_nat (String.length ds))) by lia.
    rewrite N.pow_succ_r'.
    split; [by rewrite Heq, append_assoc|].
    split.
    { apply all_chars_append. split; [done|].
      split; [by apply is_digit_digit_char|done]. }
    split.
    { intros a. rewrite decimal_from_append, Hval. simpl.
      rewrite digit_value_digit_char by done. f_equal. lia. }
    split; [lia|]. split; [lia|].
    intros _.
    replace (String.length ds + 1 - 1)%nat with (String.length ds) by lia.
    destruct (decide (1 < String.length ds)%nat) as [Hl|Hl].
    + specialize (Hlb Hl).
      replace (N.of_nat (String.length ds))
        with (N.succ (N.of_nat (String.length ds - 1))) by lia.
      rewrite N.pow_succ_r'. lia.
    + replace (String.length ds) with 1%nat by lia.
      change (10 ^ N.of_nat 1)%N with 10%N. lia.
Qed.

Lemma str_N_spec n :
  all_chars is_digit (str_N n)
  /\ (forall a, Reader.decimal_from a (str_N n)
                = Some (a * 10 ^ N.of_nat (String.length (str_N n)) + n)%N)
  /\ (0 < String.length (str_N n))%nat
  /\ forall w, (0 < w)%nat -> (n < 10 ^ N.of_nat w)%N ->
       (String.length (str_N n) <= w)%nat.
Proof.
  destruct (dec_digits_spec (S (N.to_nat (N.log2 n))) n EmptyString)
    as (ds & Heq & Hdig & Hval & Hpos & Hub & Hlb); [lia|].
  rewrite append_nil_r in Heq. unfold str_N. rewrite Heq.
  split; [done|]. split; [done|]. split; [done|].
  intros w Hw Hn.
  destruct (decide (1 < String.length ds)%nat) as [Hl|Hl]; [|lia].
  specialize (Hlb Hl).
  assert (Hlt : (10 ^ N.of_nat (String.length ds - 1) < 10 ^ N.of_nat w)%N)
    by lia.
  apply N.pow_lt_mono_r_iff in Hlt; lia.
Qed.

Lemma decimal_eq s :
  (0 < String.length s)%nat -> Reader.decimal s = Reader.decimal_from 0 s.
Proof. destruct s; simpl; [lia | done]. Qed.

Lemma decimal_from_zeros k s :
  Reader.decimal_from 0 (zeros k +:+ s) = Reader.decimal_from 0 s.
Proof. induction k as [|k IH]; simpl; [done|]. exact IH. Qed.

Lemma length_zeros k : String.length (zeros k) = k.
Proof. induction k as [|k IH]; simpl; [done | by rewrite IH]. Qed.

Lemma all_chars_zeros k : all_chars is_digit (zeros k).
Proof.
  induction k as [|k IH]; simpl; [done|]. split; [|done].
  unfold is_digit. simpl. lia.
Qed.

(** ['{:0Wd}'] of a number that fits: exactly [w] digits, which read back
    as the number. *)
Lemma format_0d_fixed w v :
  (0 < w)%nat -> 0 <= v < 10 ^ Z.of_nat w ->
  Reader.fixed_width_decimal w v (format_0d w v)
  /\ all_chars is_digit (format_0d w v).
Proof.
  intros Hw Hv. unfold format_0d.
  destruct (Z.ltb_spec v 0) as [|_]; [lia|].
  destruct (str_N_spec (Z.abs_N v)) as (Hdig & Hval & Hpos & Hlen).
  assert (Hl : (String.length (str_N (Z.abs_N v)) <= w)%nat).
  { apply Hlen; [done|].
    assert (Z.of_N (Z.abs_N v) < Z.of_N (10 ^ N.of_nat w)); [|lia].
    rewrite N2Z.inj_abs_N, N2Z.inj_pow, nat_N_Z. simpl Z.of_N. lia. }
  simpl String.length. cbn [String.append].
  split.
  - split; [|split; [|lia]].
    + rewrite length_append, length_zeros. lia.
    + unfold Reader.decimal.
      destruct (zeros _ +:+ _) eqn:Hz.
      * apply (f_equal String.length) in Hz.
        rewrite length_append in Hz. simpl in Hz. lia.
      * rewrite <- Hz, decimal_from_zeros, Hval. f_equal. lia.
  - apply all_chars_append. split; [apply all_chars_zeros | done].
Qed.

End Text.

(** * The cross-reference table *)

Section XRef.

Variable float : Type.

Local Abbreviation Value := (cos.Value float).
Local Abbreviation XRefTable := (cos.XRefTable float).

Lemma is_digit_not_LF c : is_digit c -> not_LF c.
Proof.
  unfold is_digit, not_LF. intros Hc ->. simpl in Hc. lia.
Qed.

Lemma lines_from_no_LF a : forall line s,
  all_chars not_LF a ->
  Reader.lines_from line (a +:+ s) = Reader.lines_from (line +:+ a) s.
Proof.
  induction a as [|c a IH]; intros line s; simpl.
  - by rewrite append_nil_r.
  - intros [Hc Ha]. destruct (Ascii.eqb_spec c LF) as [->|_]; [done|].
    rewrite IH by done. by rewrite append_assoc.
Qed.

Lemma lines_from_entries bodies : forall line,
  Forall (all_chars not_LF) bodies ->
  Reader.lines_from line (flatten (String LF <$> bodies)) = line :: bodies.
Proof.
  induction bodies as [|b bodies IH]; intros line Hb; simpl; [done|].
  apply Forall_cons in Hb as [Hb Hbs]. f_equal.
  rewrite lines_from_no_LF by done. simpl. by apply IH.
Qed.

(** The loop of [XRefTable.__str__]. *)
Lemma XRefTable_str_loop (l : list (Value * Z)) : forall out es,
  Forall2 (fun oa e => cos.XRefTable_entry float (fst oa) (snd oa) = Ok e)
    l es ->
  fold_left (fun out (oa : Value * Z) =>
               out <- out ;;
               e <- cos.XRefTable_entry float (fst oa) (snd oa) ;;
               Ok (out +:+ e)) l (Ok out)
  = Ok (out +:+ flatten es).
Proof.
  induction l as [|oa l IH]; intros out es Hes.
  - apply Forall2_nil_inv_l in Hes as ->. simpl. by rewrite append_nil_r.
  - apply Forall2_cons_inv_l in Hes as (e & es' & He & Hes' & ->).
    cbn [fold_left Py.bind]. rewrite He. cbn [Py.bind].
    rewrite (IH _ _ Hes'). simpl. by rewrite append_assoc.
Qed.

Lemma zip_length {A B} (l : list A) (k : list B) :
  length l = length k -> length (cos.zip l k) = length l.
Proof.
  revert k. induction l as [|a l IH]; intros [|b k]; simpl; try done.
  intros [= Hl]. by rewrite IH.
Qed.

Lemma zip_Forall {A B} (P : A -> Prop) (Q : B -> Prop) (l : list A)
    (k : list B) :
  Forall P l -> Forall Q k ->
  Forall (fun ab => P (fst ab) /\ Q (snd ab)) (cos.zip l k).
Proof.
  intros Hl. revert k. induction Hl as [|a l Ha Hl IH]; intros k Hk;
    [constructor|].
  destruct Hk as [|b k Hb Hk]; simpl; [constructor|].
  constructor; [done | by apply IH].
Qed.

(** One line of the table, for an offset and a generation that fit their
    fields. *)
Lemma XRefTable_entry_spec (obj : Value) address g :
  cos.generation_of float obj = Ok g ->
  0 <= address < 10000000000 ->
  0 <= g < 100000 ->
  exists body,
    cos.XRefTable_entry float obj address = Ok (String LF body)
    /\ all_chars not_LF body
    /\ xref_entry (obj, address) body.
Proof.
  intros Ho Ha Hg. unfold cos.XRefTable_entry. rewrite Ho. cbn [Py.bind].
  destruct (format_0d_fixed 10 address) as [Hfa Hda]; [lia|simpl; lia|].
  destruct (format_0d_fixed 5 g) as [Hfg Hdg]; [lia|simpl; lia|].
  eexists. split; [reflexivity|]. split.
  - apply all_chars_append. split.
    { eapply all_chars_impl; [apply is_digit_not_LF | done]. }
    simpl. split; [discriminate|]. apply all_chars_append. split.
    { eapply all_chars_impl; [apply is_digit_not_LF | done]. }
    simpl. unfold not_LF. repeat split; discriminate.
  - exists g, (format_0d 10 address), (format_0d 5 g).
    split; [exact Ho|]. split; [reflexivity|].
    split; [exact Hfa | exact Hfg].
Qed.

Lemma decimal_str_int n :
  0 <= n -> Reader.decimal (str_int n) = Some (Z.to_N n)
            /\ all_chars not_LF (str_int n).
Proof.
  intros Hn. unfold str_int. destruct (Z.ltb_spec n 0) as [|_]; [lia|].
  simpl. destruct (str_N_spec (Z.abs_N n)) as (Hdig & Hval & Hpos & _).
  split.
  - rewrite decimal_eq, Hval by done. f_equal. lia.
  - eapply all_chars_impl; [apply is_digit_not_LF | done].
Qed.

(** The text of a cross-reference table holding N objects, each with its
    offset, the offsets below 10^10 and the generations below 10^5: its
    lines are [xref], then [0 ] followed by N + 1 in decimal, then the
    free-list head [0000000000 65535 f ], then one line per object in
    order: ten digits that read as the offset, a space, five digits that
    read as the generation, a space, [n], a space. *)
Lemma XRefTable_str_layout (t : XRefTable) :
  length (cos.XRefTable_objects float t)
    = length (cos.XRefTable_addresses float t) ->
  Forall (fun a => 0 <= a < 10000000000) (cos.XRefTable_addresses float t) ->
  Forall (fun obj => exists g, cos.generation_of float obj = Ok g
                               /\ 0 <= g < 100000)
    (cos.XRefTable_objects float t) ->
  exists s count entries,
    cos.XRefTable_str float t = Ok s
    /\ Reader.lines s
       = "xref" :: ("0 " +:+ count) :: "0000000000 65535 f " :: entries
    /\ Reader.decimal count
       = Some (N.of_nat (length (cos.XRefTable_objects float t)) + 1)%N
    /\ length entries = length (cos.XRefTable_objects float t)
    /\ Forall2 xref_entry
         (cos.zip (cos.XRefTable_objects float t)
                  (cos.XRefTable_addresses float t))
         entries.
Proof.
  intros Hlen Ha Ho.
  pose proof (zip_Forall _ _ _ _ Ho Ha) as Hz.
  pose proof (zip_length _ _ Hlen) as Hzl.
  assert (Hes : exists bodies,
             Forall2 (fun oa e =>
                        cos.XRefTable_entry float (fst oa) (snd oa) = Ok e)
               (cos.zip (cos.XRefTable_objects float t)
                        (cos.XRefTable_addresses float t))
               (String LF <$> bodies)
             /\ Forall (all_chars not_LF) bodies
             /\ Forall2 xref_entry
                  (cos.zip (cos.XRefTable_objects float t)
                           (cos.XRefTable_addresses float t))
                  bodies).
  { clear Hzl. induction Hz as [|[obj a] l [(o & Hobj & Hg) Haddr] Hl IH].
    - exists []. repeat split; constructor.
    - destruct IH as (bodies & H1 & H2 & H3).
      destruct (XRefTable_entry_spec obj a o Hobj Haddr Hg)
        as (body & He & Hb & Hx).
      exists (body :: bodies). split; [|split]; by constructor. }
  destruct Hes as (bodies & Hentries & Hnolf & Hx).
  destruct (decimal_str_int
              (Z.of_nat (length (cos.XRefTable_objects float t)) + 1))
    as [Hcount Hcnolf]; [lia|].
  exists ("xref" +:+ Py.char LF +:+ "0 "
          +:+ str_int (Z.of_nat (length (cos.XRefTable_objects float t)) + 1)
          +:+ Py.char LF +:+ "0000000000 65535 f "
          +:+ flatten (String LF <$> bodies)),
    (str_int (Z.of_nat (length (cos.XRefTable_objects float t)) + 1)),
    bodies.
  split.
  { unfold cos.XRefTable_str. rewrite (XRefTable_str_loop _ _ _ Hentries).
    f_equal. by rewrite !append_assoc. }
  split.
  { unfold Reader.lines. simpl. do 2 f_equal.
    rewrite (lines_from_no_LF
               (str_int (Z.of_nat (length (cos.XRefTable_objects float t)) + 1))
               "0 ") by done.
    simpl. f_equal.
    exact (lines_from_entries bodies _ Hnolf). }
  split; [rewrite Hcount; f_equal; lia|].
  split; [|done].
  apply Forall2_length in Hx. by rewrite <- Hx, Hzl.
Qed.

End XRef.

(** * Offsets *)

Section Offsets.

Variable float : Type.
Variable float_str : float -> str.

Local Abbreviation Value := (cos.Value float).
Local Abbreviation Document := (cos.Document float).
Local Abbreviation XRefTable := (cos.XRefTable float).


(** The loop over the objects: each address is the length of what was
    written before the object, and the object's bytes follow there. *)
Lemma write_objects_spec (objs : list Value) :
  forall (table : XRefTable) file table' file',
  cos.write_objects float float_str objs table file = Ok (table', file') ->
  exists offs tail,
    cos.XRefTable_objects float table'
      = cos.XRefTable_objects float table ++ objs
    /\ cos.XRefTable_addresses float table'
       = cos.XRefTable_addresses float table ++ offs
    /\ length offs = length objs
    /\ file' = file +:+ tail
    /\ forall i obj, objs !! i = Some obj ->
         exists a b pre0 post,
           offs !! i = Some a
           /\ cos.indirect_bytes float float_str obj = Ok b
           /\ file' = (file +:+ pre0) +:+ b +:+ Py.char LF +:+ post
           /\ len (file +:+ pre0) = a
           /\ (pre0 = "" \/ exists p, pre0 = p +:+ Py.char LF).
Proof.
  induction objs as [|obj objs IH]; intros table file table' file'.
  - simpl. intros [= <- <-]. exists [], "".
    rewrite !app_nil_r, append_nil_r. repeat split. intros i obj [=].
  - cbn [cos.write_objects].
    destruct (cos.indirect_bytes float float_str obj) as [b|] eqn:Hb;
      [|discriminate].
    cbn [Py.bind]. intros Hw.
    destruct (IH _ _ _ _ Hw) as (offs & tail & Ho & Ha & Hl & Hf & Hi).
    exists (len file :: offs), ((b +:+ Py.char LF) +:+ tail).
    cbn [cos.XRefTable_append cos.XRefTable_objects cos.XRefTable_addresses]
      in Ho, Ha.
    split; [by rewrite Ho, <- app_assoc|].
    split; [by rewrite Ha, <- app_assoc|].
    split; [simpl; by rewrite Hl|].
    split; [by rewrite Hf, !append_assoc|].
    intros [|i] obj' Hobj'.
    + injection Hobj' as <-. exists (len file), b, "", tail.
      split; [done|]. split; [done|].
      split; [by rewrite Hf, append_nil_r, !append_assoc|].
      split; [by rewrite append_nil_r|]. by left.
    + destruct (Hi i obj' Hobj') as (a & b' & pre0 & post & H1 & H2 & H3 & H4 & H5).
      exists a, b', ((b +:+ Py.char LF) +:+ pre0), post.
      split; [done|]. split; [done|].
      split; [by rewrite H3, !append_assoc|].
      split; [by rewrite <- H4, !append_assoc|].
      right. destruct H5 as [->|[p ->]].
      * exists b. by rewrite append_nil_r.
      * exists ((b +:+ Py.char LF) +:+ p). by rewrite !append_assoc.
Qed.

Lemma write_objects_total (objs : list Value) :
  Forall (fun obj => exists b, cos.indirect_bytes float float_str obj = Ok b)
    objs ->
  forall (table : XRefTable) file,
  exists table' file',
    cos.write_objects float float_str objs table file = Ok (table', file').
Proof.
  induction 1 as [|obj objs [b Hb] _ IH]; intros table file.
  - by eexists _, _.
  - cbn [cos.write_objects]. rewrite Hb. cbn [Py.bind]. apply IH.
Qed.

Lemma attrs_generation_of (obj : Value) o :
  cos.attrs float obj = Ok o ->
  cos.generation_of float obj = Ok (cos.generation o).
Proof. destruct obj; simpl; try discriminate; by intros [= ->]. Qed.

Lemma XRefTable_str_total (t : XRefTable) :
  Forall (fun obj => exists g, cos.generation_of float obj = Ok g)
    (cos.XRefTable_objects float t) ->
  exists s, cos.XRefTable_str float t = Ok s.
Proof.
  intros Ho. unfold cos.XRefTable_str.
  assert (Hes : exists es,
             Forall2 (fun oa e =>
                        cos.XRefTable_entry float (fst oa) (snd oa) = Ok e)
               (cos.zip (cos.XRefTable_objects float t)
                        (cos.XRefTable_addresses float t)) es).
  { generalize (cos.XRefTable_addresses float t).
    induction Ho as [|obj objs [o Hobj] _ IH]; intros [|a addrs]; simpl;
      try (exists []; constructor).
    destruct (IH addrs) as [es Hes]. eexists (_ :: es).
    constructor; [|done]. simpl. unfold cos.XRefTable_entry.
    rewrite Hobj. reflexivity. }
  destruct Hes as [es Hes]. rewrite (XRefTable_str_loop _ _ _ _ Hes). eauto.
Qed.


(** The table is never emptied: after a second write it lists every
    object twice, and the trailer's [Size] is 2 N + 1. *)
Lemma write_twice_table (d d1 d2 : Document) out1 out2 :
  cos.xref_table float d = cos.XRefTable_init float ->
  cos.write float float_str d = Ok (out1, d1) ->
  cos.write float float_str d1 = Ok (out2, d2) ->
  cos.XRefTable_objects float (cos.xref_table float d1) = cos.objects float d
  /\ cos.XRefTable_objects float (cos.xref_table float d2)
     = cos.objects float d ++ cos.objects float d
  /\ cos.XRefTable_len float (cos.xref_table float d2)
     = 2 * Z.of_nat (length (cos.objects float d)) + 1.
Proof.
  intros Hx H1 H2.
  apply write_inv in H1 as (t1 & f1 & Hw1 & ->).
  apply write_inv in H2 as (t2 & f2 & Hw2 & ->).
  cbn [cos.objects cos.xref_table] in *.
  apply write_objects_inv in Hw1, Hw2. rewrite Hx in Hw1. simpl in Hw1.
  rewrite Hw1 in Hw2. split; [done|]. split; [done|].
  unfold cos.XRefTable_len. rewrite Hw2, length_app. lia.
Qed.

End Offsets.

(** * Escaping *)

Section Escaping.

Lemma replace_append old new a b :
  replace old new (a +:+ b) = replace old new a +:+ replace old new b.
Proof.
  induction a as [|c a IH]; simpl; [done|].
  destruct (Ascii.eqb c old); rewrite IH; [by rewrite append_assoc | done].
Qed.

(** The passes of [String._bytes], in the order they run. *)
Lemma String_escaped_order value :
  cos.String_escaped value =
  replace ")" "\)"
    (replace "(" "\("
       (replace "\" "\\"
          (replace FF "\f"
             (replace BS "\b"
                (replace TAB "\t"
                   (replace CR "\r" (replace LF "\n" value))))))).
Proof. reflexivity. Qed.

Lemma String_escaped_append a b :
  cos.String_escaped (a +:+ b)
  = cos.String_escaped a +:+ cos.String_escaped b.
Proof. rewrite !String_escaped_order. by rewrite !replace_append. Qed.

Lemma replace_char_ne old new c :
  c <> old -> replace old new (Py.char c) = Py.char c.
Proof.
  intros Hc. simpl. by destruct (Ascii.eqb_spec c old).
Qed.

(** One plain character is escaped with a backslash when it is a
    backslash or a parenthesis, and read back as itself. *)
Lemma unescape_escaped_char c rest :
  plain c ->
  Reader.unescape (cos.String_escaped (Py.char c) +:+ rest)
  = String c (Reader.unescape rest).
Proof.
  intros (H1 & H2 & H3 & H4 & H5). rewrite String_escaped_order.
  rewrite !(replace_char_ne _ _ c) by done.
  destruct (Ascii.eqb_spec c "\") as [->|Hb]; [reflexivity|].
  rewrite replace_char_ne by done.
  destruct (Ascii.eqb_spec c "(") as [->|Ho]; [reflexivity|].
  rewrite replace_char_ne by done.
  destruct (Ascii.eqb_spec c ")") as [->|Hc]; [reflexivity|].
  rewrite replace_char_ne by done.
  simpl. by destruct (Ascii.eqb_spec c backslash).
Qed.

(** On a string without the five control characters the reader gets the
    string back. *)
Lemma String_escaped_roundtrip_plain s :
  all_chars plain s -> Reader.unescape (cos.String_escaped s) = s.
Proof.
  induction s as [|c s IH]; [done|]. intros [Hc Hs].
  change (String c s) with (Py.char c +:+ s).
  rewrite String_escaped_append, unescape_escaped_char by done.
  simpl. by rewrite IH.
Qed.

End Escaping.

(** * The runs cover the methods *)

Section Runs.

Variable float : Type.
Variable float_str : float -> str.

Local Abbreviation Value := (cos.Value float).
Local Abbreviation Document := (cos.Document float).
Local Abbreviation closed_under := (cos.closed_under float float_str).

Lemma closed_ret {A} (a : A) : closed_under (cos.ret float a).
Proof. intros d a' d' Hr [= _ <-]. exact Hr. Qed.

Lemma closed_lift {A} (r : result A) : closed_under (cos.lift float r).
Proof. intros d a d' Hr. unfold cos.lift. destruct r; by intros [= _ <-]. Qed.

Lemma closed_deref self : closed_under (cos.deref float self).
Proof.
  intros d a d' Hr. unfold cos.deref.
  destruct (cos.objects float d !! self); by intros [= _ <-].
Qed.

Lemma closed_bind {A B} (m : cos.M float A) (k : A -> cos.M float B) :
  closed_under m -> (forall a, closed_under (k a)) ->
  closed_under (cos.mbind float m k).
Proof.
  intros Hm Hk d b d'' Hr. unfold cos.mbind.
  destruct (m d) as [[a d']|] eqn:Hmd; [|discriminate].
  intros Hkd. eapply Hk; [|exact Hkd]. by eapply Hm.
Qed.

Lemma closed_Object_init body :
  (forall o, cos.attrs float (body o) = Ok o) ->
  closed_under (cos.Object_init float body).
Proof.
  intros Hb d a d' Hr Hi. eapply cos.reachable_step; [exact Hr|].
  by eapply cos.step_register.
Qed.

Lemma closed_update self f :
  (forall v v', f v = Ok v' -> cos.attrs float v' = cos.attrs float v) ->
  closed_under (cos.update float self f).
Proof.
  intros Hf d [] d' Hr Hu. eapply cos.reachable_step; [exact Hr|].
  by eapply cos.step_update.
Qed.

Lemma closed_write : closed_under (cos.write float float_str).
Proof.
  intros d out d' Hr Hw. eapply cos.reachable_step; [exact Hr|].
  by eapply cos.step_write.
Qed.

Lemma setitem_attrs (v v' : Value) key x :
  cos.setitem float v key x = Ok v' -> cos.attrs float v' = cos.attrs float v.
Proof. destruct v; simpl; try discriminate. by intros [= <-]. Qed.

Lemma closed_store self key x : closed_under (cos.store float self key x).
Proof. apply closed_update. intros v v'. apply setitem_attrs. Qed.

Lemma closed_Page_init parent w h :
  closed_under (cos.Page_init float parent w h).
Proof.
  unfold cos.Page_init.
  repeat first
    [ apply closed_Object_init; by intros o
    | apply closed_store | apply closed_deref | apply closed_lift
    | apply closed_ret
    | apply closed_bind; [|intros ?] ].
Qed.

Lemma closed_new_page self w h : closed_under (cos.new_page float self w h).
Proof.
  unfold cos.new_page.
  repeat first
    [ apply closed_Page_init | apply closed_deref | apply closed_lift
    | apply closed_ret
    | apply closed_bind; [|intros ?] ].
  - apply closed_update. intros v v'.
    destruct (cos.getitem float v "Kids") as [kids|]; [|discriminate].
    cbn [Py.bind].
    destruct (cos.Array_append float kids a1) as [kids'|]; [|discriminate].
    cbn [Py.bind]. apply setitem_attrs.
  - apply closed_update. intros v v'.
    destruct (cos.getitem float v "Count") as [count|]; [|discriminate].
    cbn [Py.bind]. destruct (cos.add_1 float count); [|discriminate].
    cbn [Py.bind]. apply setitem_attrs.
Qed.

Lemma closed_Font_init : closed_under (cos.Font_init float).
Proof.
  unfold cos.Font_init.
  repeat first
    [ apply closed_Object_init; by intros o
    | apply closed_store | apply closed_ret
    | apply closed_bind; [|intros ?] ].
Qed.

Lemma closed_Stream_init data : closed_under (cos.Stream_init float data).
Proof. apply closed_Object_init. by intros o. Qed.

End Runs.

(** * The properties at work on the example documents *)

Section Witnesses.

Lemma new_document_eq : cos.Document_init Z = Ok Example.new_document.
Proof. vm_compute. reflexivity. Qed.

Lemma one_page_eq :
  cos.new_page Z 0 200 200 Example.new_document
  = Ok (2%nat, Example.one_page_document).
Proof. vm_compute. reflexivity. Qed.

Lemma one_page_document_reachable :
  cos.reachable Z Example.float_str Example.one_page_document.
Proof.
  eapply closed_new_page; [|exact one_page_eq].
  apply cos.reachable_init. exact new_document_eq.
Qed.

Lemma one_page_document_Pages_inv :
  cos.Pages_inv Z Example.one_page_document 0.
Proof.
  eexists _, _, _. split; [vm_compute; reflexivity|].
  split; [vm_compute; reflexivity|].
  split; [vm_compute; reflexivity|]. split; [vm_compute; reflexivity|].
  constructor; [|constructor].
  exists 2%nat. eexists. split; [done|].
  split; [vm_compute; reflexivity|]. split; [vm_compute; reflexivity|].
  split; vm_compute; reflexivity.
Qed.

Lemma backend_document_eq :
  pdf.Document_init Z = Ok Example.backend_document.
Proof. vm_compute. reflexivity. Qed.


End Witnesses.

Lemma identifiers_are_1_to_N_witness :
  cos.reachable Z Example.float_str Example.one_page_document
  /\ cos.identifiers Z Example.one_page_document =
       (fun i : nat => Ok (Some (Z.of_nat i)))
         <$> seq 1 (length (cos.objects Z Example.one_page_document))
  /\ cos._identifier Z Example.one_page_document
     = Z.of_nat (length (cos.objects Z Example.one_page_document)).
Proof.
  split; [exact one_page_document_reachable|].
  apply (identifiers_are_1_to_N Z Example.float_str
           Example.one_page_document).
  exact one_page_document_reachable.
Defined.

Lemma new_page_keeps_Pages_in_order_witness :
  cos.Pages_inv Z Example.one_page_document 0
  /\ exists page d' kids kid,
       cos.new_page Z 0 100 50 Example.one_page_document = Ok (page, d')
       /\ cos.Kids Z Example.one_page_document 0 = Some kids
       /\ cos.Count Z Example.one_page_document 0
          = Some (Z.of_nat (length kids))
       /\ cos.Kids Z d' 0 = Some (kids ++ [kid])
       /\ cos.Count Z d' 0 = Some (Z.of_nat (length (kids ++ [kid])))
       /\ (exists page_obj, cos.objects Z d' !! page = Some page_obj
                             /\ cos.reference Z page_obj = Ok kid)
       /\ cos.Pages_inv Z d' 0.
Proof.
  split; [exact one_page_document_Pages_inv|].
  apply (new_page_keeps_Pages_in_order Z Example.one_page_document 0 100 50).
  exact one_page_document_Pages_inv.
Defined.



(** * More of the encoders *)

Section Encoders.

Variable float : Type.
Variable float_str : float -> str.

Local Abbreviation Value := (cos.Value float).
Local Abbreviation Document := (cos.Document float).

(** Induction on a value and on the values inside it. *)
Lemma Value_nested_ind (P : Value -> Prop) :
  (forall o b, P (cos.Boolean float o b)) ->
  (forall o z, P (cos.Integer float o z)) ->
  (forall o x, P (cos.Real float o x)) ->
  (forall o s, P (cos.String float o s)) ->
  (forall o n, P (cos.Name float o n)) ->
  (forall o items, Forall P items -> P (cos.Array float o items)) ->
  (forall o items, Forall (fun kv => P (snd kv)) items ->
     P (cos.Dictionary float o items)) ->
  (forall o data, P (cos.Stream float o data)) ->
  P (cos.Null float) ->
  (forall i g, P (cos.Reference float i g)) ->
  forall v, P v.
Proof.
  intros HB HI HR HS HN HA HD HSt HNull HRef.
  fix F 1. intros [o b|o z|o x|o s|o n|o items|o items|o data| |i g];
    [apply HB|apply HI|apply HR|apply HS|apply HN| | |apply HSt|apply HNull
    |apply HRef].
  - apply HA. induction items as [|x items IH]; constructor; [apply F|exact IH].
  - apply HD. induction items as [|[k x] items IH]; constructor;
      [apply F|exact IH].
Qed.

Lemma mapM_answers {A B} (f : A -> result B) (g : A -> bool) l :
  Forall (fun x => cos.answers (f x) (g x)) l ->
  cos.answers (cos.mapM f l) (forallb g l).
Proof.
  induction 1 as [|x l Hx _ IH]; [reflexivity|].
  cbn [cos.mapM forallb]. unfold cos.answers in Hx.
  destruct (f x) as [y|e].
  - rewrite Hx. cbn [Py.bind andb]. fold (cos.mapM f l).
    unfold cos.answers in IH. destruct (cos.mapM f l); exact IH.
  - destruct Hx as [-> ->]. by split.
Qed.

Lemma bytes_with_answers (v : Value) :
  cos.answers (cos._bytes float float_str v) (cos.body_okb float v) ->
  cos.answers (cos.bytes_with float (cos._bytes float float_str) v)
    (cos.use_okb_with float (cos.body_okb float) v).
Proof.
  destruct v as [o b|o z|o x|o s|o n|o items|o items|o data| |i g];
    try (unfold cos.bytes_with, cos.is_direct, cos.reference,
           cos.use_okb_with;
         cbn [cos.attrs Py.bind];
         destruct (cos.identifier o); [reflexivity | by intros H]).
  - by split.
  - reflexivity.
Qed.

(** [_bytes] against [body_okb], by induction on the value. *)
Lemma _bytes_answers (v : Value) :
  cos.answers (cos._bytes float float_str v) (cos.body_okb float v).
Proof.
  induction v as [o b|o z|o x|o s|o n|o items IH|o items IH|o data
                 | |i g] using Value_nested_ind;
    try reflexivity; try (by split).
  - cbn [cos._bytes cos.body_okb].
    pose proof (mapM_answers
                  (cos.bytes_with float (cos._bytes float float_str))
                  (cos.use_okb_with float (cos.body_okb float)) items) as Hm.
    unfold cos.answers in Hm |- *.
    destruct (cos.mapM _ items); apply Hm;
      (eapply Forall_impl; [exact IH | apply bytes_with_answers]).
  - cbn [cos._bytes cos.body_okb].
    pose proof (mapM_answers
                  (fun kv : str * Value =>
                     let (key, value) := kv in
                     b <- cos.bytes_with float (cos._bytes float float_str)
                            value ;;
                     Ok (cos.Name_bytes key +:+ " " +:+ b))
                  (fun kv : str * Value =>
                     cos.use_okb_with float (cos.body_okb float) (snd kv))
                  items) as Hm.
    unfold cos.answers in Hm |- *.
    destruct (cos.mapM _ items); apply Hm;
      (eapply Forall_impl; [exact IH|]); intros [k x] Hx;
      apply bytes_with_answers in Hx; unfold cos.answers in Hx |- *;
      cbn [snd] in Hx |- *;
      destruct (cos.bytes_with float (cos._bytes float float_str) x);
      exact Hx.
Qed.

(** X1.  [_bytes] and [bytes] return exactly on the values [body_okb] and
    [use_okb] accept, and raise [AttributeError] on all others: the only
    way to make an encoder fail is a [Null] used in place somewhere inside
    the value (or asking a [Reference] for [_bytes]). *)
Theorem encoders_fail_on_Null_only (v : Value) :
  cos.answers (cos._bytes float float_str v) (cos.body_okb float v)
  /\ cos.answers (cos.Object_bytes float float_str v) (cos.use_okb float v).
Proof.
  split; [apply _bytes_answers|]. apply bytes_with_answers, _bytes_answers.
Qed.

End Encoders.

(** * More of the strings *)

Section MoreStrings.

(** X2.  Escaping goes through a concatenation: the escaped form of
    [a + b] is the escaped form of [a] followed by that of [b]. *)
Theorem String_escaped_concat a b :
  cos.String_escaped (a +:+ b)
  = cos.String_escaped a +:+ cos.String_escaped b.
Proof. rewrite !String_escaped_order. by rewrite !replace_append. Qed.

Lemma not_plain c :
  ~ plain c -> c = LF \/ c = CR \/ c = TAB \/ c = BS \/ c = FF.
Proof.
  intros Hc. unfold plain in Hc.
  destruct (Ascii.eqb_spec c LF); [tauto|].
  destruct (Ascii.eqb_spec c CR); [tauto|].
  destruct (Ascii.eqb_spec c TAB); [tauto|].
  destruct (Ascii.eqb_spec c BS); [tauto|].
  destruct (Ascii.eqb_spec c FF); tauto.
Qed.

(** A control character comes back as a backslash and a letter. *)
Lemma unescape_escaped_control c rest :
  ~ plain c ->
  exists letter,
    Reader.unescape (cos.String_escaped (Py.char c) +:+ rest)
    = String backslash (String letter (Reader.unescape rest))
    /\ c <> backslash.
Proof.
  intros Hc. destruct (not_plain c Hc) as [->|[->|[->|[->| ->]]]];
    eexists; (split; [reflexivity | discriminate]).
Qed.

(** X3.  The reader gets an escaped string back exactly when the string
    holds none of the five control characters that have a two-character
    escape. *)
Theorem String_escaped_roundtrip_iff s :
  Reader.unescape (cos.String_escaped s) = s <-> all_chars plain s.
Proof.
  induction s as [|c s IH]; [done|].
  change (String c s) with (Py.char c +:+ s).
  rewrite String_escaped_append.
  destruct (decide (c <> LF /\ c <> CR /\ c <> TAB /\ c <> BS /\ c <> FF))
    as [Hc|Hc].
  - rewrite unescape_escaped_char by done. simpl. split.
    + intros [= Hs]. split; [done | by apply IH].
    + intros [_ Hs]. f_equal. by apply IH.
  - destruct (unescape_escaped_control c (cos.String_escaped s) Hc)
      as (letter & -> & Hb).
    simpl. split; [intros [= Heq]; congruence | intros [Hp _]; done].
Qed.

(** X4.  For a character code from 0 to 127, what [show_glyphs] puts
    between the parentheses is taken by a reader of the format as one
    character: the character with that code, parentheses and backslash
    arriving escaped, for every code but 13, and a line feed for code 13,
    which is written as a bare carriage return. *)
Theorem glyph_char_read_back code :
  0 <= code <= 127 ->
  Reader.read_literal (pdf.glyph_char code)
  = Some (Py.char (if code =? 13 then LF else chr code)).
Proof.
  intros Hc.
  assert (Hn : exists n : nat, (n <= 127)%nat /\ code = Z.of_nat n).
  { exists (Z.to_nat code). lia. }
  destruct Hn as (n & Hn & ->).
  do 128 (destruct n as [|n]; [vm_compute; reflexivity|]). lia.
Qed.

Lemma glyph_char_read_back_witness :
  0 <= 40 <= 127
  /\ Reader.read_literal (pdf.glyph_char 40)
     = Some (Py.char (if 40 =? 13 then LF else chr 40)).
Proof. split; [lia | apply (glyph_char_read_back 40); lia]. Defined.

End MoreStrings.

(** * More of the writer *)

Section MoreWriter.

Variable float : Type.
Variable float_str : float -> str.

Local Abbreviation Value := (cos.Value float).
Local Abbreviation Document := (cos.Document float).
Local Abbreviation XRefTable := (cos.XRefTable float).

Lemma encode_utf_8_ascii s :
  all_chars (fun c => (N_of_ascii c < 128)%N) s -> encode_utf_8 s = s.
Proof.
  induction s as [|c s IH]; [done|]. intros [Hc Hs]. simpl.
  destruct (N.ltb_spec (N_of_ascii c) 128); [|lia]. by rewrite IH.
Qed.

Lemma encode_utf_8_str_int n : 0 <= n -> encode_utf_8 (str_int n) = str_int n.
Proof.
  intros Hn. apply encode_utf_8_ascii. unfold str_int.
  destruct (Z.ltb_spec n 0) as [|_]; [lia|]. simpl.
  destruct (str_N_spec (Z.abs_N n)) as (Hdig & _).
  eapply all_chars_impl; [|exact Hdig]. unfold is_digit. intros c Hc. lia.
Qed.

(** The text of an [Integer] that is not negative is ASCII. *)
Lemma encode_utf_8_Integer_repr n :
  0 <= n -> encode_utf_8 (cos.Integer_repr n) = cos.Integer_repr n.
Proof.
  intros Hn. apply encode_utf_8_ascii. unfold cos.Integer_repr.
  rewrite <- (encode_utf_8_str_int n Hn).
  assert (Hd : all_chars (fun c => (N_of_ascii c < 128)%N) (str_int n)).
  { unfold str_int. destruct (Z.ltb_spec n 0) as [|_]; [lia|]. simpl.
    destruct (str_N_spec (Z.abs_N n)) as (Hdig & _).
    eapply all_chars_impl; [|exact Hdig]. unfold is_digit. intros c Hc.
    lia. }
  rewrite (encode_utf_8_str_int n Hn).
  apply (all_chars_append _ "Integer(" (str_int n +:+ ")")). split.
  - simpl. repeat split; lia.
  - apply all_chars_append. split; [exact Hd|]. simpl. split; [lia|done].
Qed.

(** X5.  The dictionary in front of a stream's payload has the one entry
    [Length], written as the text of an [Integer], the word [Integer] and
    between parentheses the number of bytes of the payload, whatever
    bytes they are. *)
Theorem Stream_Length_is_payload_size o data :
  exists n,
    cos._bytes float float_str (cos.Stream float o data)
    = Ok ("<< /Length Integer(" +:+ n +:+ ") >>" +:+ String LF "stream"
          +:+ Py.char LF +:+ data +:+ String LF "endstream")
    /\ Reader.decimal n = Some (N.of_nat (String.length data)).
Proof.
  exists (str_int (len data)). split.
  - cbn [cos._bytes]. unfold cos.size.
    rewrite encode_utf_8_Integer_repr by (unfold len; lia).
    unfold cos.Dictionary_join, join, cos.Integer_repr.
    cbn [String.concat].
    change (cos.Name_bytes "Length") with "/Length".
    f_equal. simpl. by rewrite !append_assoc.
  - destruct (decimal_str_int (len data)) as [-> _]; [unfold len; lia|].
    f_equal. unfold len. lia.
Qed.

(** Everything [Document.write] does, step by step. *)
Lemma write_inv_full (d d' : Document) out :
  cos.write float float_str d = Ok (out, d') ->
  exists table file t c r tr,
    cos.write_objects float float_str (cos.objects float d)
      (cos.xref_table float d)
      ((encode_utf_8 ("%PDF-" +:+ cos.PDF_VERSION) +:+ Py.char LF)
       +:+ cos.binary_marker) = Ok (table, file)
    /\ cos.XRefTable_bytes float table = Ok t
    /\ cos.objects float d !! cos.catalog float d = Some c
    /\ cos.reference float c = Ok r
    /\ cos.Object_bytes float float_str
         (cos.Dictionary float cos.direct
            [("Size", cos.Integer float cos.direct
                        (cos.XRefTable_len float table));
             ("Root", r)]) = Ok tr
    /\ out = (((((file +:+ t +:+ Py.char LF) +:+ "trailer" +:+ Py.char LF)
               +:+ tr +:+ Py.char LF) +:+ "startxref" +:+ Py.char LF)
             +:+ encode_utf_8 (str_int (len file)) +:+ Py.char LF)
            +:+ "%%EOF" +:+ Py.char LF
    /\ d' = {| cos._identifier := cos._identifier float d;
               cos.objects := cos.objects float d;
               cos.xref_table := table;
               cos.pages := cos.pages float d;
               cos.catalog := cos.catalog float d |}.
Proof.
  unfold cos.write. intros Hw.
  destruct (cos.write_objects _ _ _ _ _) as [[table file]|] eqn:Hwo;
    [|discriminate].
  cbn [Py.bind] in Hw.
  destruct (cos.XRefTable_bytes float table) as [t|] eqn:Ht; [|discriminate].
  cbn [Py.bind] in Hw.
  destruct (cos.objects float d !! cos.catalog float d) as [c|] eqn:Hc;
    [|discriminate].
  destruct (cos.reference float c) as [r|] eqn:Hr; [|discriminate].
  cbn [Py.bind] in Hw.
  destruct (cos.Object_bytes _ _ _) as [tr|] eqn:Htr; [|discriminate].
  cbn [Py.bind] in Hw. injection Hw as <- <-.
  by exists table, file, t, c, r, tr.
Qed.

(** What the loop over the objects writes: the indirect bytes of each
    object in order, a line feed after each. *)
Lemma write_objects_bodies (objs : list Value) :
  forall (table : XRefTable) file table' file',
  cos.write_objects float float_str objs table file = Ok (table', file') ->
  exists bodies,
    Forall2 (fun obj b => cos.indirect_bytes float float_str obj = Ok b)
      objs bodies
    /\ file' = file +:+ flatten ((fun b => b +:+ Py.char LF) <$> bodies).
Proof.
  induction objs as [|obj objs IH]; intros table file table' file'.
  - simpl. intros [= <- <-]. exists []. split; [constructor|].
    simpl. by rewrite append_nil_r.
  - cbn [cos.write_objects].
    destruct (cos.indirect_bytes float float_str obj) as [b|] eqn:Hb;
      [|discriminate].
    cbn [Py.bind]. intros Hw.
    destruct (IH _ _ _ _ Hw) as (bodies & Hbodies & ->).
    exists (b :: bodies). split; [by constructor|].
    cbn [fmap list_fmap flatten]. by rewrite !append_assoc.
Qed.

(** X6.  The file that [write] produces: the two header lines; the
    indirect bytes of each registered object in registry order, a line
    feed after each; the cross-reference table; [trailer] and the trailer
    dictionary with [Size] and [Root]; [startxref], a number and [%%EOF].
    The number after [startxref] is the count of bytes in front of the
    table. *)
Theorem write_layout (d d' : Document) out :
  cos.write float float_str d = Ok (out, d') ->
  exists bodies body table trailer address,
    Forall2 (fun obj b => cos.indirect_bytes float float_str obj = Ok b)
      (cos.objects float d) bodies
    /\ body = flatten ((fun b => b +:+ Py.char LF) <$> bodies)
    /\ out = (((encode_utf_8 ("%PDF-" +:+ cos.PDF_VERSION) +:+ Py.char LF)
            +:+ cos.binary_marker) +:+ body)
          +:+ table +:+ Py.char LF
          +:+ "trailer" +:+ Py.char LF
          +:+ trailer +:+ Py.char LF
          +:+ "startxref" +:+ Py.char LF
          +:+ address +:+ Py.char LF
          +:+ "%%EOF" +:+ Py.char LF
    /\ cos.XRefTable_bytes float (cos.xref_table float d') = Ok table
    /\ Reader.decimal address
       = Some (N.of_nat
                 (String.length
                    (((encode_utf_8 ("%PDF-" +:+ cos.PDF_VERSION)
                       +:+ Py.char LF) +:+ cos.binary_marker) +:+ body)))
    /\ exists c r,
         cos.objects float d !! cos.catalog float d = Some c
         /\ cos.reference float c = Ok r
         /\ cos.Object_bytes float float_str
              (cos.Dictionary float cos.direct
                 [("Size", cos.Integer float cos.direct
                             (cos.XRefTable_len float
                                (cos.xref_table float d')));
                  ("Root", r)]) = Ok trailer.
Proof.
  intros Hw.
  apply write_inv_full in Hw
    as (table & file & t & c & r & tr & Hwo & Ht & Hc & Hr & Htr & -> & ->).
  destruct (write_objects_bodies _ _ _ _ _ Hwo) as (bodies & Hbodies & Hf).
  exists bodies, (flatten ((fun b => b +:+ Py.char LF) <$> bodies)), t, tr,
    (str_int (len file)).
  cbn [cos.xref_table]. rewrite <- Hf.
  split; [exact Hbodies|]. split; [reflexivity|].
  split.
  { rewrite encode_utf_8_str_int by (unfold len; lia).
    by rewrite !append_assoc. }
  split; [done|]. split; [|eauto].
  destruct (decimal_str_int (len file)) as [-> _]; [unfold len; lia|].
  f_equal. unfold len. lia.
Qed.

(** X7.  [write] leaves the registry, the counter and the handles as they
    are; the one thing it changes is the cross-reference table, to which it
    adds the registered objects, in order, with one address each. *)
Theorem write_only_grows_table (d d' : Document) out :
  cos.write float float_str d = Ok (out, d') ->
  cos.objects float d' = cos.objects float d
  /\ cos._identifier float d' = cos._identifier float d
  /\ cos.pages float d' = cos.pages float d
  /\ cos.catalog float d' = cos.catalog float d
  /\ cos.XRefTable_objects float (cos.xref_table float d')
     = cos.XRefTable_objects float (cos.xref_table float d)
       ++ cos.objects float d
  /\ length (cos.XRefTable_addresses float (cos.xref_table float d'))
     = (length (cos.XRefTable_addresses float (cos.xref_table float d))
        + length (cos.objects float d))%nat.
Proof.
  intros Hw.
  apply write_inv_full in Hw
    as (table & file & t & c & r & tr & Hwo & _ & _ & _ & _ & _ & ->).
  destruct (write_objects_spec _ _ _ _ _ _ _ Hwo)
    as (offs & tail & Ho & Ha & Hl & _ & _).
  cbn [cos.objects cos._identifier cos.pages cos.catalog cos.xref_table].
  repeat split; [done|]. by rewrite Ha, length_app, Hl.
Qed.



End MoreWriter.

Lemma written_eq :
  cos.write Z Example.float_str Example.one_page_document
  = Ok (Example.written_bytes, Example.written_document).
Proof. vm_compute. reflexivity. Qed.

Lemma write_layout_witness :
  cos.write Z Example.float_str Example.one_page_document
    = Ok (Example.written_bytes, Example.written_document)
  /\ exists bodies body table trailer address,
       Forall2 (fun obj b =>
                  cos.indirect_bytes Z Example.float_str obj = Ok b)
         (cos.objects Z Example.one_page_document) bodies
       /\ body = flatten ((fun b => b +:+ Py.char LF) <$> bodies)
       /\ Example.written_bytes
          = (((encode_utf_8 ("%PDF-" +:+ cos.PDF_VERSION) +:+ Py.char LF)
           +:+ cos.binary_marker) +:+ body)
         +:+ table +:+ Py.char LF
         +:+ "trailer" +:+ Py.char LF
         +:+ trailer +:+ Py.char LF
         +:+ "startxref" +:+ Py.char LF
         +:+ address +:+ Py.char LF
         +:+ "%%EOF" +:+ Py.char LF
       /\ cos.XRefTable_bytes Z (cos.xref_table Z Example.written_document)
          = Ok table
       /\ Reader.decimal address
          = Some (N.of_nat
                    (String.length
                       (((encode_utf_8 ("%PDF-" +:+ cos.PDF_VERSION)
                          +:+ Py.char LF) +:+ cos.binary_marker) +:+ body)))
       /\ exists c r,
            cos.objects Z Example.one_page_document
              !! cos.catalog Z Example.one_page_document = Some c
            /\ cos.reference Z c = Ok r
            /\ cos.Object_bytes Z Example.float_str
                 (cos.Dictionary Z cos.direct
                    [("Size", cos.Integer Z cos.direct
                                (cos.XRefTable_len Z
                                   (cos.xref_table Z
                                      Example.written_document)));
                     ("Root", r)]) = Ok trailer.
Proof.
  split; [exact written_eq|].
  apply (write_layout Z Example.float_str Example.one_page_document
           Example.written_document Example.written_bytes).
  exact written_eq.
Defined.

Lemma write_only_grows_table_witness :
  cos.write Z Example.float_str Example.one_page_document
    = Ok (Example.written_bytes, Example.written_document)
  /\ cos.objects Z Example.written_document
     = cos.objects Z Example.one_page_document
  /\ cos._identifier Z Example.written_document
     = cos._identifier Z Example.one_page_document
  /\ cos.pages Z Example.written_document
     = cos.pages Z Example.one_page_document
  /\ cos.catalog Z Example.written_document
     = cos.catalog Z Example.one_page_document
  /\ cos.XRefTable_objects Z (cos.xref_table Z Example.written_document)
     = cos.XRefTable_objects Z (cos.xref_table Z Example.one_page_document)
       ++ cos.objects Z Example.one_page_document
  /\ length (cos.XRefTable_addresses Z
               (cos.xref_table Z Example.written_document))
     = (length (cos.XRefTable_addresses Z
                  (cos.xref_table Z Example.one_page_document))
        + length (cos.objects Z Example.one_page_document))%nat.
Proof.
  split; [exact written_eq|].
  apply (write_only_grows_table Z Example.float_str
           Example.one_page_document Example.written_document
           Example.written_bytes).
  exact written_eq.
Defined.


(** * Writing a document that a run reached *)

Section WriterRuns.

Variable float : Type.
Variable float_str : float -> str.

Local Abbreviation Value := (cos.Value float).
Local Abbreviation Document := (cos.Document float).
Local Abbreviation XRefTable := (cos.XRefTable float).

Lemma len_header :
  len ((encode_utf_8 ("%PDF-" +:+ cos.PDF_VERSION) +:+ Py.char LF)
       +:+ cos.binary_marker) = 15.
Proof. vm_compute. reflexivity. Qed.

(** What every run keeps: the handles of the Pages node and of the
    Catalog, and a table with one address, behind the header, for each of
    its objects, which all have their attributes. *)
Lemma reachable_handles_and_table (d : Document) :
  cos.reachable float float_str d ->
  cos.pages float d = 0%nat /\ cos.catalog float d = 1%nat
  /\ (2 <= length (cos.objects float d))%nat
  /\ length (cos.XRefTable_objects float (cos.xref_table float d))
     = length (cos.XRefTable_addresses float (cos.xref_table float d))
  /\ Forall (fun a => 15 <= a)
       (cos.XRefTable_addresses float (cos.xref_table float d))
  /\ Forall (fun obj => exists o, cos.attrs float obj = Ok o
                                  /\ cos.generation o = 0)
       (cos.XRefTable_objects float (cos.xref_table float d)).
Proof.
  induction 1 as [d Hd|d d' Hr IH Hs].
  - rewrite Document_init_eq in Hd. injection Hd as <-. simpl.
    repeat split; (lia || constructor).
  - destruct IH as (Hp & Hc & Hl & Ht & Ha & Ho).
    apply reachable_numbered in Hr as [_ Hn].
    destruct Hs as [body d self d' Hb Hi|self f d d' Hf Hu|d out d' Hw].
    + rewrite Object_init_eq in Hi. injection Hi as _ <-.
      cbn [cos.pages cos.catalog cos.objects cos.xref_table].
      rewrite length_app. simpl. repeat split; (lia || done).
    + apply update_inv in Hu as (v & v' & _ & _ & ->).
      cbn [cos.pages cos.catalog cos.objects cos.xref_table].
      rewrite length_insert. done.
    + apply write_inv in Hw as (table & file & Hwo & ->).
      cbn [cos.pages cos.catalog cos.objects cos.xref_table].
      destruct (write_objects_spec _ _ _ _ _ _ _ Hwo)
        as (offs & tail & Hto & Hta & Hlo & _ & Hpos).
      rewrite Hto, Hta. rewrite !length_app, Hlo, Ht.
      repeat split; try done.
      * apply Forall_app. split; [done|].
        apply Forall_lookup. intros i a Hia.
        destruct (lookup_lt_is_Some_2 (cos.objects float d) i) as [obj Hobj].
        { rewrite <- Hlo. by eapply lookup_lt_Some. }
        destruct (Hpos i obj Hobj) as (a' & b & pre0 & post & Hia' & _ & _
                                       & Hlen & _).
        rewrite Hia in Hia'. injection Hia' as <-.
        rewrite <- Hlen, len_append.
        pose proof len_header as Hh. rewrite append_assoc in Hh.
        rewrite Hh. unfold len. lia.
      * apply Forall_app. split; [done|].
        apply Forall_lookup. intros i obj Hobj.
        eexists. split; [by apply Hn | done].
Qed.

Lemma indirect_bytes_answers (v : Value) o :
  cos.attrs float v = Ok o ->
  (exists b, cos.indirect_bytes float float_str v = Ok b)
  <-> cos.body_okb float v = true.
Proof.
  intros Ho. unfold cos.indirect_bytes. rewrite Ho. cbn [Py.bind].
  pose proof (_bytes_answers float float_str v) as Hv.
  unfold cos.answers in Hv.
  destruct (cos._bytes float float_str v) as [b|e]; cbn [Py.bind].
  - split; [done | eauto].
  - destruct Hv as [-> _]. split; [intros [b [=]] | done].
Qed.

(** The trailer dictionary of a table of [n] lines whose root is the
    object [i g]. *)
Lemma trailer_bytes n i g :
  0 <= n ->
  cos.Object_bytes float float_str
    (cos.Dictionary float cos.direct
       [("Size", cos.Integer float cos.direct n);
        ("Root", cos.Reference float i g)])
  = Ok ("<< /Size " +:+ cos.Integer_repr n +:+ " "
        +:+ "/Root " +:+ cos.Reference_bytes i g +:+ " >>").
Proof.
  intros Hn. unfold cos.Object_bytes, cos.bytes_with, cos.is_direct.
  cbn [cos.attrs cos.direct cos.identifier Py.bind cos._bytes cos.mapM].
  unfold cos.bytes_with, cos.is_direct.
  cbn [cos.attrs cos.direct cos.identifier Py.bind cos._bytes cos.mapM].
  rewrite encode_utf_8_Integer_repr by done.
  unfold cos.Dictionary_join, join. cbn [String.concat].
  change (cos.Name_bytes "Size") with "/Size".
  change (cos.Name_bytes "Root") with "/Root".
  f_equal. simpl. by rewrite !append_assoc.
Qed.

(** A document that a run reached, whose objects can all be encoded, can
    be written. *)
Lemma reachable_write_total (d : Document) :
  cos.reachable float float_str d ->
  Forall (fun v => cos.body_okb float v = true) (cos.objects float d) ->
  exists out d', cos.write float float_str d = Ok (out, d').
Proof.
  intros Hr Hok.
  destruct (reachable_handles_and_table d Hr) as (_ & Hc & Hl & _ & _ & Ho).
  destruct (reachable_numbered _ _ _ Hr) as [_ Hn].
  destruct (write_objects_total float float_str (cos.objects float d))
    with (table := cos.xref_table float d)
         (file := (encode_utf_8 ("%PDF-" +:+ cos.PDF_VERSION)
                   +:+ Py.char LF) +:+ cos.binary_marker)
    as (table & file & Hwo).
  { apply Forall_lookup. intros i v Hv.
    eapply indirect_bytes_answers; [by apply Hn|].
    by eapply Forall_lookup_1 in Hok. }
  pose proof (write_objects_inv _ _ _ _ _ _ _ Hwo) as Hto.
  destruct (XRefTable_str_total float table) as [s Hs].
  { rewrite Hto. apply Forall_app. split.
    - eapply Forall_impl; [exact Ho|]. intros obj (o & Hobj & _).
      eexists. by apply attrs_generation_of.
    - apply Forall_lookup. intros i v Hv. eexists.
      apply attrs_generation_of. by apply Hn. }
  destruct (lookup_lt_is_Some_2 (cos.objects float d) 1%nat) as [c Hcat];
    [lia|].
  unfold cos.write. rewrite Hwo. cbn [Py.bind].
  unfold cos.XRefTable_bytes. rewrite Hs. cbn [Py.bind].
  rewrite Hc, Hcat. unfold cos.reference at 1.
  rewrite (Hn _ _ Hcat). cbn [Py.bind cos.identifier cos.generation].
  rewrite trailer_bytes by (unfold cos.XRefTable_len; lia).
  cbn [Py.bind]. eauto.
Qed.

(** X9.  A document that a run reached can be written exactly when the
    body of each registered object can be encoded: nothing else in
    [write] can fail. *)
Theorem write_succeeds_iff_encodable (d : Document) :
  cos.reachable float float_str d ->
  (exists out d', cos.write float float_str d = Ok (out, d'))
  <-> Forall (fun v => cos.body_okb float v = true) (cos.objects float d).
Proof.
  intros Hr. split; [|by apply reachable_write_total].
  destruct (reachable_numbered _ _ _ Hr) as [_ Hn].
  intros (out & d' & Hw).
  apply write_inv in Hw as (table & file & Hwo & _).
  destruct (write_objects_spec _ _ _ _ _ _ _ Hwo)
    as (offs & tail & _ & _ & _ & _ & Hpos).
  apply Forall_lookup. intros i v Hv.
  destruct (Hpos i v Hv) as (a & b & pre0 & post & _ & Hb & _).
  eapply indirect_bytes_answers; eauto.
Qed.

(** X10.  In every document that a run reached, the cross-reference table
    has one address for each of its objects, no address lies inside the
    15 bytes of the header, every object of the table has generation 0,
    and the text of the table can be produced. *)
Theorem reachable_table_is_sound (d : Document) :
  cos.reachable float float_str d ->
  length (cos.XRefTable_objects float (cos.xref_table float d))
  = length (cos.XRefTable_addresses float (cos.xref_table float d))
  /\ Forall (fun a => 15 <= a)
       (cos.XRefTable_addresses float (cos.xref_table float d))
  /\ Forall (fun obj => cos.generation_of float obj = Ok 0)
       (cos.XRefTable_objects float (cos.xref_table float d))
  /\ exists s, cos.XRefTable_str float (cos.xref_table float d) = Ok s.
Proof.
  intros Hr.
  destruct (reachable_handles_and_table d Hr) as (_ & _ & _ & Hl & Ha & Ho).
  assert (Hg : Forall (fun obj => cos.generation_of float obj = Ok 0)
                 (cos.XRefTable_objects float (cos.xref_table float d))).
  { eapply Forall_impl; [exact Ho|]. intros obj (o & Hobj & Hgen).
    rewrite (attrs_generation_of _ _ _ Hobj). by rewrite Hgen. }
  split; [done|]. split; [done|]. split; [done|].
  apply XRefTable_str_total. eapply Forall_impl; [exact Hg|].
  intros obj Hobj. by exists 0.
Qed.


(** C5.  On the first write of a document that a run reached, with N
    registered objects and a file shorter than 10^10 bytes, the
    cross-reference table that goes into the file has the lines [xref],
    then [0 ] followed by N + 1 in decimal, then the free-list head
    [0000000000 65535 f ], then one line for each registered object in
    registry order: ten digits that read as the offset recorded for it, a
    space, five digits that read as its generation, a space, [n], a
    space. *)
Theorem first_write_xref_table (d d' : Document) out :
  cos.reachable float float_str d ->
  cos.xref_table float d = cos.XRefTable_init float ->
  cos.write float float_str d = Ok (out, d') ->
  Z.of_nat (String.length out) < 10000000000 ->
  exists s count entries before after,
    cos.XRefTable_str float (cos.xref_table float d') = Ok s
    /\ out = before +:+ encode_utf_8 s +:+ Py.char LF +:+ "trailer" +:+ after
    /\ Reader.lines s
       = "xref" :: ("0 " +:+ count) :: "0000000000 65535 f " :: entries
    /\ Reader.decimal count
       = Some (N.of_nat (length (cos.objects float d)) + 1)%N
    /\ length entries = length (cos.objects float d)
    /\ Forall2 xref_entry
         (cos.zip (cos.objects float d)
                  (cos.XRefTable_addresses float (cos.xref_table float d')))
         entries.
Proof.
  intros Hr Hx Hw Hsize.
  destruct (reachable_numbered _ _ _ Hr) as [_ Hn].
  apply write_inv_full in Hw
    as (table & file & t & c & r & tr & Hwo & Ht & _ & _ & _ & -> & ->).
  destruct (write_objects_spec _ _ _ _ _ _ _ Hwo)
    as (offs & tail & Ho & Ha & Hl & _ & Hpos).
  rewrite Hx in Ho, Ha. simpl in Ho, Ha.
  assert (Hfile : Z.of_nat (String.length file) < 10000000000).
  { rewrite !length_append in Hsize. lia. }
  destruct (XRefTable_str_layout float table)
    as (s & count & entries & Hs & Hlines & Hcount & Hlen & Hentries).
  { by rewrite Ho, Ha, Hl. }
  { rewrite Ha. apply Forall_lookup. intros i a Hia.
    destruct (lookup_lt_is_Some_2 (cos.objects float d) i) as [obj Hobj].
    { rewrite <- Hl. by eapply lookup_lt_Some. }
    destruct (Hpos i obj Hobj) as (a' & b & pre0 & post & Hia' & _ & Hfile'
                                   & Hlen & _).
    rewrite Hia in Hia'. injection Hia' as <-.
    rewrite Hfile' in Hfile. rewrite length_append in Hfile.
    unfold len in Hlen. lia. }
  { rewrite Ho. apply Forall_lookup. intros i obj Hobj. exists 0.
    split; [|lia]. by rewrite (attrs_generation_of _ _ _ (Hn _ _ Hobj)). }
  cbn [cos.xref_table]. unfold cos.XRefTable_bytes in Ht.
  rewrite Hs in Ht. cbn [Py.bind] in Ht. injection Ht as <-.
  rewrite Ho in Hcount, Hlen, Hentries.
  exists s, count, entries, file. eexists.
  split; [done|]. split; [|done].
  rewrite !append_assoc. reflexivity.
Qed.

End WriterRuns.

Lemma write_succeeds_iff_encodable_witness :
  cos.reachable Z Example.float_str Example.one_page_document
  /\ ((exists out d',
         cos.write Z Example.float_str Example.one_page_document
         = Ok (out, d'))
      <-> Forall (fun v => cos.body_okb Z v = true)
            (cos.objects Z Example.one_page_document)).
Proof.
  split; [exact one_page_document_reachable|].
  apply (write_succeeds_iff_encodable Z Example.float_str
           Example.one_page_document).
  exact one_page_document_reachable.
Defined.

Lemma written_document_reachable :
  cos.reachable Z Example.float_str Example.written_document.
Proof.
  eapply closed_write; [exact one_page_document_reachable|exact written_eq].
Qed.

Lemma reachable_table_is_sound_witness :
  cos.reachable Z Example.float_str Example.written_document
  /\ length (cos.XRefTable_objects Z
               (cos.xref_table Z Example.written_document)) = 3%nat
  /\ length (cos.XRefTable_objects Z
               (cos.xref_table Z Example.written_document))
     = length (cos.XRefTable_addresses Z
                 (cos.xref_table Z Example.written_document))
  /\ Forall (fun a => 15 <= a)
       (cos.XRefTable_addresses Z
          (cos.xref_table Z Example.written_document))
  /\ Forall (fun obj => cos.generation_of Z obj = Ok 0)
       (cos.XRefTable_objects Z
          (cos.xref_table Z Example.written_document))
  /\ exists s,
       cos.XRefTable_str Z (cos.xref_table Z Example.written_document)
       = Ok s.
Proof.
  split; [exact written_document_reachable|].
  split; [vm_compute; reflexivity|].
  apply (reachable_table_is_sound Z Example.float_str
           Example.written_document).
  exact written_document_reachable.
Defined.


(** * Literal strings end where the writer ends them *)

Section Parentheses.



Lemma no_bare_parenthesis_digits s :
  all_chars is_digit s -> Reader.no_bare_parenthesis s = true.
Proof.
  induction s as [|c s IH]; [done|]. intros [Hc Hs]. simpl.
  unfold is_digit in Hc.
  destruct (Ascii.eqb_spec c backslash) as [->|_]; [simpl in Hc; lia|].
  destruct (Ascii.eqb_spec c "(") as [->|_]; [simpl in Hc; lia|].
  destruct (Ascii.eqb_spec c ")") as [->|_]; [simpl in Hc; lia|].
  by apply IH.
Qed.

Lemma format_0d_digits w v :
  0 <= v ->
  all_chars is_digit (format_0d w v)
  /\ (0 < String.length (format_0d w v))%nat.
Proof.
  intros Hv. unfold format_0d.
  destruct (Z.ltb_spec v 0) as [|_]; [lia|].
  destruct (str_N_spec (Z.abs_N v)) as (Hdig & _ & Hpos & _).
  cbn [String.append]. split.
  - apply all_chars_append. split; [apply all_chars_zeros | done].
  - rewrite length_append. lia.
Qed.

(** X13.  Whatever the character code, what [show_glyphs] puts between
    the parentheses for it holds no parenthesis and no backslash that is
    not part of an escape. *)
Theorem glyph_char_no_bare_parenthesis code :
  Reader.no_bare_parenthesis (pdf.glyph_char code) = true.
Proof.
  unfold pdf.glyph_char.
  destruct (Z.ltb_spec code 0) as [Hneg|Hpos]; [reflexivity|].
  destruct (Z.gtb_spec code 127) as [Hhigh|Hlow].
  - destruct (format_0d_digits 3 code Hpos) as [Hdig Hlen].
    destruct (format_0d 3 code) as [|c rest]; [simpl in Hlen; lia|].
    destruct Hdig as [_ Hrest]. cbn [String.append].
    change (Reader.no_bare_parenthesis (String "\" (String c rest)))
      with (Reader.no_bare_parenthesis rest).
    by apply no_bare_parenthesis_digits.
  - assert (Hn : exists n : nat, (n <= 127)%nat /\ code = Z.of_nat n).
    { exists (Z.to_nat code). lia. }
    destruct Hn as (n & Hn & ->).
    do 128 (destruct n as [|n]; [vm_compute; reflexivity|]). lia.
Qed.

End Parentheses.

(** * Showing glyphs *)

Section Glyphs.

Variable float : Type.
Context {font : Type} `{Countable font}.
Variable is_core : font -> bool.
Variable ps_name : font -> str.
Variable number : Type.
Variable number_str : number -> str.
Variable by_glyph_name : font -> str -> option (Z * number).
Variable glyph_space : number -> number -> result number.
Variable adjustment : number -> number -> result Z.

Local Abbreviation Document := (pdf.Document float (font := font)).
Local Abbreviation show_glyphs :=
  (pdf.show_glyphs float is_core ps_name number number_str by_glyph_name
     glyph_space adjustment).
Local Abbreviation glyphs_string :=
  (pdf.glyphs_string number by_glyph_name glyph_space adjustment).

Lemma zip_app_l {A B} (l more : list A) (k : list B) :
  length l = length k -> cos.zip (l ++ more) k = cos.zip l k.
Proof.
  revert k. induction l as [|a l IH]; intros [|b k]; simpl; try done.
  - intros _. by destruct more.
  - intros [= Hl]. by rewrite IH.
Qed.

Lemma zip_app_r {A B} (l : list A) (k more : list B) :
  length l = length k -> cos.zip l (k ++ more) = cos.zip l k.
Proof.
  revert k. induction l as [|a l IH]; intros [|b k]; simpl; try done.
  intros [= Hl]. by rewrite IH.
Qed.

(** X14.  [show_glyphs] goes through glyphs and displacements in pairs
    and stops at the shorter list: glyphs without a displacement, and
    displacements without a glyph, are dropped without a word. *)
Theorem show_glyphs_surplus_ignored self page x y f size glyphs
    x_displacements more_glyphs more_displacements (D : Document) :
  length glyphs = length x_displacements ->
  show_glyphs self page x y f size (glyphs ++ more_glyphs)
    x_displacements D
  = show_glyphs self page x y f size glyphs x_displacements D
  /\ show_glyphs self page x y f size glyphs
       (x_displacements ++ more_displacements) D
     = show_glyphs self page x y f size glyphs x_displacements D.
Proof.
  intros Hl. unfold pdf.show_glyphs.
  by rewrite zip_app_l, zip_app_r.
Qed.

(** The text that one pair adds to the array of [TJ]. *)
Lemma glyphs_string_spec f size pairs :
  forall string out,
  glyphs_string f size pairs string = Ok out ->
  exists items,
    out = string +:+ flatten items
    /\ Forall2 (fun (pair : str * number) item =>
                  exists code width displ a,
                    by_glyph_name f (fst pair) = Some (code, width)
                    /\ glyph_space (snd pair) size = Ok displ
                    /\ adjustment width displ = Ok a
                    /\ item = "(" +:+ pdf.glyph_char code +:+ ") "
                              +:+ str_int a +:+ " ")
         pairs items.
Proof.
  induction pairs as [|[glyph displ] pairs IH]; intros string out.
  - simpl. intros [= <-]. exists []. simpl. by rewrite append_nil_r.
  - cbn [pdf.glyphs_string].
    destruct (glyph_space displ size) as [d|] eqn:Hd; [|discriminate].
    cbn [Py.bind].
    destruct (by_glyph_name f glyph) as [[code width]|] eqn:Hg;
      [|discriminate].
    destruct (adjustment width d) as [a|] eqn:Ha; [|discriminate].
    cbn [Py.bind]. intros Hout.
    destruct (IH _ _ Hout) as (items & -> & Hitems).
    exists (("(" +:+ pdf.glyph_char code +:+ ") " +:+ str_int a +:+ " ")
            :: items).
    split.
    + cbn [flatten]. by rewrite !append_assoc.
    + constructor; [|done]. by exists code, width, d, a.
Qed.

(** X15.  What a call of [show_glyphs] that returns has done: the font is
    registered on the page, and the canvas has five more lines, [BT], the
    font alias with the size, the position, the array of [TJ] with one
    item, a string and a number, for each pair of a glyph and a
    displacement in order, and [ET]. *)
Theorem show_glyphs_layout self page x y f size glyphs x_displacements
    (D D' : Document) out :
  show_glyphs self page x y f size glyphs x_displacements D
    = Ok (out, D') ->
  exists font_name items,
    pdf.Page_register_font float is_core ps_name page f D
      = Ok (font_name, D')
    /\ out = self +:+ "BT" +:+ Py.char LF
             +:+ "/" +:+ font_name +:+ " " +:+ number_str size +:+ " Tf"
             +:+ Py.char LF
             +:+ number_str x +:+ " " +:+ number_str y +:+ " Td"
             +:+ Py.char LF
             +:+ "[ " +:+ flatten items +:+ "] TJ" +:+ Py.char LF
             +:+ "ET" +:+ Py.char LF
    /\ Forall2 (fun (pair : str * number) item =>
                  exists code width displ a,
                    by_glyph_name f (fst pair) = Some (code, width)
                    /\ glyph_space (snd pair) size = Ok displ
                    /\ adjustment width displ = Ok a
                    /\ item = "(" +:+ pdf.glyph_char code +:+ ") "
                              +:+ str_int a +:+ " ")
         (cos.zip glyphs x_displacements) items.
Proof.
  unfold pdf.show_glyphs, pdf.mbind.
  destruct (pdf.glyphs_string _ _ _ _ _ _ _ _) as [string|] eqn:Hs;
    [|discriminate].
  destruct (pdf.Page_register_font _ _ _ _ _ _) as [[font_name D1]|] eqn:Hr;
    [|discriminate].
  unfold pdf.ret. intros [= <- <-].
  destruct (glyphs_string_spec _ _ _ _ _ Hs) as (items & -> & Hitems).
  exists font_name, items. split; [done|]. split; [|done].
  unfold pdf.print.
  repeat (progress (cbn [String.append Py.char]; rewrite ?append_assoc)).
  reflexivity.
Qed.

(** X16.  A glyph name that the metrics of the font do not know makes
    [show_glyphs] raise [KeyError], when the arithmetic on the
    displacements and the widths goes through. *)
Theorem show_glyphs_unknown_glyph self page x y f size glyphs
    x_displacements (D : Document) :
  (forall displ, exists d, glyph_space displ size = Ok d) ->
  (forall width displ, exists a, adjustment width displ = Ok a) ->
  Exists (fun pair : str * number => by_glyph_name f (fst pair) = None)
    (cos.zip glyphs x_displacements) ->
  show_glyphs self page x y f size glyphs x_displacements D
  = Raise KeyError.
Proof.
  intros Hspace Hadj Hex. unfold pdf.show_glyphs, pdf.mbind.
  assert (Hs : forall string,
             glyphs_string f size (cos.zip glyphs x_displacements) string
             = Raise KeyError).
  { induction Hex as [[glyph displ] pairs Hg|[glyph displ] pairs _ IH];
      intros string; cbn [pdf.glyphs_string];
      destruct (Hspace displ) as [d ->]; cbn [Py.bind].
    - cbn [fst] in Hg. by rewrite Hg.
    - destruct (by_glyph_name f glyph) as [[code width]|]; [|done].
      destruct (Hadj width d) as [a ->]. cbn [Py.bind]. apply IH. }
  by rewrite Hs.
Qed.

End Glyphs.

Lemma shown_eq :
  pdf.show_glyphs Z (fun _ => true) (fun _ => "Helvetica") Z str_int
    Example.by_glyph_name Example.glyph_space Example.adjustment
    EmptyString 0 10 20 1%nat 12 ["A"; "parenleft"] [0; 0]
    Example.one_page_backend
  = Ok (Example.shown_canvas, Example.shown_document).
Proof. vm_compute. reflexivity. Qed.

Lemma show_glyphs_surplus_ignored_witness :
  length ["A"; "parenleft"] = length [0; 0]
  /\ pdf.show_glyphs Z (fun _ => true) (fun _ => "Helvetica") Z str_int
       Example.by_glyph_name Example.glyph_space Example.adjustment
       EmptyString 0 10 20 1%nat 12 (["A"; "parenleft"] ++ ["B"]) [0; 0]
       Example.one_page_backend
     = pdf.show_glyphs Z (fun _ => true) (fun _ => "Helvetica") Z str_int
         Example.by_glyph_name Example.glyph_space Example.adjustment
         EmptyString 0 10 20 1%nat 12 ["A"; "parenleft"] [0; 0]
         Example.one_page_backend
  /\ pdf.show_glyphs Z (fun _ => true) (fun _ => "Helvetica") Z str_int
       Example.by_glyph_name Example.glyph_space Example.adjustment
       EmptyString 0 10 20 1%nat 12 ["A"; "parenleft"] ([0; 0] ++ [7])
       Example.one_page_backend
     = pdf.show_glyphs Z (fun _ => true) (fun _ => "Helvetica") Z str_int
         Example.by_glyph_name Example.glyph_space Example.adjustment
         EmptyString 0 10 20 1%nat 12 ["A"; "parenleft"] [0; 0]
         Example.one_page_backend.
Proof.
  split; [reflexivity|].
  apply (show_glyphs_surplus_ignored Z (fun _ => true)
           (fun _ => "Helvetica") Z str_int
           Example.by_glyph_name Example.glyph_space Example.adjustment
           EmptyString 0%nat 10 20 1%nat 12 ["A"; "parenleft"] [0; 0]
           ["B"] [7] Example.one_page_backend).
  reflexivity.
Defined.

Lemma show_glyphs_layout_witness :
  pdf.show_glyphs Z (fun _ => true) (fun _ => "Helvetica") Z str_int
    Example.by_glyph_name Example.glyph_space Example.adjustment
    EmptyString 0 10 20 1%nat 12 ["A"; "parenleft"] [0; 0]
    Example.one_page_backend
  = Ok (Example.shown_canvas, Example.shown_document)
  /\ exists font_name items,
       pdf.Page_register_font Z (fun _ => true) (fun _ => "Helvetica")
         0 1%nat Example.one_page_backend
         = Ok (font_name, Example.shown_document)
       /\ Example.shown_canvas
          = "" +:+ "BT" +:+ Py.char LF
            +:+ "/" +:+ font_name +:+ " " +:+ str_int 12 +:+ " Tf"
            +:+ Py.char LF
            +:+ str_int 10 +:+ " " +:+ str_int 20 +:+ " Td"
            +:+ Py.char LF
            +:+ "[ " +:+ flatten items +:+ "] TJ" +:+ Py.char LF
            +:+ "ET" +:+ Py.char LF
       /\ Forall2 (fun (pair : str * Z) item =>
                     exists code width displ a,
                       Example.by_glyph_name 1%nat (fst pair)
                         = Some (code, width)
                       /\ Example.glyph_space (snd pair) 12 = Ok displ
                       /\ Example.adjustment width displ = Ok a
                       /\ item = "(" +:+ pdf.glyph_char code +:+ ") "
                                 +:+ str_int a +:+ " ")
            (cos.zip ["A"; "parenleft"] [0; 0]) items.
Proof.
  split; [exact shown_eq|].
  apply (show_glyphs_layout Z (fun _ => true) (fun _ => "Helvetica") Z
           str_int Example.by_glyph_name Example.glyph_space
           Example.adjustment EmptyString 0%nat 10 20 1%nat 12
           ["A"; "parenleft"] [0; 0] Example.one_page_backend
           Example.shown_document Example.shown_canvas).
  exact shown_eq.
Defined.

Lemma show_glyphs_unknown_glyph_witness :
  (forall displ, exists d, Example.glyph_space displ 12 = Ok d)
  /\ (forall width displ, exists a, Example.adjustment width displ = Ok a)
  /\ Exists (fun pair : str * Z =>
               Example.by_glyph_name 1%nat (fst pair) = None)
       (cos.zip ["A"; "B"] [0; 0])
  /\ pdf.show_glyphs Z (fun _ => true) (fun _ => "Helvetica") Z str_int
       Example.by_glyph_name Example.glyph_space Example.adjustment
       EmptyString 0 10 20 1%nat 12 ["A"; "B"] [0; 0]
       Example.one_page_backend
     = Raise KeyError.
Proof.
  assert (Hs : forall displ, exists d, Example.glyph_space displ 12 = Ok d)
    by (intros displ; eexists; reflexivity).
  assert (Ha : forall width displ,
             exists a, Example.adjustment width displ = Ok a)
    by (intros width displ; eexists; reflexivity).
  assert (He : Exists (fun pair : str * Z =>
                         Example.by_glyph_name 1%nat (fst pair) = None)
                 (cos.zip ["A"; "B"] [0; 0]))
    by (apply Exists_cons_tl, Exists_cons_hd; reflexivity).
  split; [exact Hs|]. split; [exact Ha|]. split; [exact He|].
  exact (show_glyphs_unknown_glyph Z (fun _ => true)
           (fun _ => "Helvetica") Z str_int
           Example.by_glyph_name Example.glyph_space Example.adjustment
           EmptyString 0%nat 10 20 1%nat 12 ["A"; "B"] [0; 0]
           Example.one_page_backend Hs Ha He).
Defined.

(** * The aliases of a page *)

Section Aliases.

Variable float : Type.
Context {font : Type} `{Countable font}.
Variable is_core : font -> bool.
Variable ps_name : font -> str.

Local Abbreviation Document := (pdf.Document float (font := font)).
Local Abbreviation Page := (pdf.Page float (font := font)).

Lemma on_pdf_document_inv {A} (m : cos.M float A) (D D1 : Document) a :
  pdf.on_pdf_document float m D = Ok (a, D1) ->
  exists doc,
    m (pdf.pdf_document float D) = Ok (a, doc)
    /\ D1 = {| pdf.pdf_document := doc; pdf.pages := pdf.pages float D;
               pdf.fonts := pdf.fonts float D |}.
Proof.
  unfold pdf.on_pdf_document.
  destruct (m (pdf.pdf_document float D)) as [[a' doc]|]; [|discriminate].
  intros [= <- <-]. by exists doc.
Qed.

Lemma Document_register_font_pages (D D1 : Document) f h :
  pdf.Document_register_font float is_core ps_name f D = Ok (h, D1) ->
  pdf.pages float D1 = pdf.pages float D.
Proof.
  unfold pdf.Document_register_font, pdf.mbind.
  destruct (pdf.fonts float D !! f); [by intros [= _ <-]|].
  destruct (is_core f); [|discriminate].
  destruct (pdf.on_pdf_document float (cos.Font_init float) D)
    as [[h1 D2]|] eqn:H1; [|discriminate].
  destruct (pdf.on_pdf_document float (cos.store float h1 "Subtype" _) D2)
    as [[u2 D3]|] eqn:H2; [|discriminate].
  destruct (pdf.on_pdf_document float (cos.store float h1 "BaseFont" _) D3)
    as [[u3 D4]|] eqn:H3; [|discriminate].
  intros [= _ <-]. cbn [pdf.pages].
  apply on_pdf_document_inv in H1 as (doc1 & _ & ->).
  apply on_pdf_document_inv in H2 as (doc2 & _ & ->).
  by apply on_pdf_document_inv in H3 as (doc3 & _ & ->).
Qed.

(** What a call of [Page.register_font] that returns has done. *)
Lemma Page_register_font_inv (D D' : Document) self f name :
  pdf.Page_register_font float is_core ps_name self f D = Ok (name, D') ->
  exists P : Page,
    pdf.pages float D !! self = Some P
    /\ match pdf.font_names float P !! f with
       | Some n => name = n /\ D' = D
       | None =>
           name = "F" +:+ str_int (pdf.font_number float P)
           /\ pdf.pages float D' =
                <[self := {| pdf.pdf_page := pdf.pdf_page float P;
                             pdf.width := pdf.width float P;
                             pdf.height := pdf.height float P;
                             pdf.canvas := pdf.canvas float P;
                             pdf.font_number := pdf.font_number float P + 1;
                             pdf.font_names :=
                               <[f := "F" +:+ str_int
                                               (pdf.font_number float P)]>
                                 (pdf.font_names float P) |}]>
                  (pdf.pages float D)
       end.
Proof.
  unfold pdf.Page_register_font, pdf.mbind, pdf.get_page.
  destruct (pdf.pages float D !! self) as [P|] eqn:HP; [|discriminate].
  intros Hr. exists P. split; [done|].
  destruct (pdf.font_names float P !! f) as [n|].
  { unfold pdf.ret in Hr. by injection Hr as <- <-. }
  destruct (pdf.Document_register_font float is_core ps_name f D)
    as [[h D1]|] eqn:H1; [|discriminate].
  destruct (pdf.on_pdf_document float (cos.deref float h) D1)
    as [[font_obj D2]|] eqn:H2; [|discriminate].
  destruct (pdf.on_pdf_document float (cos.update float _ _) D2)
    as [[u D3]|] eqn:H3; [|discriminate].
  unfold pdf.set_page, pdf.ret in Hr. injection Hr as <- <-.
  split; [done|]. cbn [pdf.pages].
  apply Document_register_font_pages in H1.
  apply on_pdf_document_inv in H2 as (doc2 & _ & ->).
  apply on_pdf_document_inv in H3 as (doc3 & _ & ->).
  cbn [pdf.pages]. by rewrite H1.
Qed.

(** X17.  Registering a font on a page a second time hands out the alias
    of the first time and changes nothing, neither the page nor the
    document. *)
Theorem Page_register_font_idempotent (D D' : Document) self f name :
  pdf.Page_register_font float is_core ps_name self f D = Ok (name, D') ->
  pdf.Page_register_font float is_core ps_name self f D' = Ok (name, D').
Proof.
  intros Hr. pose proof Hr as Hr0.
  apply Page_register_font_inv in Hr as (P & HP & Hcase).
  destruct (pdf.font_names float P !! f) as [n|] eqn:Hn.
  - destruct Hcase as [-> ->]. exact Hr0.
  - destruct Hcase as [-> Hpages].
    eapply Page_register_font_hit.
    + rewrite Hpages. apply list_lookup_insert_eq. by eapply lookup_lt_Some.
    + cbn [pdf.font_names]. by rewrite lookup_insert_eq.
Qed.

Lemma str_int_inj i j :
  0 <= i -> 0 <= j -> str_int i = str_int j -> i = j.
Proof.
  intros Hi Hj Heq.
  destruct (decimal_str_int i Hi) as [Hdi _].
  destruct (decimal_str_int j Hj) as [Hdj _].
  rewrite Heq, Hdj in Hdi. injection Hdi as Hij. lia.
Qed.

(** One registration on a page whose aliases are in order. *)
Lemma Page_register_font_aliases (D D' : Document) self (P : Page) f name :
  pdf.pages float D !! self = Some P ->
  pdf.aliases_in_order float P ->
  pdf.Page_register_font float is_core ps_name self f D = Ok (name, D') ->
  exists P' : Page,
    pdf.pages float D' = <[self := P']> (pdf.pages float D)
    /\ pdf.aliases_in_order float P'
    /\ pdf.font_names float P' !! f = Some name
    /\ forall g n, pdf.font_names float P !! g = Some n ->
         pdf.font_names float P' !! g = Some n.
Proof.
  intros HP (Hone & Hform & Hinj) Hr.
  apply Page_register_font_inv in Hr as (P0 & HP0 & Hcase).
  rewrite HP in HP0. injection HP0 as <-.
  destruct (pdf.font_names float P !! f) as [n0|] eqn:Hn.
  - destruct Hcase as [-> ->]. exists P.
    split; [by rewrite list_insert_id|]. by repeat split.
  - destruct Hcase as [-> Hpages]. eexists. split; [exact Hpages|].
    unfold pdf.aliases_in_order. cbn [pdf.font_names pdf.font_number].
    split; [|split].
    + split; [lia|]. split.
      * intros g n Hg. apply lookup_insert_Some in Hg as [[<- <-]|[Hne Hg]].
        -- exists (pdf.font_number float P). split; [lia | done].
        -- destruct (Hform g n Hg) as (i & Hi & ->). exists i.
           split; [lia | done].
      * intros g1 g2 n Hg1 Hg2.
        apply lookup_insert_Some in Hg1 as [[<- <-]|[Hne1 Hg1]];
          apply lookup_insert_Some in Hg2 as [[<- Heq]|[Hne2 Hg2]];
          try done.
        -- destruct (Hform g2 _ Hg2) as (i & Hi & Heq).
           simpl in Heq. injection Heq as Heq.
           apply str_int_inj in Heq; lia.
        -- destruct (Hform g1 _ Hg1) as (i & Hi & Hname).
           rewrite Hname in Heq. simpl in Heq. injection Heq as Heq.
           apply str_int_inj in Heq; lia.
        -- by eapply Hinj.
    + by rewrite lookup_insert_eq.
    + intros g n Hg. rewrite lookup_insert_ne; [done|].
      intros <-. by rewrite Hn in Hg.
Qed.


End Aliases.

Lemma registered_eq :
  pdf.Page_register_font Z (fun _ => true) (fun _ => "Helvetica")
    0 1%nat Example.one_page_backend
  = Ok ("F1", Example.shown_document).
Proof. vm_compute. reflexivity. Qed.

Lemma Page_register_font_idempotent_witness :
  pdf.Page_register_font Z (fun _ => true) (fun _ => "Helvetica")
    0 1%nat Example.one_page_backend
  = Ok ("F1", Example.shown_document)
  /\ pdf.Page_register_font Z (fun _ => true) (fun _ => "Helvetica")
       0 1%nat Example.shown_document
     = Ok ("F1", Example.shown_document).
Proof.
  split; [exact registered_eq|].
  apply (Page_register_font_idempotent Z (fun _ => true)
           (fun _ => "Helvetica") Example.one_page_backend
           Example.shown_document 0%nat 1%nat "F1").
  exact registered_eq.
Defined.




(** * The content streams of the pages *)

Section Contents.

Variable float : Type.
Context {font : Type} `{Countable font}.

Local Abbreviation Value := (cos.Value float).
Local Abbreviation Page := (pdf.Page float (font := font)).

(** One round of the loop: a stream with the text of the canvas is
    registered, and its reference is stored in the page dictionary. *)
Lemma attach_contents_cons (P : Page) ps (doc : cos.Document float) o items :
  cos.objects float doc !! pdf.pdf_page float P
    = Some (cos.Dictionary float o items) ->
  pdf.attach_contents float (P :: ps) doc
  = pdf.attach_contents float ps
      {| cos._identifier := cos._identifier float doc + 1;
         cos.objects :=
           <[pdf.pdf_page float P :=
               cos.Dictionary float o
                 (cos.dict_set float items "Contents"
                    (cos.Reference float (cos._identifier float doc + 1) 0))]>
             (cos.objects float doc ++
              [cos.Stream float
                 {| cos.generation := 0;
                    cos.identifier := Some (cos._identifier float doc + 1) |}
                 (encode_utf_8 (pdf.canvas float P))]);
         cos.xref_table := cos.xref_table float doc;
         cos.pages := cos.pages float doc;
         cos.catalog := cos.catalog float doc |}.
Proof.
  intros HP. cbn [pdf.attach_contents].
  unfold cos.mbind at 1. unfold cos.Stream_init. rewrite Object_init_eq.
  unfold cos.mbind at 1. unfold cos.deref. doc_step. rewrite lookup_last.
  unfold cos.mbind at 1. unfold cos.lift. doc_step.
  unfold cos.mbind at 1. unfold cos.store, cos.update. doc_step.
  rewrite (lookup_app_l_Some _ _ _ _ HP). doc_step. reflexivity.
Qed.

(** The loop over pages with dictionaries of their own, round by round. *)
Lemma attach_contents_rounds (ps : list Page) :
  forall doc : cos.Document float,
  cos._identifier float doc = Z.of_nat (length (cos.objects float doc)) ->
  NoDup (pdf.pdf_page float <$> ps) ->
  Forall (fun P : Page =>
            exists o items,
              cos.objects float doc !! pdf.pdf_page float P
              = Some (cos.Dictionary float o items)) ps ->
  exists doc',
    pdf.attach_contents float ps doc = Ok (tt, doc')
    /\ length (cos.objects float doc')
       = (length (cos.objects float doc) + length ps)%nat
    /\ cos._identifier float doc'
       = Z.of_nat (length (cos.objects float doc'))
    /\ (forall i (P : Page), ps !! i = Some P ->
          cos.objects float doc' !! (length (cos.objects float doc) + i)%nat
          = Some (cos.Stream float
                    {| cos.generation := 0;
                       cos.identifier :=
                         Some (Z.of_nat (length (cos.objects float doc) + i)
                               + 1) |}
                    (encode_utf_8 (pdf.canvas float P)))
          /\ exists o items items',
               cos.objects float doc !! pdf.pdf_page float P
                 = Some (cos.Dictionary float o items)
               /\ cos.objects float doc' !! pdf.pdf_page float P
                  = Some (cos.Dictionary float o items')
               /\ cos.dict_get float items' "Contents"
                  = Some (cos.Reference float
                            (Z.of_nat (length (cos.objects float doc) + i)
                             + 1) 0)
               /\ forall k, k <> "Contents" ->
                    cos.dict_get float items' k = cos.dict_get float items k)
    /\ forall h v,
         cos.objects float doc !! h = Some v ->
         h ∉ pdf.pdf_page float <$> ps ->
         cos.objects float doc' !! h = Some v.
Proof.
  induction ps as [|P ps IH]; intros doc Hid Hnd Hps.
  - exists doc. split; [reflexivity|]. split; [simpl; lia|].
    split; [done|]. split; [intros i P [=] | done].
  - apply Forall_cons in Hps as [(o & items & HP) Hps].
    rewrite fmap_cons in Hnd. apply NoDup_cons in Hnd as [HPnotin Hnd].
    rewrite (attach_contents_cons P ps doc o items HP).
    set (r := cos.Reference float (cos._identifier float doc + 1) 0).
    set (S0 := cos.Stream float _ _).
    set (doc2 := {| cos._identifier := _ |}).
    assert (Hlt : (pdf.pdf_page float P < length (cos.objects float doc))%nat)
      by (by eapply lookup_lt_Some).
    assert (Hlen2 : length (cos.objects float doc2)
                    = S (length (cos.objects float doc))).
    { unfold doc2. cbn [cos.objects].
      rewrite length_insert, length_app. simpl. lia. }
    assert (Hkeep : forall h v,
               h <> pdf.pdf_page float P ->
               cos.objects float doc !! h = Some v ->
               cos.objects float doc2 !! h = Some v).
    { intros h v Hne Hv. unfold doc2. cbn [cos.objects].
      rewrite list_lookup_insert_ne by done. by apply lookup_app_l_Some. }
    assert (Hback : forall h v,
               h <> pdf.pdf_page float P ->
               (h < length (cos.objects float doc))%nat ->
               cos.objects float doc2 !! h = Some v ->
               cos.objects float doc !! h = Some v).
    { intros h v Hne Hh. unfold doc2. cbn [cos.objects].
      rewrite list_lookup_insert_ne by done. by rewrite lookup_app_l. }
    assert (Hin : forall Q : Page, Q ∈ ps ->
               pdf.pdf_page float Q <> pdf.pdf_page float P
               /\ (pdf.pdf_page float Q
                   < length (cos.objects float doc))%nat).
    { intros Q HQ. split.
      - intros Heq. apply HPnotin. rewrite <- Heq.
        by apply list_elem_of_fmap_2.
      - eapply Forall_forall in Hps as (oq & iq & Hq); [|exact HQ].
        by eapply lookup_lt_Some. }
    destruct (IH doc2) as (doc' & Hrun & Hlen & Hid' & Hpages & Hframe).
    { unfold doc2 at 1. cbn [cos._identifier]. rewrite Hlen2, Hid. lia. }
    { done. }
    { apply Forall_forall. intros Q HQ.
      destruct (Hin Q HQ) as [Hne _].
      eapply Forall_forall in Hps as (oq & iq & Hq); [|exact HQ].
      exists oq, iq. by apply Hkeep. }
    assert (Hfresh : length (cos.objects float doc)
                     ∉ pdf.pdf_page float <$> ps).
    { intros Hel. apply list_elem_of_fmap in Hel as (Q & Heq & HQ).
      destruct (Hin Q HQ) as [_ Hq]. lia. }
    exists doc'. split; [done|]. split; [rewrite Hlen, Hlen2; simpl; lia|].
    split; [done|]. split.
    + intros [|i] Q HQ.
      * injection HQ as <-. rewrite Nat.add_0_r. split.
        -- apply Hframe; [|done]. unfold doc2. cbn [cos.objects].
           rewrite list_lookup_insert_ne by lia.
           rewrite lookup_last. unfold S0. by rewrite Hid.
        -- exists o, items,
             (cos.dict_set float items "Contents" r).
           split; [done|]. split.
           { apply Hframe; [|done]. unfold doc2. cbn [cos.objects].
             apply list_lookup_insert_eq. rewrite length_app. simpl. lia. }
           split; [unfold r; rewrite Hid; apply dict_get_set_eq|].
           intros k Hk. by apply dict_get_set_ne.
      * cbn [lookup list_lookup] in HQ.
        assert (HQin : Q ∈ ps) by (by eapply list_elem_of_lookup_2).
        destruct (Hin Q HQin) as [Hne Hq].
        destruct (Hpages i Q HQ) as (Hstream & oq & iq & iq' & Hq2 & Hq'
                                     & Hc & Hothers).
        rewrite Hlen2 in Hstream, Hc.
        replace (length (cos.objects float doc) + S i)%nat
          with (S (length (cos.objects float doc)) + i)%nat by lia.
        split; [done|]. exists oq, iq, iq'.
        split; [by apply Hback|]. done.
    + intros h v Hv Hnotin. rewrite fmap_cons in Hnotin.
      apply not_elem_of_cons in Hnotin as [Hne Hnotin].
      apply Hframe; [|done]. by apply Hkeep.
Qed.

(** X19.  The loop of the backend's [write] over the pages, on a document
    whose counter stands at the number of its objects and whose pages have
    each a dictionary of their own: it registers one stream for each
    page, in order, holding the text of the page's canvas, stores the
    reference of that stream as [Contents] of the page's dictionary,
    keeps every other entry and every other object, and leaves the counter
    at the number of objects. *)
Theorem attach_contents_spec (ps : list Page) :
  forall doc : cos.Document float,
  cos._identifier float doc = Z.of_nat (length (cos.objects float doc)) ->
  NoDup (pdf.pdf_page float <$> ps) ->
  Forall (fun P : Page =>
            exists o items,
              cos.objects float doc !! pdf.pdf_page float P
              = Some (cos.Dictionary float o items)) ps ->
  exists doc',
    pdf.attach_contents float ps doc = Ok (tt, doc')
    /\ length (cos.objects float doc')
       = (length (cos.objects float doc) + length ps)%nat
    /\ cos._identifier float doc'
       = Z.of_nat (length (cos.objects float doc'))
    /\ (forall i (P : Page), ps !! i = Some P ->
          cos.objects float doc' !! (length (cos.objects float doc) + i)%nat
          = Some (cos.Stream float
                    {| cos.generation := 0;
                       cos.identifier :=
                         Some (Z.of_nat (length (cos.objects float doc) + i)
                               + 1) |}
                    (encode_utf_8 (pdf.canvas float P)))
          /\ exists o items items',
               cos.objects float doc !! pdf.pdf_page float P
                 = Some (cos.Dictionary float o items)
               /\ cos.objects float doc' !! pdf.pdf_page float P
                  = Some (cos.Dictionary float o items')
               /\ cos.dict_get float items' "Contents"
                  = Some (cos.Reference float
                            (Z.of_nat (length (cos.objects float doc) + i)
                             + 1) 0)
               /\ forall k, k <> "Contents" ->
                    cos.dict_get float items' k = cos.dict_get float items k)
    /\ forall h v,
         cos.objects float doc !! h = Some v ->
         h ∉ pdf.pdf_page float <$> ps ->
         cos.objects float doc' !! h = Some v.
Proof. exact (attach_contents_rounds ps). Qed.

End Contents.

Lemma attach_contents_spec_witness :
  cos._identifier Z (pdf.pdf_document Z Example.one_page_backend)
  = Z.of_nat (length (cos.objects Z
                        (pdf.pdf_document Z Example.one_page_backend)))
  /\ NoDup (pdf.pdf_page Z <$> [Example.first_page])
  /\ Forall (fun P : pdf.Page Z =>
               exists o items,
                 cos.objects Z (pdf.pdf_document Z Example.one_page_backend)
                   !! pdf.pdf_page Z P
                 = Some (cos.Dictionary Z o items)) [Example.first_page]
  /\ exists doc',
       pdf.attach_contents Z [Example.first_page]
         (pdf.pdf_document Z Example.one_page_backend) = Ok (tt, doc')
       /\ length (cos.objects Z doc')
          = (length (cos.objects Z
                       (pdf.pdf_document Z Example.one_page_backend))
             + length [Example.first_page])%nat
       /\ cos._identifier Z doc' = Z.of_nat (length (cos.objects Z doc'))
       /\ (forall i (P : pdf.Page Z), [Example.first_page] !! i = Some P ->
             cos.objects Z doc'
               !! (length (cos.objects Z
                             (pdf.pdf_document Z Example.one_page_backend))
                   + i)%nat
             = Some (cos.Stream Z
                       {| cos.generation := 0;
                          cos.identifier :=
                            Some (Z.of_nat
                                    (length
                                       (cos.objects Z
                                          (pdf.pdf_document Z
                                             Example.one_page_backend))
                                     + i) + 1) |}
                       (encode_utf_8 (pdf.canvas Z P)))
             /\ exists o items items',
                  cos.objects Z (pdf.pdf_document Z Example.one_page_backend)
                    !! pdf.pdf_page Z P
                    = Some (cos.Dictionary Z o items)
                  /\ cos.objects Z doc' !! pdf.pdf_page Z P
                     = Some (cos.Dictionary Z o items')
                  /\ cos.dict_get Z items' "Contents"
                     = Some (cos.Reference Z
                               (Z.of_nat
                                  (length
                                     (cos.objects Z
                                        (pdf.pdf_document Z
                                           Example.one_page_backend))
                                   + i) + 1) 0)
                  /\ forall k, k <> "Contents" ->
                       cos.dict_get Z items' k = cos.dict_get Z items k)
       /\ forall h v,
            cos.objects Z (pdf.pdf_document Z Example.one_page_backend) !! h
              = Some v ->
            h ∉ pdf.pdf_page Z <$> [Example.first_page] ->
            cos.objects Z doc' !! h = Some v.
Proof.
  assert (Hid : cos._identifier Z
                  (pdf.pdf_document Z Example.one_page_backend)
                = Z.of_nat
                    (length (cos.objects Z
                               (pdf.pdf_document Z
                                  Example.one_page_backend))))
    by (vm_compute; reflexivity).
  assert (Hnd : NoDup (pdf.pdf_page Z <$> [Example.first_page]))
    by apply NoDup_singleton.
  assert (Hps : Forall (fun P : pdf.Page Z =>
                          exists o items,
                            cos.objects Z
                              (pdf.pdf_document Z Example.one_page_backend)
                              !! pdf.pdf_page Z P
                            = Some (cos.Dictionary Z o items))
                  [Example.first_page]).
  { constructor; [|constructor]. eexists _, _. vm_compute. reflexivity. }
  split; [exact Hid|]. split; [exact Hnd|]. split; [exact Hps|].
  exact (attach_contents_spec Z [Example.first_page]
           (pdf.pdf_document Z Example.one_page_backend) Hid Hnd Hps).
Defined.

(** * The bytes of a new page *)

Section PageBytes.

Variable float : Type.
Variable float_str : float -> str.

Local Abbreviation Document := (cos.Document float).



End PageBytes.


(** * The backend stays inside the runs *)

Section BackendRuns.

Variable float : Type.
Variable float_str : float -> str.
Context {font : Type} `{Countable font}.
Variable is_core : font -> bool.
Variable ps_name : font -> str.
Variable number : Type.
Variable number_str : number -> str.
Variable by_glyph_name : font -> str -> option (Z * number).
Variable glyph_space : number -> number -> result number.
Variable adjustment : number -> number -> result Z.

Local Abbreviation Value := (cos.Value float).
Local Abbreviation Document := (pdf.Document float (font := font)).
Local Abbreviation Page := (pdf.Page float (font := font)).
Local Abbreviation reachable := (cos.reachable float float_str).
Local Abbreviation closed_under := (cos.closed_under float float_str).

(** A method of the backend that keeps the cos document inside the
    runs. *)
Local Abbreviation keeps_runs m :=
  (forall (D : Document) a (D' : Document),
     reachable (pdf.pdf_document float D) -> m D = Ok (a, D') ->
     reachable (pdf.pdf_document float D')).

Lemma keeps_on_pdf_document {A} (m : cos.M float A) :
  closed_under m -> keeps_runs (pdf.on_pdf_document float m).
Proof.
  intros Hm D a D' Hr Hrun.
  apply on_pdf_document_inv in Hrun as (doc & Hdoc & ->).
  cbn [pdf.pdf_document]. by eapply Hm.
Qed.

Lemma keeps_bind {A B} (m : pdf.M float A) (k : A -> pdf.M float B) :
  keeps_runs m -> (forall a, keeps_runs (k a)) ->
  keeps_runs (pdf.mbind float m k).
Proof.
  intros Hm Hk D b D'' Hr. unfold pdf.mbind.
  destruct (m D) as [[a D']|] eqn:HmD; [|discriminate].
  intros HkD. eapply Hk; [|exact HkD]. by eapply Hm.
Qed.

Lemma keeps_ret {A} (a : A) : keeps_runs (pdf.ret float a).
Proof. intros D a' D' Hr [= _ <-]. exact Hr. Qed.

Lemma add_font_resource_attrs name (font_rsc v v' : Value) :
  pdf.add_font_resource float name font_rsc v = Ok v' ->
  cos.attrs float v' = cos.attrs float v.
Proof.
  unfold pdf.add_font_resource.
  destruct (cos.getitem float v "Resources") as [[]|]; try discriminate.
  cbn [Py.bind].
  destruct (cos.reference float font_rsc); [|discriminate]. cbn [Py.bind].
  destruct (cos.setitem float _ name _); [|discriminate]. cbn [Py.bind].
  apply setitem_attrs.
Qed.

Lemma keeps_Document_register_font f :
  keeps_runs (pdf.Document_register_font float is_core ps_name f).
Proof.
  intros D h D' Hr. unfold pdf.Document_register_font.
  destruct (pdf.fonts float D !! f); [by intros [= _ <-]|].
  destruct (is_core f); [|discriminate].
  revert D h D' Hr.
  repeat first
    [ apply keeps_on_pdf_document;
      first [apply closed_Font_init | apply closed_store]
    | apply keeps_bind; [|intros ?] ].
  intros D h D' Hr [= _ <-]. exact Hr.
Qed.

Lemma keeps_Page_init w h : keeps_runs (pdf.Page_init float w h).
Proof.
  unfold pdf.Page_init. apply keeps_bind.
  - apply keeps_on_pdf_document. intros d a d' Hr Hm.
    by eapply closed_new_page.
  - intros p D a D' Hr [= _ <-]. exact Hr.
Qed.

Lemma keeps_Page_register_font self f :
  keeps_runs (pdf.Page_register_font float is_core ps_name self f).
Proof.
  unfold pdf.Page_register_font. apply keeps_bind.
  - intros D P D' Hr. unfold pdf.get_page.
    destruct (pdf.pages float D !! self); by intros [= _ <-].
  - intros P. destruct (pdf.font_names float P !! f); [apply keeps_ret|].
    apply keeps_bind; [apply keeps_Document_register_font|]. intros h.
    apply keeps_bind;
      [apply keeps_on_pdf_document, closed_deref|]. intros font_obj.
    apply keeps_bind.
    { apply keeps_on_pdf_document, closed_update.
      intros v v'. apply add_font_resource_attrs. }
    intros _. apply keeps_bind; [|intros _; apply keeps_ret].
    intros D u D' Hr [= _ <-]. exact Hr.
Qed.

Lemma closed_attach_contents (ps : list Page) :
  closed_under (pdf.attach_contents float ps).
Proof.
  induction ps as [|P ps IH]; [apply closed_ret|].
  cbn [pdf.attach_contents].
  apply closed_bind; [apply closed_Stream_init|]. intros contents.
  apply closed_bind; [apply closed_deref|]. intros contents_obj.
  apply closed_bind; [apply closed_lift|]. intros r.
  apply closed_bind; [apply closed_store|]. intros _. exact IH.
Qed.

Lemma keeps_show_glyphs self page x y f size glyphs x_displacements :
  keeps_runs
    (pdf.show_glyphs float is_core ps_name number number_str by_glyph_name
       glyph_space adjustment self page x y f size glyphs x_displacements).
Proof.
  unfold pdf.show_glyphs. apply keeps_bind.
  - intros D0 s D1 Hr0.
    destruct (pdf.glyphs_string _ _ _ _ _ _ _ _); by intros [= _ <-].
  - intros s. apply keeps_bind; [apply keeps_Page_register_font|].
    intros name. apply keeps_ret.
Qed.

Lemma keeps_write : keeps_runs (pdf.write float float_str).
Proof.
  intros D out D' Hr. revert D out D' Hr.
  assert (Hps : forall ps : list Page,
            keeps_runs
              (pdf.mbind float
                 (pdf.on_pdf_document float (pdf.attach_contents float ps))
                 (fun _ =>
                    pdf.on_pdf_document float (cos.write float float_str)))).
  { intros ps. apply keeps_bind.
    - apply keeps_on_pdf_document, closed_attach_contents.
    - intros _. apply keeps_on_pdf_document, closed_write. }
  intros D out D' Hr Hw. exact (Hps (pdf.pages float D) D out D' Hr Hw).
Qed.

(** X21.  The backend never leaves the runs of the cos document: every
    call that returns, be it a page made, a font registered with the
    document or with a page, glyphs shown or the document written, takes
    a document that a run reached to one that a run reached, so that what
    holds of those holds of every document built through the backend. *)
Theorem backend_keeps_runs (D D' : Document) :
  reachable (pdf.pdf_document float D) ->
  pdf.call float float_str is_core ps_name number number_str by_glyph_name
    glyph_space adjustment D D' ->
  reachable (pdf.pdf_document float D').
Proof.
  intros Hr Hcall.
  destruct Hcall as [w h p D D' Hrun|f h D D' Hrun|self f name D D' Hrun
                    |self page x y f size glyphs ds out D D' Hrun
                    |out D D' Hrun].
  - by eapply keeps_Page_init.
  - by eapply keeps_Document_register_font.
  - by eapply keeps_Page_register_font.
  - by eapply keeps_show_glyphs.
  - by eapply keeps_write.
Qed.

(** The loop over the pages goes through when every page has a
    dictionary, and leaves objects that can be encoded. *)
Lemma body_okb_dict_set (items : list (str * Value)) key v :
  forallb (fun kv : str * Value =>
             cos.use_okb_with float (cos.body_okb float) (snd kv)) items
    = true ->
  cos.use_okb_with float (cos.body_okb float) v = true ->
  forallb (fun kv : str * Value =>
             cos.use_okb_with float (cos.body_okb float) (snd kv))
    (cos.dict_set float items key v) = true.
Proof.
  intros Hitems Hv. induction items as [|[k x] items IH]; simpl.
  - by rewrite Hv.
  - simpl in Hitems. apply andb_prop in Hitems as [Hx Hrest].
    destruct (String.eqb k key); simpl.
    + by rewrite Hv, Hrest.
    + by rewrite Hx, IH.
Qed.

Lemma attach_contents_total (ps : list Page) :
  forall doc : cos.Document float,
  Forall (fun P : Page =>
            exists o items,
              cos.objects float doc !! pdf.pdf_page float P
              = Some (cos.Dictionary float o items)) ps ->
  Forall (fun v => cos.body_okb float v = true) (cos.objects float doc) ->
  exists doc',
    pdf.attach_contents float ps doc = Ok (tt, doc')
    /\ Forall (fun v => cos.body_okb float v = true)
         (cos.objects float doc')
    /\ length (cos.objects float doc')
       = (length (cos.objects float doc) + length ps)%nat.
Proof.
  induction ps as [|P ps IH]; intros doc Hps Hok.
  - exists doc. split; [reflexivity|]. split; [done | simpl; lia].
  - apply Forall_cons in Hps as [(o & items & HP) Hps].
    rewrite (attach_contents_cons _ P ps doc o items HP).
    assert (Hlt : (pdf.pdf_page float P < length (cos.objects float doc))%nat)
      by (by eapply lookup_lt_Some).
    edestruct IH as (doc' & Hrun & Hok' & Hlen).
    3: { exists doc'. split; [exact Hrun|]. split; [exact Hok'|].
         rewrite Hlen. cbn [cos.objects].
         rewrite length_insert, length_app. simpl. lia. }
    + cbn [cos.objects]. eapply Forall_impl; [exact Hps|].
      intros Q (oq & iq & HQ).
      destruct (decide (pdf.pdf_page float Q = pdf.pdf_page float P))
        as [->|Hne].
      * eexists _, _. apply list_lookup_insert_eq.
        rewrite length_app. simpl. lia.
      * exists oq, iq. rewrite list_lookup_insert_ne by done.
        by apply lookup_app_l_Some.
    + cbn [cos.objects]. apply Forall_insert.
      * apply Forall_app. split; [done|]. by apply Forall_singleton.
      * cbn [cos.body_okb]. apply body_okb_dict_set; [|done].
        eapply Forall_lookup_1 in Hok; [|exact HP]. exact Hok.
Qed.

(** X22.  A backend document whose cos document a run reached, whose
    pages have each a dictionary in the registry, and whose objects can
    all be encoded, can be written; the write leaves one more object for
    each page, the stream of its contents. *)
Theorem backend_write_succeeds (D : Document) :
  reachable (pdf.pdf_document float D) ->
  Forall (fun P : Page =>
            exists o items,
              cos.objects float (pdf.pdf_document float D)
                !! pdf.pdf_page float P
              = Some (cos.Dictionary float o items)) (pdf.pages float D) ->
  Forall (fun v => cos.body_okb float v = true)
    (cos.objects float (pdf.pdf_document float D)) ->
  exists out (D' : Document),
    pdf.write float float_str D = Ok (out, D')
    /\ pdf.pages float D' = pdf.pages float D
    /\ pdf.fonts float D' = pdf.fonts float D
    /\ length (cos.objects float (pdf.pdf_document float D'))
       = (length (cos.objects float (pdf.pdf_document float D))
          + length (pdf.pages float D))%nat.
Proof.
  intros Hr Hps Hok.
  destruct (attach_contents_total _ _ Hps Hok) as (doc1 & Hrun & Hok1 & Hlen).
  assert (Hr1 : reachable doc1) by (by eapply closed_attach_contents).
  destruct (reachable_write_total _ _ doc1 Hr1 Hok1) as (out & doc2 & Hw).
  pose proof (write_inv _ _ _ _ _ Hw) as (table & file & _ & Hdoc2).
  exists out. eexists.
  unfold pdf.write, pdf.mbind, pdf.on_pdf_document.
  rewrite Hrun. cbn [pdf.pdf_document pdf.pages pdf.fonts]. rewrite Hw.
  split; [reflexivity|]. cbn [pdf.pdf_document pdf.pages pdf.fonts].
  split; [done|]. split; [done|]. rewrite Hdoc2. cbn [cos.objects]. done.
Qed.

End BackendRuns.

Lemma backend_document_reachable :
  cos.reachable Z Example.float_str
    (pdf.pdf_document Z Example.backend_document).
Proof. apply cos.reachable_init. vm_compute. reflexivity. Qed.

Lemma one_page_backend_eq :
  pdf.Page_init Z 200 300 Example.backend_document
  = Ok (0%nat, Example.one_page_backend).
Proof. vm_compute. reflexivity. Qed.

Lemma one_page_backend_reachable :
  cos.reachable Z Example.float_str
    (pdf.pdf_document Z Example.one_page_backend).
Proof.
  eapply (keeps_Page_init Z Example.float_str);
    [exact backend_document_reachable | exact one_page_backend_eq].
Qed.

Lemma one_page_backend_call :
  pdf.call Z Example.float_str (fun _ => true) (fun _ => "Helvetica") Z
    str_int Example.by_glyph_name Example.glyph_space Example.adjustment
    Example.one_page_backend Example.shown_document.
Proof. eapply pdf.call_show_glyphs. exact shown_eq. Qed.

Lemma backend_keeps_runs_witness :
  cos.reachable Z Example.float_str
    (pdf.pdf_document Z Example.one_page_backend)
  /\ pdf.call Z Example.float_str (fun _ => true) (fun _ => "Helvetica") Z
       str_int Example.by_glyph_name Example.glyph_space Example.adjustment
       Example.one_page_backend Example.shown_document
  /\ cos.reachable Z Example.float_str
       (pdf.pdf_document Z Example.shown_document).
Proof.
  split; [exact one_page_backend_reachable|].
  split; [exact one_page_backend_call|].
  apply (backend_keeps_runs Z Example.float_str (fun _ => true)
           (fun _ => "Helvetica") Z str_int Example.by_glyph_name
           Example.glyph_space Example.adjustment
           Example.one_page_backend Example.shown_document).
  - exact one_page_backend_reachable.
  - exact one_page_backend_call.
Defined.

Lemma backend_write_succeeds_witness :
  cos.reachable Z Example.float_str
    (pdf.pdf_document Z Example.one_page_backend)
  /\ Forall (fun P : pdf.Page Z =>
               exists o items,
                 cos.objects Z (pdf.pdf_document Z Example.one_page_backend)
                   !! pdf.pdf_page Z P
                 = Some (cos.Dictionary Z o items))
       (pdf.pages Z Example.one_page_backend)
  /\ Forall (fun v => cos.body_okb Z v = true)
       (cos.objects Z (pdf.pdf_document Z Example.one_page_backend))
  /\ exists out (D' : pdf.Document Z),
       pdf.write Z Example.float_str Example.one_page_backend = Ok (out, D')
       /\ pdf.pages Z D' = pdf.pages Z Example.one_page_backend
       /\ pdf.fonts Z D' = pdf.fonts Z Example.one_page_backend
       /\ length (cos.objects Z (pdf.pdf_document Z D'))
          = (length (cos.objects Z
                       (pdf.pdf_document Z Example.one_page_backend))
             + length (pdf.pages Z Example.one_page_backend))%nat.
Proof.
  assert (Hps : Forall (fun P : pdf.Page Z =>
                          exists o items,
                            cos.objects Z
                              (pdf.pdf_document Z Example.one_page_backend)
                              !! pdf.pdf_page Z P
                            = Some (cos.Dictionary Z o items))
                  (pdf.pages Z Example.one_page_backend)).
  { constructor; [|constructor]. eexists _, _. vm_compute. reflexivity. }
  assert (Hok : Forall (fun v => cos.body_okb Z v = true)
                  (cos.objects Z
                     (pdf.pdf_document Z Example.one_page_backend))).
  { repeat (constructor; [vm_compute; reflexivity|]). constructor. }
  split; [exact one_page_backend_reachable|].
  split; [exact Hps|]. split; [exact Hok|].
  exact (backend_write_succeeds Z Example.float_str
           Example.one_page_backend one_page_backend_reachable Hps Hok).
Defined.

(** * Every document that the backend builds *)

Section Built.

Variable float : Type.
Variable float_str : float -> str.
Context {font : Type} `{Countable font}.
Variable is_core : font -> bool.
Variable ps_name : font -> str.
Variable number : Type.
Variable number_str : number -> str.
Variable by_glyph_name : font -> str -> option (Z * number).
Variable glyph_space : number -> number -> result number.
Variable adjustment : number -> number -> result Z.

Local Abbreviation Value := (cos.Value float).
Local Abbreviation Document := (pdf.Document float (font := font)).
Local Abbreviation Page := (pdf.Page float (font := font)).
Local Abbreviation reachable := (cos.reachable float float_str).
Local Abbreviation closed_under := (cos.closed_under float float_str).
Local Abbreviation built :=
  (pdf.built float float_str is_core ps_name number number_str
     by_glyph_name glyph_space adjustment).
Local Abbreviation used_ok v :=
  (cos.use_okb_with float (cos.body_okb float) v = true).
Local Abbreviation is_dictionary v :=
  (exists o items, v = cos.Dictionary float o items).

(** Every registered object can be encoded. *)
Local Abbreviation encodable d :=
  (Forall (fun v : Value => cos.body_okb float v = true)
     (cos.objects float d)).

(** The object behind the handle [h] is a dictionary. *)
Local Abbreviation dictionary_at h d :=
  (exists o items,
     cos.objects float d !! h = Some (cos.Dictionary float o items)).

(** A method of the cos document that keeps objects encodable and
    dictionaries where they are. *)
Local Abbreviation preserving m :=
  (forall (d : cos.Document float) a (d' : cos.Document float),
     m d = Ok (a, d') ->
     (encodable d -> encodable d')
     /\ (forall h : nat, dictionary_at h d -> dictionary_at h d')).

(** What a method returns. *)
Local Abbreviation yields m P :=
  (forall (d : cos.Document float) a (d' : cos.Document float),
     m d = Ok (a, d') -> P a).

(** *** The primitives *)

Lemma bind_inv {A B} (m : cos.M float A) (k : A -> cos.M float B) d b d'' :
  cos.mbind float m k d = Ok (b, d'') ->
  exists a d', m d = Ok (a, d') /\ k a d' = Ok (b, d'').
Proof.
  unfold cos.mbind. destruct (m d) as [[a d']|]; [|discriminate]. eauto.
Qed.

Lemma yields_ret {A} (a : A) (P : A -> Prop) :
  P a -> yields (cos.ret float a) P.
Proof. intros HP d a' d' [= <- _]. exact HP. Qed.

Lemma yields_bind {A B} (m : cos.M float A) (k : A -> cos.M float B)
    (P : B -> Prop) :
  (forall a, yields (k a) P) -> yields (cos.mbind float m k) P.
Proof.
  intros Hk d b d'' Hrun. apply bind_inv in Hrun as (a & d' & _ & Hrun).
  by eapply Hk.
Qed.

Lemma preserving_ret {A} (a : A) : preserving (cos.ret float a).
Proof. intros d a' d' [= _ <-]. by split. Qed.

Lemma preserving_lift {A} (r : result A) : preserving (cos.lift float r).
Proof.
  intros d a d'. unfold cos.lift. destruct r; [|discriminate].
  intros [= _ <-]. by split.
Qed.

Lemma preserving_deref self : preserving (cos.deref float self).
Proof.
  intros d a d'. unfold cos.deref.
  destruct (cos.objects float d !! self); [|discriminate].
  intros [= _ <-]. by split.
Qed.

Lemma preserving_bind {A B} (m : cos.M float A) (k : A -> cos.M float B)
    (P : A -> Prop) :
  preserving m -> yields m P -> (forall a, P a -> preserving (k a)) ->
  preserving (cos.mbind float m k).
Proof.
  intros Hm HP Hk d b d'' Hrun.
  apply bind_inv in Hrun as (a & d' & Hmd & Hkd).
  destruct (Hm _ _ _ Hmd) as [H1 H2].
  destruct (Hk a (HP _ _ _ Hmd) _ _ _ Hkd) as [H3 H4].
  split; [by intros ?; apply H3, H1 | by intros h ?; apply H4, H2].
Qed.

Lemma preserving_seq {A B} (m : cos.M float A) (k : A -> cos.M float B) :
  preserving m -> (forall a, preserving (k a)) ->
  preserving (cos.mbind float m k).
Proof.
  intros Hm Hk. apply (preserving_bind m k (fun _ => True)); [done| |].
  - by intros d a d' _.
  - intros a _. apply Hk.
Qed.

Lemma preserving_Object_init body :
  (forall o, cos.body_okb float (body o) = true) ->
  preserving (cos.Object_init float body).
Proof.
  intros Hb d a d'. rewrite Object_init_eq. intros [= _ <-].
  cbn [cos.objects]. split.
  - intros Hok. apply Forall_app. split; [done|]. by apply Forall_singleton.
  - intros h (o & items & Hh). exists o, items. by apply lookup_app_l_Some.
Qed.

Lemma preserving_update self f :
  (forall v v' : Value, f v = Ok v' ->
     (cos.body_okb float v = true -> cos.body_okb float v' = true)
     /\ (is_dictionary v -> is_dictionary v')) ->
  preserving (cos.update float self f).
Proof.
  intros Hf d [] d' Hu.
  apply update_inv in Hu as (v & v' & Hv & Hfv & ->). cbn [cos.objects].
  destruct (Hf _ _ Hfv) as [Hok Hdict]. split.
  - intros Hall. apply Forall_insert; [done|]. apply Hok.
    by eapply Forall_lookup_1 in Hall.
  - intros h (o & items & Hh). destruct (decide (h = self)) as [->|Hne].
    + assert (Hd : is_dictionary v)
        by (rewrite Hv in Hh; injection Hh as ->; eauto).
      apply Hdict in Hd as (o' & items' & ->).
      exists o', items'. apply list_lookup_insert_eq.
      by eapply lookup_lt_Some.
    + exists o, items. by rewrite list_lookup_insert_ne.
Qed.

Lemma used_ok_setitem (v x v' : Value) key :
  used_ok v -> used_ok x -> cos.setitem float v key x = Ok v' -> used_ok v'.
Proof.
  destruct v as [| | | | | |o items| | |]; try discriminate.
  intros Hv Hx [= <-]. unfold cos.use_okb_with in Hv |- *.
  destruct (cos.identifier o); [done|]. cbn [cos.body_okb] in Hv |- *.
  by apply body_okb_dict_set.
Qed.

Lemma setitem_preserves (v x v' : Value) key :
  used_ok x -> cos.setitem float v key x = Ok v' ->
  (cos.body_okb float v = true -> cos.body_okb float v' = true)
  /\ (is_dictionary v -> is_dictionary v').
Proof.
  destruct v as [| | | | | |o items| | |]; try discriminate.
  intros Hx [= <-]. split; [|eauto].
  cbn [cos.body_okb]. intros Hv. by apply body_okb_dict_set.
Qed.

Lemma setitem_dictionary (v x v' : Value) key :
  cos.setitem float v key x = Ok v' -> is_dictionary v'.
Proof.
  destruct v as [| | | | | |o items| | |]; try discriminate.
  intros [= <-]. eauto.
Qed.

Lemma preserving_store self key x :
  used_ok x -> preserving (cos.store float self key x).
Proof.
  intros Hx. apply preserving_update. intros v v'.
  by apply setitem_preserves.
Qed.

Lemma used_ok_reference (v r : Value) :
  cos.reference float v = Ok r -> used_ok r.
Proof.
  unfold cos.reference. destruct (cos.attrs float v) as [o|]; [|discriminate].
  cbn [Py.bind]. destruct (cos.identifier o); [|discriminate].
  by intros [= <-].
Qed.

Lemma yields_reference (v : Value) :
  yields (cos.lift float (cos.reference float v)) (fun r => used_ok r).
Proof.
  intros d r d'. unfold cos.lift.
  destruct (cos.reference float v) as [r'|] eqn:Hr; [|discriminate].
  intros [= <- _]. by eapply used_ok_reference.
Qed.

Lemma used_ok_getitem (v x : Value) key :
  cos.body_okb float v = true -> cos.getitem float v key = Ok x -> used_ok x.
Proof.
  destruct v as [| | | | | |o items| | |]; try discriminate.
  cbn [cos.body_okb cos.getitem]. intros Hitems.
  destruct (cos.dict_get float items key) as [y|] eqn:Hget; [|discriminate].
  intros [= <-]. induction items as [|[k z] items IH]; [discriminate|].
  simpl in Hitems, Hget. apply andb_prop in Hitems as [Hz Hitems].
  destruct (String.eqb k key); [by injection Hget as <- | by apply IH].
Qed.

Lemma used_ok_Array_append (kids r kids' : Value) :
  used_ok kids -> used_ok r -> cos.Array_append float kids r = Ok kids' ->
  used_ok kids'.
Proof.
  destruct kids as [| | | | |o items| | | |]; try discriminate.
  intros Hk Hr [= <-]. unfold cos.use_okb_with in Hk |- *.
  destruct (cos.identifier o); [done|]. cbn [cos.body_okb] in Hk |- *.
  rewrite forallb_app, Hk. simpl. by rewrite Hr.
Qed.

(** *** The methods of cos.py *)

Lemma preserving_Page_init_rest parent w h self :
  preserving
    (cos.mbind float
       (cos.store float self "Type" (cos.Name float cos.direct "Page"))
       (fun _ =>
     cos.mbind float (cos.deref float parent) (fun parent_obj =>
     cos.mbind float (cos.lift float (cos.reference float parent_obj))
       (fun parent_reference =>
     cos.mbind float (cos.store float self "Parent" parent_reference)
       (fun _ =>
     cos.mbind float
       (cos.store float self "Resources"
          (cos.Dictionary float cos.direct []))
       (fun _ =>
     cos.mbind float
       (cos.store float self "MediaBox"
          (cos.Array float cos.direct
             [cos.Integer float cos.direct 0; cos.Integer float cos.direct 0;
              cos.Real float cos.direct w; cos.Real float cos.direct h]))
       (fun _ => cos.ret float self))))))).
Proof.
  apply preserving_seq; [by apply preserving_store|]. intros _.
  apply preserving_seq; [apply preserving_deref|]. intros parent_obj.
  eapply preserving_bind;
    [apply preserving_lift | apply yields_reference|]. intros r Hr.
  apply preserving_seq; [by apply preserving_store|]. intros _.
  apply preserving_seq; [by apply preserving_store|]. intros _.
  apply preserving_seq; [by apply preserving_store|]. intros _.
  apply preserving_ret.
Qed.

Lemma preserving_Page_init parent w h :
  preserving (cos.Page_init float parent w h).
Proof.
  unfold cos.Page_init.
  apply preserving_seq; [by apply preserving_Object_init|]. intros self.
  apply preserving_Page_init_rest.
Qed.

(** The handle that [Page.__init__] returns is that of a dictionary. *)
Lemma Page_init_dictionary parent w h (d d' : cos.Document float) page :
  cos.Page_init float parent w h d = Ok (page, d') ->
  page = length (cos.objects float d) /\ dictionary_at page d'.
Proof.
  unfold cos.Page_init. intros Hrun.
  apply bind_inv in Hrun as (self & d0 & Hinit & Hrest).
  assert (Hself : self = page).
  { revert Hrest.
    match goal with
    | |- ?m ?d0 = Ok _ -> _ =>
        assert (Hy : yields m (eq self))
          by (repeat (apply yields_bind; intros ?); by apply yields_ret);
        intros Hrest; exact (Hy _ _ _ Hrest)
    end. }
  subst page. rewrite Object_init_eq in Hinit. injection Hinit as <- <-.
  destruct (preserving_Page_init_rest parent w h _ _ _ _ Hrest) as [_ Hd].
  split; [done|]. apply Hd. cbn [cos.objects]. eexists _, _.
  apply lookup_last.
Qed.

Lemma Kids_update_preserves (r v v' : Value) :
  used_ok r ->
  (kids <- cos.getitem float v "Kids" ;;
   kids' <- cos.Array_append float kids r ;;
   cos.setitem float v "Kids" kids') = Ok v' ->
  (cos.body_okb float v = true -> cos.body_okb float v' = true)
  /\ (is_dictionary v -> is_dictionary v').
Proof.
  intros Hr Hf.
  destruct (cos.getitem float v "Kids") as [kids|] eqn:Hk; [|discriminate].
  cbn [Py.bind] in Hf.
  destruct (cos.Array_append float kids r) as [kids'|] eqn:Ha;
    [|discriminate].
  cbn [Py.bind] in Hf.
  split; [|by intros _; eapply setitem_dictionary].
  intros Hv. eapply setitem_preserves; [|exact Hf|exact Hv].
  eapply used_ok_Array_append; [|exact Hr|exact Ha].
  by eapply used_ok_getitem.
Qed.

Lemma Count_update_preserves (v v' : Value) :
  (count <- cos.getitem float v "Count" ;;
   n <- cos.add_1 float count ;;
   cos.setitem float v "Count" (cos.Integer float cos.direct n)) = Ok v' ->
  (cos.body_okb float v = true -> cos.body_okb float v' = true)
  /\ (is_dictionary v -> is_dictionary v').
Proof.
  intros Hf.
  destruct (cos.getitem float v "Count") as [count|]; [|discriminate].
  cbn [Py.bind] in Hf.
  destruct (cos.add_1 float count) as [n|]; [|discriminate].
  cbn [Py.bind] in Hf. by eapply setitem_preserves; [|exact Hf].
Qed.

Lemma preserving_new_page_rest self page :
  preserving
    (cos.mbind float (cos.deref float page) (fun page_obj =>
     cos.mbind float (cos.lift float (cos.reference float page_obj))
       (fun page_reference =>
     cos.mbind float
       (cos.update float self (fun obj =>
          kids <- cos.getitem float obj "Kids" ;;
          kids' <- cos.Array_append float kids page_reference ;;
          cos.setitem float obj "Kids" kids'))
       (fun _ =>
     cos.mbind float
       (cos.update float self (fun obj =>
          count <- cos.getitem float obj "Count" ;;
          n <- cos.add_1 float count ;;
          cos.setitem float obj "Count" (cos.Integer float cos.direct n)))
       (fun _ => cos.ret float page))))).
Proof.
  apply preserving_seq; [apply preserving_deref|]. intros page_obj.
  eapply preserving_bind;
    [apply preserving_lift | apply yields_reference|]. intros r Hr.
  apply preserving_seq.
  { apply preserving_update. intros v v'. by apply Kids_update_preserves. }
  intros _. apply preserving_seq.
  { apply preserving_update. intros v v'. apply Count_update_preserves. }
  intros _. apply preserving_ret.
Qed.

Lemma preserving_new_page self w h :
  preserving (cos.new_page float self w h).
Proof.
  unfold cos.new_page.
  apply preserving_seq; [apply preserving_Page_init|]. intros page.
  apply preserving_new_page_rest.
Qed.

Lemma preserving_Font_init : preserving (cos.Font_init float).
Proof.
  unfold cos.Font_init.
  apply preserving_seq; [by apply preserving_Object_init|]. intros self.
  apply preserving_seq; [by apply preserving_store|]. intros _.
  apply preserving_ret.
Qed.

Lemma preserving_write : preserving (cos.write float float_str).
Proof.
  intros d out d' Hw. apply write_inv in Hw as (table & file & _ & ->).
  by split.
Qed.

Lemma preserving_attach_contents (ps : list Page) :
  preserving (pdf.attach_contents float ps).
Proof.
  induction ps as [|P ps IH]; [apply preserving_ret|].
  cbn [pdf.attach_contents].
  apply preserving_seq; [by apply preserving_Object_init|]. intros contents.
  apply preserving_seq; [apply preserving_deref|]. intros contents_obj.
  eapply preserving_bind;
    [apply preserving_lift | apply yields_reference|]. intros r Hr.
  apply preserving_seq; [by apply preserving_store|]. intros _. exact IH.
Qed.

Lemma add_font_resource_preserves name (font_rsc v v' : Value) :
  pdf.add_font_resource float name font_rsc v = Ok v' ->
  (cos.body_okb float v = true -> cos.body_okb float v' = true)
  /\ (is_dictionary v -> is_dictionary v').
Proof.
  unfold pdf.add_font_resource.
  destruct (cos.getitem float v "Resources") as [page_rsc|] eqn:Hrsc;
    [|discriminate].
  cbn [Py.bind].
  destruct page_rsc as [| | | | | |o items| | |]; try discriminate.
  destruct (cos.reference float font_rsc) as [r|] eqn:Hr; [|discriminate].
  cbn [Py.bind].
  destruct (cos.setitem float _ name r) as [fonts_dict'|] eqn:Hset;
    [|discriminate].
  cbn [Py.bind]. intros Hv'.
  split; [|by intros _; eapply setitem_dictionary].
  intros Hv. eapply setitem_preserves; [|exact Hv'|exact Hv].
  pose proof (used_ok_getitem _ _ _ Hv Hrsc) as Hprsc.
  unfold cos.use_okb_with in Hprsc |- *.
  destruct (cos.identifier o); [done|].
  cbn [cos.body_okb] in Hprsc |- *. apply body_okb_dict_set; [done|].
  eapply used_ok_setitem; [|by eapply used_ok_reference|exact Hset].
  destruct (cos.dict_get float items "Font") as [fd|] eqn:Hfd; [|done].
  eapply (used_ok_getitem (cos.Dictionary float o items));
    [exact Hprsc|]. cbn [cos.getitem]. by rewrite Hfd.
Qed.

(** The handle that [Pages.new_page] returns is that of a dictionary. *)
Lemma new_page_dictionary self w h (d d' : cos.Document float) page :
  cos.new_page float self w h d = Ok (page, d') ->
  page = length (cos.objects float d) /\ dictionary_at page d'.
Proof.
  unfold cos.new_page. intros Hrun.
  apply bind_inv in Hrun as (page0 & d0 & Hinit & Hrest).
  assert (Hpage : page0 = page).
  { revert Hrest.
    match goal with
    | |- ?m ?d0 = Ok _ -> _ =>
        assert (Hy : yields m (eq page0))
          by (repeat (apply yields_bind; intros ?); by apply yields_ret);
        intros Hrest; exact (Hy _ _ _ Hrest)
    end. }
  subst page0.
  destruct (preserving_new_page_rest self page _ _ _ Hrest) as [_ Hd].
  apply Page_init_dictionary in Hinit as [Hpage Hdict].
  split; [done | by apply Hd].
Qed.

(** *** The methods of the backend *)

(** The cos document is one that a run reached, its objects can be
    encoded, and each page has a dictionary in the registry. *)
Local Abbreviation in_order D :=
  (reachable (pdf.pdf_document float D)
   /\ encodable (pdf.pdf_document float D)
   /\ Forall (fun P : Page =>
                dictionary_at (pdf.pdf_page float P)
                  (pdf.pdf_document float D))
        (pdf.pages float D)).

Lemma in_order_on_pdf_document {A} (m : cos.M float A) (D D' : Document) a :
  closed_under m -> preserving m ->
  pdf.on_pdf_document float m D = Ok (a, D') ->
  in_order D ->
  in_order D' /\ pdf.pages float D' = pdf.pages float D.
Proof.
  intros Hc Hp Hrun (Hr & He & Hd).
  apply on_pdf_document_inv in Hrun as (doc & Hm & ->).
  cbn [pdf.pdf_document pdf.pages].
  destruct (Hp _ _ _ Hm) as [Hp1 Hp2].
  split; [|done]. split; [by eapply Hc|]. split; [by apply Hp1|].
  eapply Forall_impl; [exact Hd|]. intros P. apply Hp2.
Qed.

Lemma in_order_Document_register_font f (D D' : Document) h :
  pdf.Document_register_font float is_core ps_name f D = Ok (h, D') ->
  in_order D ->
  in_order D' /\ pdf.pages float D' = pdf.pages float D.
Proof.
  unfold pdf.Document_register_font, pdf.mbind. intros Hrun HD.
  destruct (pdf.fonts float D !! f); [by injection Hrun as _ <-|].
  destruct (is_core f); [|discriminate].
  destruct (pdf.on_pdf_document float (cos.Font_init float) D)
    as [[h1 D1]|] eqn:H1; [|discriminate].
  destruct (pdf.on_pdf_document float (cos.store float h1 "Subtype" _) D1)
    as [[u2 D2]|] eqn:H2; [|discriminate].
  destruct (pdf.on_pdf_document float (cos.store float h1 "BaseFont" _) D2)
    as [[u3 D3]|] eqn:H3; [|discriminate].
  injection Hrun as _ <-. cbn [pdf.pdf_document pdf.pages].
  eapply in_order_on_pdf_document in H1 as [HD1 Hp1];
    [|apply closed_Font_init|apply preserving_Font_init|exact HD].
  eapply in_order_on_pdf_document in H2 as [HD2 Hp2];
    [|apply closed_store|by apply preserving_store|exact HD1].
  eapply in_order_on_pdf_document in H3 as [HD3 Hp3];
    [|apply closed_store|by apply preserving_store|exact HD2].
  split; [exact HD3|]. by rewrite Hp3, Hp2, Hp1.
Qed.

Lemma in_order_Page_init w h (D D' : Document) p :
  pdf.Page_init float w h D = Ok (p, D') ->
  in_order D ->
  in_order D'
  /\ exists P : Page,
       pdf.pages float D' = pdf.pages float D ++ [P]
       /\ pdf.font_number float P = 1
       /\ pdf.font_names float P = ∅
       /\ pdf.pdf_page float P
          = length (cos.objects float (pdf.pdf_document float D)).
Proof.
  unfold pdf.Page_init, pdf.mbind. intros Hrun HD.
  destruct (pdf.on_pdf_document float _ D) as [[page D1]|] eqn:H1;
    [|discriminate].
  injection Hrun as _ <-. cbn [pdf.pdf_document pdf.pages].
  pose proof H1 as H1'.
  apply on_pdf_document_inv in H1' as (doc & Hnew & HD1).
  apply new_page_dictionary in Hnew as [Hpage Hnew].
  assert (Hdoc : doc = pdf.pdf_document float D1) by (by rewrite HD1).
  eapply in_order_on_pdf_document in H1 as [(Hr & He & Hd) Hp1];
    [| |
     |exact HD].
  - split.
    + split; [done|]. split; [done|]. apply Forall_app. split; [done|].
      apply Forall_singleton. cbn [pdf.pdf_page]. by rewrite <- Hdoc.
    + eexists. rewrite Hp1. split; [reflexivity|]. by repeat split.
  - intros d a d' Hrd Hm. by eapply closed_new_page.
  - intros d a d' Hm. by eapply preserving_new_page.
Qed.

Lemma in_order_Page_register_font self f (D D' : Document) name :
  pdf.Page_register_font float is_core ps_name self f D = Ok (name, D') ->
  in_order D -> in_order D'.
Proof.
  unfold pdf.Page_register_font, pdf.mbind, pdf.get_page. intros Hrun HD.
  destruct (pdf.pages float D !! self) as [P|] eqn:HP; [|discriminate].
  destruct (pdf.font_names float P !! f) as [n|].
  { unfold pdf.ret in Hrun. by injection Hrun as _ <-. }
  destruct (pdf.Document_register_font float is_core ps_name f D)
    as [[h D1]|] eqn:H1; [|discriminate].
  destruct (pdf.on_pdf_document float (cos.deref float h) D1)
    as [[font_obj D2]|] eqn:H2; [|discriminate].
  destruct (pdf.on_pdf_document float (cos.update float _ _) D2)
    as [[u D3]|] eqn:H3; [|discriminate].
  unfold pdf.set_page, pdf.ret in Hrun. injection Hrun as _ <-.
  apply in_order_Document_register_font in H1 as [HD1 Hp1]; [|exact HD].
  eapply in_order_on_pdf_document in H2 as [HD2 Hp2];
    [|apply closed_deref|apply preserving_deref|exact HD1].
  eapply in_order_on_pdf_document in H3 as [(Hr & He & Hd) Hp3];
    [| | |exact HD2].
  - cbn [pdf.pdf_document pdf.pages].
    split; [done|]. split; [done|]. apply Forall_insert; [done|].
    cbn [pdf.pdf_page].
    eapply (Forall_lookup_1 _ _ self P) in Hd; [exact Hd|].
    by rewrite Hp3, Hp2, Hp1.
  - apply closed_update. intros v v'. apply add_font_resource_attrs.
  - apply preserving_update. intros v v'. apply add_font_resource_preserves.
Qed.

Lemma in_order_write (D D' : Document) out :
  pdf.write float float_str D = Ok (out, D') ->
  in_order D ->
  in_order D' /\ pdf.pages float D' = pdf.pages float D.
Proof.
  unfold pdf.write, pdf.mbind. intros Hrun HD.
  destruct (pdf.on_pdf_document float (pdf.attach_contents float _) D)
    as [[u D1]|] eqn:H1; [|discriminate].
  eapply in_order_on_pdf_document in H1 as [HD1 Hp1];
    [|apply closed_attach_contents|apply preserving_attach_contents
     |exact HD].
  eapply in_order_on_pdf_document in Hrun as [HD2 Hp2];
    [|apply closed_write|apply preserving_write|exact HD1].
  split; [exact HD2|]. by rewrite Hp2, Hp1.
Qed.

Lemma show_glyphs_inv self page x y f size glyphs x_displacements
    (D D' : Document) out :
  pdf.show_glyphs float is_core ps_name number number_str by_glyph_name
    glyph_space adjustment self page x y f size glyphs x_displacements D
    = Ok (out, D') ->
  exists name,
    pdf.Page_register_font float is_core ps_name page f D = Ok (name, D').
Proof.
  unfold pdf.show_glyphs, pdf.mbind.
  destruct (pdf.glyphs_string _ _ _ _ _ _ _ _); [|discriminate].
  destruct (pdf.Page_register_font _ _ _ _ _ _) as [[name D1]|];
    [|discriminate].
  unfold pdf.ret. intros [= _ <-]. by exists name.
Qed.

Lemma in_order_init (D : Document) :
  pdf.Document_init float = Ok D ->
  in_order D /\ pdf.pages float D = [].
Proof.
  unfold pdf.Document_init.
  destruct (cos.Document_init float) as [doc|] eqn:Hdoc; [|discriminate].
  cbn [Py.bind]. intros [= <-]. cbn [pdf.pdf_document pdf.pages].
  split; [|done]. split; [by apply cos.reachable_init|].
  split; [|constructor].
  rewrite Document_init_eq in Hdoc. injection Hdoc as <-.
  cbn [cos.objects]. repeat (constructor; [reflexivity|]). constructor.
Qed.

Lemma built_in_order (D : Document) : built D -> in_order D.
Proof.
  induction 1 as [D Hinit|D w h p D' _ IH Hrun|D f h D' _ IH Hrun
                 |D self f name D' _ IH Hrun|D page p text _ IH Hp
                 |D self page x y f size glyphs ds out D' _ IH Hrun
                 |D out D' _ IH Hrun].
  - by apply in_order_init.
  - by eapply in_order_Page_init.
  - by eapply in_order_Document_register_font.
  - by eapply in_order_Page_register_font.
  - destruct IH as (Hr & He & Hd). cbn [pdf.pdf_document pdf.pages].
    split; [done|]. split; [done|]. apply Forall_insert; [done|].
    cbn [pdf.pdf_page]. by eapply (Forall_lookup_1 _ _ page p) in Hd.
  - apply show_glyphs_inv in Hrun as [name Hrun].
    by eapply in_order_Page_register_font.
  - by eapply in_order_write.
Qed.

(** X23.  Every document that a program builds through the backend, by
    making pages, registering fonts, printing on canvases, showing glyphs
    and writing, can be written: [Document.write] returns the bytes of a
    file, and the document it leaves can be built on further. *)
Theorem built_can_be_written (D : Document) :
  built D ->
  exists out (D' : Document),
    pdf.write float float_str D = Ok (out, D')
    /\ built D'
    /\ length (cos.objects float (pdf.pdf_document float D'))
       = (length (cos.objects float (pdf.pdf_document float D))
          + length (pdf.pages float D))%nat.
Proof.
  intros HD. destruct (built_in_order D HD) as (Hr & He & Hd).
  destruct (attach_contents_total _ _ _ Hd He) as (doc1 & Hrun & He1 & Hlen).
  assert (Hr1 : reachable doc1) by (by eapply closed_attach_contents).
  destruct (reachable_write_total _ _ doc1 Hr1 He1) as (out & doc2 & Hw).
  pose proof (write_inv _ _ _ _ _ Hw) as (table & file & _ & Hdoc2).
  assert (Hwrite : pdf.write float float_str D
                   = Ok (out, {| pdf.pdf_document := doc2;
                                 pdf.pages := pdf.pages float D;
                                 pdf.fonts := pdf.fonts float D |})).
  { unfold pdf.write, pdf.mbind, pdf.on_pdf_document.
    rewrite Hrun. cbn [pdf.pdf_document pdf.pages pdf.fonts].
    by rewrite Hw. }
  exists out. eexists. split; [exact Hwrite|]. split.
  - eapply pdf.built_write; [exact HD | exact Hwrite].
  - cbn [pdf.pdf_document]. rewrite Hdoc2. cbn [cos.objects]. exact Hlen.
Qed.

(** X24.  In every document that a program builds through the backend,
    the aliases of each page are in order: each is [F] and a number from
    1 up to the page's font counter, and no page gives two fonts the same
    alias. *)
Theorem built_aliases_in_order (D : Document) :
  built D -> Forall (pdf.aliases_in_order float) (pdf.pages float D).
Proof.
  induction 1 as [D Hinit|D w h p D' HD IH Hrun|D f h D' HD IH Hrun
                 |D self f name D' HD IH Hrun|D page p text HD IH Hp
                 |D self page x y f size glyphs ds out D' HD IH Hrun
                 |D out D' HD IH Hrun].
  - apply in_order_init in Hinit as [_ ->]. constructor.
  - eapply in_order_Page_init in Hrun as [_ (P & -> & Hn & Hnames & _)];
      [|by apply built_in_order].
    apply Forall_app. split; [done|]. apply Forall_singleton.
    split; [lia|]. rewrite Hnames.
    split; intros g; intros; by rewrite lookup_empty in *.
  - eapply in_order_Document_register_font in Hrun as [_ ->];
      [done | by apply built_in_order].
  - pose proof Hrun as Hrun'.
    apply Page_register_font_inv in Hrun' as (P & HP & _).
    destruct (Page_register_font_aliases float is_core ps_name D D' self P
                f name HP (Forall_lookup_1 _ _ _ _ IH HP) Hrun)
      as (P' & -> & HP' & _).
    by apply Forall_insert.
  - cbn [pdf.pages]. apply Forall_insert; [done|].
    by apply (Forall_lookup_1 _ _ _ _ IH Hp).
  - apply show_glyphs_inv in Hrun as [name Hrun].
    pose proof Hrun as Hrun'.
    apply Page_register_font_inv in Hrun' as (P & HP & _).
    destruct (Page_register_font_aliases float is_core ps_name D D' page P
                f name HP (Forall_lookup_1 _ _ _ _ IH HP) Hrun)
      as (P' & -> & HP' & _).
    by apply Forall_insert.
  - eapply in_order_write in Hrun as [_ ->];
      [done | by apply built_in_order].
Qed.

(** No two pages of a built document share a dictionary. *)
Lemma built_pages_distinct (D : Document) :
  built D -> NoDup (pdf.pdf_page float <$> pdf.pages float D).
Proof.
  induction 1 as [D Hinit|D w h p D' HD IH Hrun|D f h D' HD IH Hrun
                 |D self f name D' HD IH Hrun|D page p text HD IH Hp
                 |D self page x y f size glyphs ds out D' HD IH Hrun
                 |D out D' HD IH Hrun].
  - apply in_order_init in Hinit as [_ ->]. constructor.
  - pose proof (built_in_order D HD) as HDo.
    destruct HDo as (_ & _ & Hd).
    eapply in_order_Page_init in Hrun as [_ (P & -> & _ & _ & Hpage)];
      [|by apply built_in_order].
    rewrite fmap_app. apply NoDup_app. split; [done|]. split.
    + intros handle Hin Hnew. apply list_elem_of_singleton in Hnew.
      apply list_elem_of_fmap in Hin as (Q & -> & HQ).
      eapply Forall_forall in Hd as (o & items & Hlook); [|exact HQ].
      apply lookup_lt_Some in Hlook. simpl in Hnew. lia.
    + apply NoDup_singleton.
  - eapply in_order_Document_register_font in Hrun as [_ ->];
      [done | by apply built_in_order].
  - apply Page_register_font_inv in Hrun as (P & HP & Hcase).
    destruct (pdf.font_names float P !! f).
    + by destruct Hcase as [_ ->].
    + destruct Hcase as [_ ->]. rewrite list_fmap_insert.
      cbn [pdf.pdf_page]. rewrite list_insert_id; [done|].
      by rewrite list_lookup_fmap, HP.
  - cbn [pdf.pages]. rewrite list_fmap_insert. cbn [pdf.pdf_page].
    rewrite list_insert_id; [done|]. by rewrite list_lookup_fmap, Hp.
  - apply show_glyphs_inv in Hrun as [name Hrun].
    apply Page_register_font_inv in Hrun as (P & HP & Hcase).
    destruct (pdf.font_names float P !! f).
    + by destruct Hcase as [_ ->].
    + destruct Hcase as [_ ->]. rewrite list_fmap_insert.
      cbn [pdf.pdf_page]. rewrite list_insert_id; [done|].
      by rewrite list_lookup_fmap, HP.
  - eapply in_order_write in Hrun as [_ ->];
      [done | by apply built_in_order].
Qed.

(** X25.  Writing a document that a program built through the backend
    gives every page its contents: after the write, the dictionary of the
    page at index [i] has as [Contents] the reference of a stream that
    was registered for it, the object number [N + i + 1] for [N] objects
    before the write, and that stream holds the text of the page's canvas
    encoded as UTF-8. *)
Theorem built_write_contents (D : Document) :
  built D ->
  exists out (D' : Document),
    pdf.write float float_str D = Ok (out, D')
    /\ forall i (P : Page), pdf.pages float D !! i = Some P ->
         exists o items,
           cos.objects float (pdf.pdf_document float D')
             !! pdf.pdf_page float P
           = Some (cos.Dictionary float o items)
           /\ cos.dict_get float items "Contents"
              = Some (cos.Reference float
                        (Z.of_nat
                           (length (cos.objects float
                                      (pdf.pdf_document float D)) + i)
                         + 1) 0)
           /\ cos.objects float (pdf.pdf_document float D')
                !! (length (cos.objects float (pdf.pdf_document float D))
                    + i)%nat
              = Some (cos.Stream float
                        {| cos.generation := 0;
                           cos.identifier :=
                             Some (Z.of_nat
                                     (length
                                        (cos.objects float
                                           (pdf.pdf_document float D))
                                      + i) + 1) |}
                        (encode_utf_8 (pdf.canvas float P))).
Proof.
  intros HD. destruct (built_in_order D HD) as (Hr & He & Hd).
  destruct (reachable_numbered _ _ _ Hr) as [Hid _].
  destruct (attach_contents_rounds float (pdf.pages float D)
              (pdf.pdf_document float D) Hid (built_pages_distinct D HD) Hd)
    as (doc1 & Hrun & Hlen & _ & Hpages & _).
  destruct (preserving_attach_contents _ _ _ _ Hrun) as [He1 _].
  assert (Hr1 : reachable doc1) by (by eapply closed_attach_contents).
  destruct (reachable_write_total _ _ doc1 Hr1 (He1 He))
    as (out & doc2 & Hw).
  pose proof (write_inv _ _ _ _ _ Hw) as (table & file & _ & Hdoc2).
  exists out. eexists. split.
  { unfold pdf.write, pdf.mbind, pdf.on_pdf_document.
    rewrite Hrun. cbn [pdf.pdf_document pdf.pages pdf.fonts].
    by rewrite Hw. }
  intros i P HP. cbn [pdf.pdf_document]. rewrite Hdoc2. cbn [cos.objects].
  destruct (Hpages i P HP) as (Hstream & o & items & items' & _ & Hdict
                               & Hcontents & _).
  by exists o, items'.
Qed.

End Built.

Lemma shown_document_built :
  pdf.built Z Example.float_str (fun _ => true) (fun _ => "Helvetica") Z
    str_int Example.by_glyph_name Example.glyph_space Example.adjustment
    Example.shown_document.
Proof.
  eapply pdf.built_glyphs; [|exact shown_eq].
  eapply pdf.built_page; [|exact one_page_backend_eq].
  apply pdf.built_init. exact backend_document_eq.
Qed.

Lemma built_can_be_written_witness :
  pdf.built Z Example.float_str (fun _ => true) (fun _ => "Helvetica") Z
    str_int Example.by_glyph_name Example.glyph_space Example.adjustment
    Example.shown_document
  /\ exists out (D' : pdf.Document Z),
       pdf.write Z Example.float_str Example.shown_document = Ok (out, D')
       /\ pdf.built Z Example.float_str (fun _ => true)
            (fun _ => "Helvetica") Z str_int Example.by_glyph_name
            Example.glyph_space Example.adjustment D'
       /\ length (cos.objects Z (pdf.pdf_document Z D'))
          = (length (cos.objects Z
                       (pdf.pdf_document Z Example.shown_document))
             + length (pdf.pages Z Example.shown_document))%nat.
Proof.
  split; [exact shown_document_built|].
  apply (built_can_be_written Z Example.float_str (fun _ => true)
           (fun _ => "Helvetica") Z str_int Example.by_glyph_name
           Example.glyph_space Example.adjustment Example.shown_document).
  exact shown_document_built.
Defined.

Lemma built_aliases_in_order_witness :
  pdf.built Z Example.float_str (fun _ => true) (fun _ => "Helvetica") Z
    str_int Example.by_glyph_name Example.glyph_space Example.adjustment
    Example.shown_document
  /\ Forall (pdf.aliases_in_order Z) (pdf.pages Z Example.shown_document).
Proof.
  split; [exact shown_document_built|].
  apply (built_aliases_in_order Z Example.float_str (fun _ => true)
           (fun _ => "Helvetica") Z str_int Example.by_glyph_name
           Example.glyph_space Example.adjustment Example.shown_document).
  exact shown_document_built.
Defined.

Lemma built_write_contents_witness :
  pdf.built Z Example.float_str (fun _ => true) (fun _ => "Helvetica") Z
    str_int Example.by_glyph_name Example.glyph_space Example.adjustment
    Example.shown_document
  /\ exists out (D' : pdf.Document Z),
       pdf.write Z Example.float_str Example.shown_document = Ok (out, D')
       /\ forall i (P : pdf.Page Z),
            pdf.pages Z Example.shown_document !! i = Some P ->
            exists o items,
              cos.objects Z (pdf.pdf_document Z D') !! pdf.pdf_page Z P
              = Some (cos.Dictionary Z o items)
              /\ cos.dict_get Z items "Contents"
                 = Some (cos.Reference Z
                           (Z.of_nat
                              (length
                                 (cos.objects Z
                                    (pdf.pdf_document Z
                                       Example.shown_document)) + i)
                            + 1) 0)
              /\ cos.objects Z (pdf.pdf_document Z D')
                   !! (length (cos.objects Z
                                 (pdf.pdf_document Z Example.shown_document))
                       + i)%nat
                 = Some (cos.Stream Z
                           {| cos.generation := 0;
                              cos.identifier :=
                                Some (Z.of_nat
                                        (length
                                           (cos.objects Z
                                              (pdf.pdf_document Z
                                                 Example.shown_document))
                                         + i) + 1) |}
                           (encode_utf_8 (pdf.canvas Z P))).
Proof.
  split; [exact shown_document_built|].
  apply (built_write_contents Z Example.float_str (fun _ => true)
           (fun _ => "Helvetica") Z str_int Example.by_glyph_name
           Example.glyph_space Example.adjustment Example.shown_document).
  exact shown_document_built.
Defined.

(** * Paths *)

Section Paths.

Variable number : Type.
Variable number_str : number -> str.

Lemma line_to_loop (rest : list (number * number)) : forall self,
  fold_left (fun self (point : number * number) =>
               pdf.line_to number number_str self (fst point) (snd point))
    rest self
  = self +:+ flatten
               ((fun point : number * number =>
                   number_str (fst point) +:+ " " +:+ number_str (snd point)
                   +:+ " l" +:+ Py.char LF) <$> rest).
Proof.
  induction rest as [|point rest IH]; intros self.
  - simpl. by rewrite append_nil_r.
  - cbn [fold_left fmap list_fmap flatten]. rewrite IH.
    unfold pdf.line_to, pdf.print. by rewrite !append_assoc.
Qed.

(** X26.  [line_path] on no points raises [IndexError].  On one point or
    more it adds to the canvas, after what was there, a closed polygon:
    one [m] line for the first point, one [l] line for each further point
    in order, and [h]. *)
Theorem line_path_closed_polygon self (points : list (number * number)) :
  match points with
  | [] => pdf.line_path number number_str self points = pdf.IndexError
  | first :: rest =>
      pdf.line_path number number_str self points
      = pdf.Drawn
          (self
           +:+ (number_str (fst first) +:+ " " +:+ number_str (snd first)
                +:+ " m" +:+ Py.char LF)
           +:+ flatten
                 ((fun point : number * number =>
                     number_str (fst point) +:+ " "
                     +:+ number_str (snd point) +:+ " l" +:+ Py.char LF)
                    <$> rest)
           +:+ "h" +:+ Py.char LF)
  end.
Proof.
  destruct points as [|[x y] rest]; [reflexivity|].
  unfold pdf.line_path, pdf.new_path, pdf.close_path. rewrite line_to_loop.
  unfold pdf.move_to, pdf.print. cbn [fst snd]. by rewrite !append_assoc.
Qed.

End Paths.

Lemma first_write_xref_table_witness :
  cos.reachable Z Example.float_str Example.one_page_document
  /\ cos.xref_table Z Example.one_page_document = cos.XRefTable_init Z
  /\ cos.write Z Example.float_str Example.one_page_document
     = Ok (Example.written_bytes, Example.written_document)
  /\ Z.of_nat (String.length Example.written_bytes) < 10000000000
  /\ exists s count entries before after,
       cos.XRefTable_str Z (cos.xref_table Z Example.written_document) = Ok s
       /\ Example.written_bytes
          = before +:+ encode_utf_8 s +:+ Py.char LF +:+ "trailer" +:+ after
       /\ Reader.lines s
          = "xref" :: ("0 " +:+ count) :: "0000000000 65535 f " :: entries
       /\ Reader.decimal count
          = Some (N.of_nat (length (cos.objects Z Example.one_page_document))
                  + 1)%N
       /\ length entries = length (cos.objects Z Example.one_page_document)
       /\ Forall2 xref_entry
            (cos.zip (cos.objects Z Example.one_page_document)
                     (cos.XRefTable_addresses Z
                        (cos.xref_table Z Example.written_document)))
            entries.
Proof.
  split; [exact one_page_document_reachable|].
  split; [vm_compute; reflexivity|]. split; [exact written_eq|].
  split; [vm_compute; reflexivity|].
  apply (first_write_xref_table Z Example.float_str
           Example.one_page_document Example.written_document
           Example.written_bytes).
  - exact one_page_document_reachable.
  - vm_compute. reflexivity.
  - exact written_eq.
  - vm_compute. reflexivity.
Defined.

(** Two inputs on which the table is not as the specification has it.
    A new document has two registered objects; written a second time, its
    table says [0 5] and has four entries, where it should say [0 3] and
    have two.  And an offset of 10^10 takes eleven digits, not ten. *)
Lemma xref_table_not_as_specified :
  (exists out1 out2 s,
     cos.Document_init Z = Ok Example.new_document
     /\ cos.write Z Example.float_str Example.new_document
        = Ok (out1, Example.written_once)
     /\ cos.write Z Example.float_str Example.written_once
        = Ok (out2, Example.written_twice)
     /\ length (cos.objects Z Example.written_once) = 2%nat
     /\ cos.XRefTable_str Z (cos.xref_table Z Example.written_twice) = Ok s
     /\ Reader.lines s
        = ["xref"; "0 5"; "0000000000 65535 f ";
           "0000000015 00000 n "; "0000000076 00000 n ";
           "0000000015 00000 n "; "0000000076 00000 n "]
     /\ ~ (exists count entries,
             Reader.lines s
             = "xref" :: ("0 " +:+ count) :: "0000000000 65535 f "
               :: entries
             /\ Reader.decimal count
                = Some (N.of_nat (length (cos.objects Z Example.written_once))
                        + 1)%N
             /\ length entries
                = length (cos.objects Z Example.written_once)))
  /\ (exists s line,
        cos.XRefTable_str Z Example.far_table = Ok s
        /\ Reader.lines s
           = ["xref"; "0 2"; "0000000000 65535 f "; line]
        /\ line = "10000000000 00000 n "
        /\ ~ xref_entry
               (cos.Dictionary Z
                  {| cos.generation := 0; cos.identifier := Some 1 |} [],
                10000000000) line).
Proof.
  split.
  - eexists _, _, _. split; [vm_compute; reflexivity|].
    split; [vm_compute; reflexivity|]. split; [vm_compute; reflexivity|].
    split; [reflexivity|]. split; [vm_compute; reflexivity|].
    split; [vm_compute; reflexivity|].
    intros (count & entries & Hlines & Hcount & Hlen).
    vm_compute in Hlines. injection Hlines as <- <-.
    vm_compute in Hcount. discriminate.
  - eexists _, _. split; [vm_compute; reflexivity|].
    split; [vm_compute; reflexivity|]. split; [reflexivity|].
    intros (g & offset & gen & _ & Hline & (Hlen & _) & _).
    cbn [snd] in Hlen.
    do 10 (destruct offset as [|? offset]; [simpl in Hlen; lia|]).
    destruct offset; [|simpl in Hlen; lia].
    simpl in Hline. congruence.
Qed.
